(** * AI-Devops-Workbench: the orchestration engine, embedded and verified

    The development follows the three Python modules of
    [orchestration-engine/]:

    - [meta_orchestrator.py]   (module [MetaOrchestrator]),
    - [intelligence_engine.py] (module [IntelligenceEngine]),
    - [methodology_validator.py] (module [MethodologyValidator]),

    on top of a small model of the Python values they manipulate (module
    [Py]).  Part I holds the definitions, Part II the theorems.

    Conventions of the embedding.

    - A Python [str] is a Rocq [string]; [kw in text] is [Py.contains].
      [.lower()] and [.upper()] act on the ASCII letters.
    - A Python [dict] is an association list in insertion order with
      unique keys ([Py.PyDict]); [str(d)] is [Py.py_str], which prints the
      way CPython's [repr] does for [None], booleans, integers, strings,
      lists and dicts.
    - A Python [float] is an exact rational ([Q]).  Every score of the
      program is compared by the program itself with the constant that the
      claims name, so the statements below are read off the same
      comparisons the code performs.  Where a statement names the very
      value or label of a score, the score is computed again in binary64
      ([MethodologyValidator.Binary64], on Rocq's primitive floats), the
      arithmetic of the interpreter.
    - A character is one [ascii]; [len] and [.lower()] are those of
      Python on ASCII text, which the statements that depend on them
      assume ([Py.is_ascii]).
    - [list(set(l))] has no specified order in Python; where the order
      reaches a result, the conversion is a parameter [list_of_set].
    - An [await]ed call that may raise is a value of [Py.Outcome]. *)

From Stdlib Require Import String Ascii List Bool Arith ZArith QArith Lia.
From Stdlib Require Import DecimalString Lqa.
From Stdlib Require Import Permutation.
From Stdlib Require Import Floats Uint63.
Import ListNotations.

Set Implicit Arguments.

Set Warnings "-register-all".
Set Warnings "-inexact-float".

Close Scope Q_scope.
Open Scope list_scope.
Open Scope string_scope.
Open Scope nat_scope.

(** List concatenation, kept apart from the [++] of strings. *)
Notation "l1 +++ l2" := (@app _ l1 l2) (at level 60, right associativity).

(* ================================================================== *)
(** * Part I.  Definitions                                             *)
(* ================================================================== *)

Module Py.

(** ** Strings *)

Definition dquote : ascii := ascii_of_nat 34.
Definition squote : ascii := ascii_of_nat 39.
Definition backslash : ascii := ascii_of_nat 92.

Definition str1 (c : ascii) : string := String c EmptyString.

(** [kw in text] on two strings. *)
Fixpoint contains (kw text : string) : bool :=
  match text with
  | EmptyString => prefix kw EmptyString
  | String _ rest => prefix kw text || contains kw rest
  end.

(** [any(kw in text for kw in kws)] *)
Definition any_in (kws : list string) (text : string) : bool :=
  existsb (fun kw => contains kw text) kws.

(** [sum(1 for kw in kws if kw in text)] *)
Definition count_in (kws : list string) (text : string) : nat :=
  length (filter (fun kw => contains kw text) kws).

Definition lower_ascii (c : ascii) : ascii :=
  let n := nat_of_ascii c in
  if (65 <=? n) && (n <=? 90) then ascii_of_nat (n + 32) else c.

Definition upper_ascii (c : ascii) : ascii :=
  let n := nat_of_ascii c in
  if (97 <=? n) && (n <=? 122) then ascii_of_nat (n - 32) else c.

Fixpoint map_string (f : ascii -> ascii) (s : string) : string :=
  match s with
  | EmptyString => EmptyString
  | String c rest => String (f c) (map_string f rest)
  end.

Definition lower : string -> string := map_string lower_ascii.
Definition upper : string -> string := map_string upper_ascii.

(** [s.replace(a, b)] for single characters. *)
Definition replace_char (a b : ascii) : string -> string :=
  map_string (fun c => if Ascii.eqb c a then b else c).

Definition underscore : ascii := ascii_of_nat 95.
Definition space : ascii := ascii_of_nat 32.

(** [s.replace("_", " ")] *)
Definition unsnake : string -> string := replace_char underscore space.

(** [sep.join(parts)] *)
Fixpoint join (sep : string) (parts : list string) : string :=
  match parts with
  | [] => ""
  | [p] => p
  | p :: rest => p ++ sep ++ join sep rest
  end.

(** [s.split(c)] for a one-character separator: empty fields are kept. *)
Fixpoint split_on_aux (sep : ascii) (s : string) (cur : string) : list string :=
  match s with
  | EmptyString => [cur]
  | String c rest =>
      if Ascii.eqb c sep then cur :: split_on_aux sep rest ""
      else split_on_aux sep rest (cur ++ str1 c)
  end.

Definition split_on (sep : ascii) (s : string) : list string :=
  split_on_aux sep s "".

(** Whitespace of [str.split()] on ASCII text. *)
Definition is_space (c : ascii) : bool :=
  let n := nat_of_ascii c in
  ((9 <=? n) && (n <=? 13)) || ((28 <=? n) && (n <=? 32)).

Fixpoint split_ws_aux (s : string) (cur : string) : list string :=
  match s with
  | EmptyString => match cur with EmptyString => [] | _ => [cur] end
  | String c rest =>
      if is_space c then
        match cur with
        | EmptyString => split_ws_aux rest ""
        | _ => cur :: split_ws_aux rest ""
        end
      else split_ws_aux rest (cur ++ str1 c)
  end.

(** [s.split()] *)
Definition split (s : string) : list string := split_ws_aux s "".

(** [str(n)] for a non-negative and for a signed integer. *)
Definition str_of_nat (n : nat) : string :=
  NilZero.string_of_uint (Nat.to_uint n).

Definition str_of_Z (z : Z) : string :=
  NilZero.string_of_int (Z.to_int z).

(** [set(l)] keeps one copy of each element; [len(set(l))] is the length
    of [dedup l] whatever order the set has. *)
Definition dedup (l : list string) : list string := nodup string_dec l.

Definition mem (s : string) (l : list string) : bool :=
  existsb (String.eqb s) l.

(** ** Values and dictionaries *)

Inductive PyVal : Type :=
| PNone
| PBool (b : bool)
| PInt (z : Z)
| PStr (s : string)
| PList (l : list PyVal)
| PDict (d : list (string * PyVal)).

Definition PyDict : Type := list (string * PyVal).

Fixpoint get (k : string) (d : PyDict) : option PyVal :=
  match d with
  | [] => None
  | (k', v) :: rest => if String.eqb k k' then Some v else get k rest
  end.

(** [k in d] *)
Definition has_key (k : string) (d : PyDict) : bool :=
  match get k d with Some _ => true | None => false end.

Definition keys (d : PyDict) : list string := map fst d.
Definition values (d : PyDict) : list PyVal := map snd d.

(** [d[k] = v]: an existing key keeps its place, a new key goes last. *)
Fixpoint set_item (k : string) (v : PyVal) (d : PyDict) : PyDict :=
  match d with
  | [] => [(k, v)]
  | (k', v') :: rest =>
      if String.eqb k k' then (k, v) :: rest
      else (k', v') :: set_item k v rest
  end.

(** [d.update(e)], also [{**d, **e}] on a fresh copy of [d]. *)
Definition update (d e : PyDict) : PyDict :=
  fold_left (fun acc kv => set_item (fst kv) (snd kv) acc) e d.

(** The dict literal [{k1: v1, ..., kn: vn}]: a repeated key keeps its
    first position and its last value. *)
Definition dict_of (items : list (string * PyVal)) : PyDict :=
  update [] items.

(** Truth value of a dict, a list or a string: non-empty. *)
Definition truthy_dict (d : PyDict) : bool :=
  match d with [] => false | _ => true end.

Definition truthy_str (s : string) : bool :=
  match s with EmptyString => false | _ => true end.


(** ** [repr] and [str] *)

Definition hex_digit (n : nat) : ascii :=
  if n <? 10 then ascii_of_nat (48 + n) else ascii_of_nat (87 + n).

Definition escape_char (quote c : ascii) : string :=
  let n := nat_of_ascii c in
  if Ascii.eqb c quote || Ascii.eqb c backslash then String backslash (str1 c)
  else if n =? 9 then String backslash "t"
  else if n =? 10 then String backslash "n"
  else if n =? 13 then String backslash "r"
  else if (n <? 32) || (n =? 127) then
    String backslash (String "x"%char
      (String (hex_digit (n / 16)) (str1 (hex_digit (n mod 16)))))
  else str1 c.

Fixpoint escape (quote : ascii) (s : string) : string :=
  match s with
  | EmptyString => EmptyString
  | String c rest => escape_char quote c ++ escape quote rest
  end.

(** [repr(s)]: single quotes, unless the string has a single quote and no
    double quote. *)
Definition repr_str (s : string) : string :=
  let quote :=
    if contains (str1 squote) s && negb (contains (str1 dquote) s)
    then dquote else squote in
  String quote (escape quote s ++ str1 quote).

Fixpoint py_repr (v : PyVal) : string :=
  match v with
  | PNone => "None"
  | PBool true => "True"
  | PBool false => "False"
  | PInt z => str_of_Z z
  | PStr s => repr_str s
  | PList l => "[" ++ join ", " (map py_repr l) ++ "]"
  | PDict d =>
      "{" ++ join ", "
               (map (fun kv => repr_str (fst kv) ++ ": " ++ py_repr (snd kv)) d)
          ++ "}"
  end.

(** [str(v)] *)
Definition py_str (v : PyVal) : string :=
  match v with
  | PStr s => s
  | _ => py_repr v
  end.

(** A [Dict[str, str]], such as one technical decision. *)
Definition StrDict : Type := list (string * string).

Definition of_strdict (d : StrDict) : PyVal :=
  PDict (map (fun kv => (fst kv, PStr (snd kv))) d).

Fixpoint sget (k : string) (d : StrDict) : option string :=
  match d with
  | [] => None
  | (k', v) :: rest => if String.eqb k k' then Some v else sget k rest
  end.

(** [d.get(k, dflt)] *)
Definition sget_or (k dflt : string) (d : StrDict) : string :=
  match sget k d with Some v => v | None => dflt end.

Definition option_eqb (a b : option string) : bool :=
  match a, b with
  | Some x, Some y => String.eqb x y
  | None, None => true
  | _, _ => false
  end.

(** ** Numbers *)

(** [float(n)] of a count. *)
Definition Qnat (n : nat) : Q := inject_Z (Z.of_nat n).

(** [a < b] *)
Definition Qlt_bool (a b : Q) : bool := negb (Qle_bool b a).

(** Python's two-argument [min] and [max]: the first argument unless the
    second is strictly smaller (larger). *)
Definition py_min (a b : Q) : Q := if Qlt_bool b a then b else a.
Definition py_max (a b : Q) : Q := if Qlt_bool a b then b else a.

(** [sum(l)] *)
Definition Qsum (l : list Q) : Q := fold_left Qplus l 0%Q.

(** ** Calls that may raise *)

Inductive Outcome (A : Type) : Type :=
| Returned (a : A)
| Raised (msg : string).

Arguments Raised {A} msg.

End Py.

(* ------------------------------------------------------------------ *)
(** ** meta_orchestrator.py                                            *)
(* ------------------------------------------------------------------ *)

Module MetaOrchestrator.
Import Py.

Inductive OrchestrationPattern : Type :=
| SEQUENTIAL
| MAPREDUCE
| CONSENSUS
| HIERARCHICAL.

Record DevelopmentRequest : Type := mkRequest {
  objective : string;
  context : PyDict;
  constraints : PyDict;
  output_format : string;
  success_criteria : string;
  project_type : string;
  technical_requirements : PyDict;
  quality_gates : list string
}.

(** The [metadata] dict of a response, by the keys the program reads;
    [None] is an absent key. *)
Record Metadata : Type := mkMetadata {
  agent_name : option string;
  methodology_applied : option string;
  confidence : option Q;
  processing_time : option string
}.

Definition no_metadata : Metadata := mkMetadata None None None None.

Record AgentResponse : Type := mkResponse {
  status : string;
  result : PyDict;
  metadata : Metadata;
  recommendations : PyDict;
  scope_boundaries : PyDict;
  potential_conflicts : PyDict;
  errors : string;
  code_quality_metrics : PyDict;
  technical_decisions : list StrDict;
  implementation_risks : list string
}.

(** [AgentResponse(status='failed', errors=msg)] *)
Definition failed_response (msg : string) : AgentResponse :=
  mkResponse "failed" [] no_metadata [] [] [] msg [] [] [].

Definition is_success (r : AgentResponse) : bool := String.eqb (status r) "success".
Definition is_failed (r : AgentResponse) : bool := String.eqb (status r) "failed".

(** [metadata.get('agent_name', 'unknown')] *)
Definition name_of (r : AgentResponse) : string :=
  match agent_name (metadata r) with Some n => n | None => "unknown" end.

(** A validated agent file: [agent_identity.methodology] may be absent. *)
Record AgentConfig : Type := mkConfig {
  cfg_methodology : option string
}.

Definition ActiveAgents : Type := list (string * AgentConfig).

Fixpoint find_agent (name : string) (agents : ActiveAgents) : option AgentConfig :=
  match agents with
  | [] => None
  | (n, c) :: rest => if String.eqb name n then Some c else find_agent name rest
  end.

Definition with_context (request : DevelopmentRequest) (ctx : PyDict) : DevelopmentRequest :=
  mkRequest (objective request) ctx (constraints request) (output_format request)
            (success_criteria request) (project_type request)
            (technical_requirements request) (quality_gates request).

(** *** The placeholder consultation *)

Definition decision_of (d r : string) : StrDict :=
  [("decision", d); ("recommendation", r)].

(** [_consult_agent]: an unknown agent and a [KeyError] on the agent's
    methodology both end in a failed response; nothing is raised. *)
Definition _consult_agent (active_agents : ActiveAgents) (name : string)
    (request : DevelopmentRequest) : Outcome AgentResponse :=
  match find_agent name active_agents with
  | None =>
      Returned (failed_response ("Agent '" ++ name ++ "' not available"))
  | Some agent_config =>
      match cfg_methodology agent_config with
      | None => Returned (failed_response "'methodology'")
      | Some methodology =>
          let '(res, decisions) :=
            if String.eqb name "senior-architect" then
              ([("architectural_recommendation",
                   PStr ("System design analysis for: " ++ objective request));
                ("technology_stack_guidance",
                   PStr "Technology recommendations based on requirements");
                ("design_patterns", PStr "Recommended architectural patterns");
                ("scalability_considerations",
                   PStr "Performance and scaling guidance")],
               [decision_of "Architecture Pattern" "Microservices vs Monolith analysis";
                decision_of "Technology Stack" "Framework and library selections"])
            else if String.eqb name "security-consultant" then
              ([("security_analysis",
                   PStr ("Security assessment for: " ++ objective request));
                ("threat_model",
                   PStr "Identified security threats and mitigations");
                ("compliance_requirements",
                   PStr "Regulatory and security compliance needs")],
               [decision_of "Security Controls" "Authentication and authorization approach";
                decision_of "Data Protection" "Encryption and data handling requirements"])
            else
              ([("consultation_output",
                   PStr (name ++ " analysis of: " ++ objective request));
                ("recommendations",
                   PStr ("Specialized guidance from " ++ name))],
               []) in
          Returned
            (mkResponse "success" res
               (mkMetadata (Some name) (Some methodology) (Some (17 # 20)%Q)
                           (Some "2.3s"))
               [("follow_up_actions",
                   PStr ("Implement " ++ name ++ " recommendations"));
                ("next_consultations", PList [])]
               [] [] "" [] decisions
               ["Risk assessment from " ++ name])
      end
  end.

(** *** Task analysis and pattern selection *)

Record TaskComplexity : Type := mkComplexity {
  multiple_systems : bool;
  security_critical : bool;
  ui_component : bool;
  architecture_change : bool;
  performance_critical : bool;
  conflicts_likely : bool;
  parallel_work_possible : bool;
  complexity_score : nat;
  complexity_level : string
}.

Definition b2n (b : bool) : nat := if b then 1 else 0.

Definition _assess_task_complexity (request : DevelopmentRequest) : TaskComplexity :=
  let o := lower (objective request) in
  let i1 := any_in ["integration"; "microservice"; "api"; "database"] o in
  let i2 := any_in ["security"; "auth"; "permission"; "encryption"] o in
  let i3 := any_in ["frontend"; "ui"; "interface"; "component"] o in
  let i4 := any_in ["architecture"; "design"; "refactor"; "restructure"] o in
  let i5 := any_in ["performance"; "optimization"; "scaling"; "speed"] o in
  let i6 := (3 <? length (technical_requirements request))
            || (2 <? length (constraints request)) in
  let i7 := contains "analysis" o || contains "review" o in
  let score := b2n i1 + b2n i2 + b2n i3 + b2n i4 + b2n i5 + b2n i6 + b2n i7 in
  mkComplexity i1 i2 i3 i4 i5 i6 i7 score
    (if 4 <=? score then "high" else if 2 <=? score then "medium" else "low").

Record CoordinationNeeds : Type := mkCoordination {
  sequential_dependencies : bool;
  parallel_analysis_beneficial : bool;
  consensus_required : bool;
  hierarchical_coordination : bool
}.

Definition _assess_coordination_needs (request : DevelopmentRequest)
    (required_expertise : list string) : CoordinationNeeds :=
  let o := lower (objective request) in
  mkCoordination
    (1 <? length required_expertise)
    (contains "review" o)
    ((2 <? length required_expertise) && contains "decision" o)
    (mem "senior-architect" required_expertise && (2 <? length required_expertise)).

Record OrchestrationPlan : Type := mkPlan {
  pattern : OrchestrationPattern;
  complexity : TaskComplexity;
  required_expertise : list string;
  coordination_strategy : CoordinationNeeds;
  estimated_steps : nat
}.

(** *** The response of the orchestrator: a dict, by its keys *)

Record SynthesisSummary : Type := mkSummary {
  total_agents_consulted : nat;
  successful_consultations : nat;
  failed_consultations : nat;
  consensus_level : string
}.

Record TechnicalGuidance : Type := mkGuidance {
  primary_recommendations : list PyVal;
  guidance_technical_decisions : list StrDict;
  implementation_approach : string;
  quality_requirements : PyDict
}.

Record RiskAssessment : Type := mkRisk {
  risk_implementation_risks : list string;
  mitigation_strategies : list string;
  confidence_level : Q
}.

Record NextSteps : Type := mkNextSteps {
  immediate_actions : list string;
  follow_up_consultations : list string;
  next_quality_gates : list string
}.

Record AgentDetail : Type := mkDetail {
  detail_agent : string;
  detail_methodology : string;
  key_recommendations : PyDict;
  detail_confidence : Q
}.

Record QualityChecks : Type := mkChecks {
  has_technical_guidance : bool;
  has_implementation_approach : bool;
  has_risk_assessment : bool;
  has_next_steps : bool;
  meets_success_criteria : bool
}.

Record QualityValidation : Type := mkValidation {
  quality_checks : QualityChecks;
  quality_score : Q;
  validation_passed : bool;
  validation_timestamp : string
}.

Record Response : Type := mkResp {
  resp_status : string;
  resp_error : option string;
  failed_agents : option nat;
  synthesis_summary : option SynthesisSummary;
  technical_guidance : option TechnicalGuidance;
  risk_assessment : option RiskAssessment;
  next_steps : option NextSteps;
  detailed_agent_responses : option (list AgentDetail);
  quality_validation : option QualityValidation;
  quality_warnings : option (list string);
  request_objective : option string;
  resp_timestamp : option string;
  fallback_recommendations : option (list string)
}.

Record HistoryEntry : Type := mkEntry {
  entry_timestamp : string;
  entry_objective : string;
  entry_project_type : string;
  agents_consulted : list string;
  entry_technical_decisions : list StrDict;
  entry_quality_score : Q
}.

(** The mutable attributes of [DevelopmentMetaOrchestrator]. *)
Record Orchestrator : Type := mkOrchestrator {
  active_agents : ActiveAgents;
  conversation_history : list HistoryEntry;
  registry_technical_decisions : list StrDict;
  quality_metrics : list (string * QualityValidation)
}.

Section Engine.

(** The consultation of one contributor: the external call of the
    orchestrator.  [_consult_agent] above is the instance shipped with
    the repository. *)
Variable consult : string -> DevelopmentRequest -> Outcome AgentResponse.

(** [list(set(l))], in the order the interpreter happens to give. *)
Variable list_of_set : list string -> list string.

(** [str(response)] of the whole response dict. *)
Variable str_of_response : Response -> string.

(** [_get_timestamp()] at its three call sites. *)
Variables validation_time history_time error_time : string.

Definition _determine_required_expertise (request : DevelopmentRequest) : list string :=
  let o := lower (objective request) in
  let a1 := if any_in ["architecture"; "design"; "system"; "integration"] o
            then ["senior-architect"] else [] in
  let a2 := if any_in ["security"; "auth"; "permission"; "encryption"; "vulnerability"] o
            then ["security-consultant"] else [] in
  let a3 := if any_in ["ui"; "ux"; "user"; "interface"; "frontend"] o
            then ["ux-strategist"] else [] in
  let a4 := if any_in ["api"; "backend"; "server"; "database"; "microservice"] o
            then ["backend-builder"] else [] in
  let a5 := if any_in ["frontend"; "ui"; "react"; "vue"; "angular"; "component"] o
            then ["frontend-builder"] else [] in
  let required_agents := (a1 +++ a2 +++ a3 +++ a4 +++ a5) in
  list_of_set
    (match required_agents with
     | [] => ["senior-architect"]
     | _ => required_agents
     end).

Definition _analyze_development_task (request : DevelopmentRequest) : OrchestrationPlan :=
  let task_complexity := _assess_task_complexity request in
  let required := _determine_required_expertise request in
  let coordination_needs := _assess_coordination_needs request required in
  let pat :=
    if length required =? 1 then SEQUENTIAL
    else if conflicts_likely task_complexity
            || contains "architecture_decision" (lower (objective request))
         then CONSENSUS
    else if parallel_work_possible task_complexity then MAPREDUCE
    else if mem "senior-architect" required && (2 <? length required)
         then HIERARCHICAL
    else SEQUENTIAL in
  mkPlan pat task_complexity required coordination_needs (length required).

Definition is_active (self : Orchestrator) (name : string) : bool :=
  match find_agent name (active_agents self) with Some _ => true | None => false end.

Definition _select_agents_for_task (self : Orchestrator) (plan : OrchestrationPlan)
    : list string :=
  match filter (is_active self) (required_expertise plan) with
  | [] => if is_active self "senior-architect" then ["senior-architect"] else []
  | available_agents => available_agents
  end.

(** *** Sequential *)

(** The three entries one successful contributor adds to the context. *)
Definition contribution (name : string) (response : AgentResponse) : PyDict :=
  dict_of
    [(name ++ "_recommendations", PDict (recommendations response));
     (name ++ "_decisions", PList (map of_strdict (technical_decisions response)));
     (name ++ "_constraints", PDict (scope_boundaries response))].

(** The loop of [_execute_sequential_workflow].  Each step is recorded
    with the value the shared [accumulated_context] dict has when the
    contributor is called. *)
Fixpoint sequential_trace (request : DevelopmentRequest) (agents : list string)
    (accumulated_context : PyDict) : list (PyDict * AgentResponse) :=
  match agents with
  | [] => []
  | name :: rest =>
      let updated_request := with_context request accumulated_context in
      match consult name updated_request with
      | Returned response =>
          (accumulated_context, response)
          :: sequential_trace request rest
               (if is_success response
                then update accumulated_context (contribution name response)
                else accumulated_context)
      | Raised e =>
          (accumulated_context, failed_response e)
          :: sequential_trace request rest accumulated_context
      end
  end.

Definition _execute_sequential_workflow (request : DevelopmentRequest)
    (agents : list string) : list AgentResponse :=
  map snd (sequential_trace request agents (context request)).

(** The contexts the contributors were called with, in order. *)
Definition sequential_contexts (request : DevelopmentRequest)
    (agents : list string) : list PyDict :=
  map fst (sequential_trace request agents (context request)).

(** *** Parallel *)

(** [asyncio.gather] over the tasks with [return_exceptions=True]:
    one entry per task, in the order of the tasks. *)
Definition gather (request : DevelopmentRequest) (agents : list string)
    : list (Outcome AgentResponse) :=
  map (fun name => consult name request) agents.

Definition settle (result : Outcome AgentResponse) : AgentResponse :=
  match result with
  | Raised e => failed_response e
  | Returned response => response
  end.

Definition _execute_parallel_analysis (request : DevelopmentRequest)
    (agents : list string) : list AgentResponse :=
  map settle (gather request agents).

(** *** Consensus *)

Record ResponseConflict : Type := mkResponseConflict {
  conflict_agents : list string;
  conflict_kind : string;
  conflict_description : string
}.

Definition indexed {A : Type} (start : nat) (l : list A) : list (nat * A) :=
  combine (seq start (length l)) l.

Fixpoint detect_from (i : nat) (responses : list AgentResponse)
    : list ResponseConflict :=
  match responses with
  | [] => []
  | response1 :: rest =>
      app (flat_map
         (fun jr : nat * AgentResponse =>
            if truthy_dict (potential_conflicts response1)
               && truthy_dict (potential_conflicts (snd jr))
            then [mkResponseConflict
                    ["agent_" ++ str_of_nat i; "agent_" ++ str_of_nat (fst jr)]
                    "methodology_difference"
                    "Conflicting technical recommendations detected"]
            else [])
         (indexed (S i) rest))
        (detect_from (S i) rest)
  end.

Definition _detect_response_conflicts (responses : list AgentResponse)
    : list ResponseConflict :=
  detect_from 0 responses.

Definition annotate (response : AgentResponse) : AgentResponse :=
  mkResponse (status response) (result response) (metadata response)
    (recommendations response) (scope_boundaries response)
    (set_item "consensus_attempted" (PBool true) (potential_conflicts response))
    (errors response) (code_quality_metrics response)
    (technical_decisions response) (implementation_risks response).

Definition _resolve_conflicts_through_consensus (responses : list AgentResponse)
    : list AgentResponse :=
  map annotate responses.

Definition _execute_consensus_decision (request : DevelopmentRequest)
    (agents : list string) : list AgentResponse :=
  let responses := _execute_parallel_analysis request agents in
  match _detect_response_conflicts responses with
  | [] => responses
  | _ => _resolve_conflicts_through_consensus responses
  end.

(** *** Hierarchical *)

Definition is_architect (name : string) : bool := String.eqb name "senior-architect".

Definition guided (request : DevelopmentRequest) (architect_response : AgentResponse)
    : DevelopmentRequest :=
  with_context request
    (update (context request)
       (dict_of
          [("architect_guidance", PDict (result architect_response));
           ("technical_direction",
              PList (map of_strdict (technical_decisions architect_response)))])).

(** The architect is consulted outside any [try]: an exception of that
    call leaves the method. *)
Definition _execute_hierarchical_delegation (request : DevelopmentRequest)
    (agents : list string) : Outcome (list AgentResponse) :=
  if negb (mem "senior-architect" agents) then
    Returned (_execute_sequential_workflow request agents)
  else
    match consult "senior-architect" request with
    | Raised e => Raised e
    | Returned architect_response =>
        if negb (is_success architect_response) then
          Returned (_execute_parallel_analysis request agents)
        else
          let specialist_agents := filter (fun a => negb (is_architect a)) agents in
          let specialist_responses :=
            _execute_parallel_analysis (guided request architect_response)
                                       specialist_agents in
          Returned (architect_response :: specialist_responses)
    end.

Definition _execute_fallback_workflow := _execute_sequential_workflow.

Definition execute_pattern (plan : OrchestrationPlan) (request : DevelopmentRequest)
    (selected_agents : list string) : Outcome (list AgentResponse) :=
  match pattern plan with
  | SEQUENTIAL => Returned (_execute_sequential_workflow request selected_agents)
  | MAPREDUCE => Returned (_execute_parallel_analysis request selected_agents)
  | CONSENSUS => Returned (_execute_consensus_decision request selected_agents)
  | HIERARCHICAL => _execute_hierarchical_delegation request selected_agents
  end.

(** *** Synthesis *)

Definition _extract_primary_recommendations (results : list AgentResponse)
    : list PyVal :=
  flat_map
    (fun r =>
       let name := name_of r in
       if truthy_dict (result r) then
         let '(key, dflt) :=
           if String.eqb name "senior-architect" then
             ("architectural_recommendation", name ++ " provided technical guidance")
           else if String.eqb name "security-consultant" then
             ("security_analysis", name ++ " provided security guidance")
           else
             ("consultation_output", name ++ " provided specialized guidance") in
         [match get key (result r) with Some v => v | None => PStr dflt end]
       else [])
    results.

Definition _synthesize_implementation_approach (results : list AgentResponse)
    : string :=
  let approaches :=
    flat_map
      (fun r =>
         let name := name_of r in
         if String.eqb name "senior-architect" then
           ["Architecture-driven development with clear component boundaries"]
         else if String.eqb name "security-consultant" then
           ["Security-first implementation with comprehensive threat mitigation"]
         else if String.eqb name "backend-builder" then
           ["API-first backend development with clean architecture principles"]
         else if String.eqb name "frontend-builder" then
           ["Component-driven frontend development with accessibility focus"]
         else [])
      results in
  match approaches with
  | [] => "Standard development approach with quality focus"
  | _ => join " | " approaches
  end.

Definition _generate_mitigation_strategies (risks : list string) : list string :=
  map
    (fun risk =>
       if contains "security" (lower risk) then
         "Implement comprehensive security testing and code review"
       else if contains "performance" (lower risk) then
         "Conduct performance testing and optimization analysis"
       else if contains "integration" (lower risk) then
         "Develop integration testing strategy and API contracts"
       else "Mitigate risk: " ++ risk)
    (list_of_set risks).

Definition _calculate_confidence_level (results : list AgentResponse) : Q :=
  let confidences :=
    map (fun r => match confidence (metadata r) with
                  | Some c => c
                  | None => (1 # 2)%Q
                  end) results in
  match confidences with
  | [] => (1 # 2)%Q
  | _ => (Qsum confidences / Qnat (length confidences))%Q
  end.

Definition _prioritize_immediate_actions (all_recommendations : PyDict)
    : list string :=
  let actions :=
    flat_map
      (fun kv : string * PyVal =>
         match snd kv with
         | PDict agent_recommendations =>
             match get "follow_up_actions" agent_recommendations with
             | Some v => [fst kv ++ ": " ++ py_str v]
             | None => []
             end
         | _ => []
         end)
      all_recommendations in
  match actions with
  | [] => ["Begin implementation based on technical guidance"]
  | _ => actions
  end.

Definition consulted (name : string) (results : list AgentResponse) : bool :=
  existsb (fun r => option_eqb (agent_name (metadata r)) (Some name)) results.

Definition _suggest_follow_up_consultations (results : list AgentResponse)
    (request : DevelopmentRequest) : list string :=
  let o := lower (objective request) in
  ((if contains "security" o && negb (consulted "security-consultant" results)
    then ["security-consultant - for security analysis"] else [])
   +++
   (if (contains "ui" o || contains "frontend" o)
       && negb (consulted "ux-strategist" results)
    then ["ux-strategist - for user experience guidance"] else [])).

Definition _define_quality_gates (results : list AgentResponse)
    (request : DevelopmentRequest) : list string :=
  let gates :=
    flat_map
      (fun r =>
         let name := name_of r in
         if String.eqb name "security-consultant" then
           ["Security review and vulnerability assessment"]
         else if String.eqb name "senior-architect" then
           ["Architecture compliance and design review"]
         else if mem name ["backend-builder"; "frontend-builder"] then
           ["Code quality review and testing validation"]
         else [])
      results in
  list_of_set
    (gates +++ ["Unit test coverage >= 80%"; "Integration testing complete";
               "Code review approved"]).

Definition failed_synthesis (failed_results : list AgentResponse) : Response :=
  mkResp "failed" (Some "No agents provided successful consultations")
         (Some (length failed_results))
         None None None None None None None None None None.

Definition _synthesize_development_results (results : list AgentResponse)
    (request : DevelopmentRequest) : Response :=
  let successful_results := filter is_success results in
  let failed_results := filter is_failed results in
  match successful_results with
  | [] => failed_synthesis failed_results
  | _ =>
      let all_technical_decisions := flat_map technical_decisions successful_results in
      let all_implementation_risks := flat_map implementation_risks successful_results in
      let all_recommendations :=
        fold_left
          (fun acc r =>
             if truthy_dict (recommendations r)
             then set_item (name_of r) (PDict (recommendations r)) acc
             else acc)
          successful_results [] in
      let combined_quality_metrics :=
        fold_left
          (fun acc r =>
             if truthy_dict (code_quality_metrics r)
             then update acc (code_quality_metrics r)
             else acc)
          successful_results [] in
      mkResp "success" None None
        (Some (mkSummary (length results) (length successful_results)
                 (length failed_results)
                 (if length failed_results =? 0 then "high" else "medium")))
        (Some (mkGuidance
                 (_extract_primary_recommendations successful_results)
                 all_technical_decisions
                 (_synthesize_implementation_approach successful_results)
                 combined_quality_metrics))
        (Some (mkRisk
                 (list_of_set all_implementation_risks)
                 (_generate_mitigation_strategies all_implementation_risks)
                 (_calculate_confidence_level successful_results)))
        (Some (mkNextSteps
                 (_prioritize_immediate_actions all_recommendations)
                 (_suggest_follow_up_consultations successful_results request)
                 (_define_quality_gates successful_results request)))
        (Some (map
                 (fun r =>
                    mkDetail (name_of r)
                      (match methodology_applied (metadata r) with
                       | Some m => m
                       | None => "unknown"
                       end)
                      (result r)
                      (match confidence (metadata r) with
                       | Some c => c
                       | None => 0%Q
                       end))
                 successful_results))
        None None None None None
  end.

(** *** Quality validation *)

Definition _check_success_criteria (response : Response) (criteria : string) : bool :=
  if negb (truthy_str criteria) then true
  else
    let response_text := lower (str_of_response response) in
    let criteria_keywords := split (lower criteria) in
    let matches := length (filter (fun kw => contains kw response_text) criteria_keywords) in
    Qle_bool (Qnat (length criteria_keywords) * (1 # 2))%Q (Qnat matches).

Definition present {A : Type} (o : option A) : bool :=
  match o with Some _ => true | None => false end.

Definition checks_items (c : QualityChecks) : list (string * bool) :=
  [("has_technical_guidance", has_technical_guidance c);
   ("has_implementation_approach", has_implementation_approach c);
   ("has_risk_assessment", has_risk_assessment c);
   ("has_next_steps", has_next_steps c);
   ("meets_success_criteria", meets_success_criteria c)].

Definition with_validation (response : Response) (v : QualityValidation)
    (warnings : option (list string)) : Response :=
  mkResp (resp_status response) (resp_error response) (failed_agents response)
    (synthesis_summary response) (technical_guidance response)
    (risk_assessment response) (next_steps response)
    (detailed_agent_responses response) (Some v)
    (match warnings with Some w => Some w | None => quality_warnings response end)
    (request_objective response) (resp_timestamp response)
    (fallback_recommendations response).

Definition _validate_development_quality (response : Response)
    (request : DevelopmentRequest) : Response :=
  let checks :=
    mkChecks
      (present (technical_guidance response))
      (match technical_guidance response with
       | Some g => truthy_str (implementation_approach g)
       | None => false
       end)
      (present (risk_assessment response))
      (present (next_steps response))
      (_check_success_criteria response (success_criteria request)) in
  let score :=
    (Qnat (length (filter snd (checks_items checks))) / 5)%Q in
  let validation :=
    mkValidation checks score (Qle_bool (4 # 5) score) validation_time in
  with_validation response validation
    (if negb (Qle_bool (4 # 5) score) then
       Some (map (fun cb : string * bool => "Quality check failed: " ++ fst cb)
                 (filter (fun cb => negb (snd cb)) (checks_items checks)))
     else None).

(** *** History *)

Fixpoint assoc_set {A : Type} (k : string) (v : A) (d : list (string * A))
    : list (string * A) :=
  match d with
  | [] => [(k, v)]
  | (k', v') :: rest =>
      if String.eqb k k' then (k, v) :: rest else (k', v') :: assoc_set k v rest
  end.

Definition _update_development_context (self : Orchestrator)
    (request : DevelopmentRequest) (response : Response) : Orchestrator :=
  let decisions :=
    match technical_guidance response with
    | Some g => guidance_technical_decisions g
    | None => []
    end in
  mkOrchestrator
    (active_agents self)
    (conversation_history self +++
       [mkEntry history_time (objective request) (project_type request)
          (match detailed_agent_responses response with
           | Some l => map detail_agent l
           | None => []
           end)
          decisions
          (match quality_validation response with
           | Some v => quality_score v
           | None => 0%Q
           end)])
    (registry_technical_decisions self +++ decisions)
    (match quality_validation response with
     | Some v => assoc_set (objective request) v (quality_metrics self)
     | None => quality_metrics self
     end).

Definition _create_error_response (error_message : string)
    (request : DevelopmentRequest) : Response :=
  mkResp "failed" (Some error_message) None None None None None None None None
    (Some (objective request)) (Some error_time)
    (Some ["Review request parameters and try again";
           "Ensure required agents are available";
           "Check system logs for detailed error information"]).

(** *** The entry point *)

(** The outputs of the contributors for a request, when the pattern runs
    to its end. *)
Definition contributor_outputs (self : Orchestrator) (request : DevelopmentRequest)
    : Outcome (list AgentResponse) :=
  let orchestration_plan := _analyze_development_task request in
  let selected_agents := _select_agents_for_task self orchestration_plan in
  execute_pattern orchestration_plan request selected_agents.

(** The body of the [try] is the [Returned] branch; an exception that
    leaves the pattern goes to the [except] clause, which answers with
    [_create_error_response] and leaves the orchestrator as it was. *)
Definition process_development_request (self : Orchestrator)
    (request : DevelopmentRequest) : Response * Orchestrator :=
  match contributor_outputs self request with
  | Returned results =>
      let synthesized_response := _synthesize_development_results results request in
      let validated_response :=
        _validate_development_quality synthesized_response request in
      (validated_response,
       _update_development_context self request validated_response)
  | Raised e => (_create_error_response e request, self)
  end.

End Engine.

(** *** Status *)

Record OrchestratorStatus : Type := mkStatus {
  status_active_agents : list string;
  total_conversations : nat;
  total_technical_decisions : nat;
  average_quality_score : Q;
  orchestration_patterns_used : list (string * nat);
  system_health : string
}.

Definition _calculate_average_quality_score (self : Orchestrator) : Q :=
  match quality_metrics self with
  | [] => 0%Q
  | _ =>
      let scores := map (fun kv => quality_score (snd kv)) (quality_metrics self) in
      (Qsum scores / Qnat (length scores))%Q
  end.

Definition _get_pattern_usage_stats (self : Orchestrator) : list (string * nat) :=
  [("sequential", 0); ("mapreduce", 0); ("consensus", 0); ("hierarchical", 0)].

Definition get_orchestrator_status (self : Orchestrator) : OrchestratorStatus :=
  mkStatus
    (map fst (active_agents self))
    (length (conversation_history self))
    (length (registry_technical_decisions self))
    (_calculate_average_quality_score self)
    (_get_pattern_usage_stats self)
    (match active_agents self with [] => "degraded" | _ => "operational" end).

End MetaOrchestrator.

(* ------------------------------------------------------------------ *)
(** ** intelligence_engine.py                                          *)
(* ------------------------------------------------------------------ *)

Module IntelligenceEngine.
Import Py.

Inductive ConflictType : Type :=
| ARCHITECTURE_DISAGREEMENT
| TECHNOLOGY_CHOICE_CONFLICT
| SECURITY_VS_PERFORMANCE
| IMPLEMENTATION_APPROACH_CONFLICT
| DESIGN_PATTERN_DISAGREEMENT
| SCOPE_OVERLAP.

Inductive ConflictSeverity : Type :=
| LOW
| MODERATE
| HIGH
| CRITICAL.

Inductive QualityMetricType : Type :=
| CODE_COMPLEXITY
| TEST_COVERAGE
| TECHNICAL_DEBT
| SECURITY_SCORE
| PERFORMANCE_INDEX
| MAINTAINABILITY
| DOCUMENTATION_COVERAGE.

(** One agent response as the engine receives it: a dict, by the keys the
    engine reads.  An absent [result], [technical_decisions],
    [recommendations] or [potential_conflicts] reads as the empty value
    the code passes to [.get]; [agent_name] and [confidence] are the two
    entries read under [metadata]. *)
Record ResponseDict : Type := mkResponseDict {
  status : option string;
  agent_name : option string;
  confidence : option Q;
  result : PyDict;
  technical_decisions : list StrDict;
  recommendations : PyVal;
  potential_conflicts : PyDict
}.

Definition name_or (dflt : string) (r : ResponseDict) : string :=
  match agent_name r with Some n => n | None => dflt end.

Definition confidence_or (dflt : Q) (r : ResponseDict) : Q :=
  match confidence r with Some c => c | None => dflt end.

(** [str(response.get('result', {})).lower()] *)
Definition result_text (r : ResponseDict) : string :=
  lower (py_str (PDict (result r))).

(** [f"{response1.get('result', {})} {response2.get('result', {})}".lower()] *)
Definition combined_text (r1 r2 : ResponseDict) : string :=
  lower (py_str (PDict (result r1)) ++ " " ++ py_str (PDict (result r2))).

Record OverlapImpact : Type := mkOverlapImpact {
  development_delay_risk : string;
  decision_complexity : string;
  coordination_overhead : Q;
  quality_impact : string;
  areas_needing_clarification : list string
}.

Record AgentOverlap : Type := mkOverlap {
  agents : list string;
  overlap_type : string;
  overlap_areas : list string;
  overlap_confidence : Q;
  resolution_strategy : string;
  impact_assessment : OverlapImpact;
  code_areas_affected : list string;
  architectural_impact : string;
  technical_risk_level : string
}.

Record PerformanceImplications : Type := mkPerf {
  perf_impact_level : string;
  areas_affected : list string;
  optimization_required : bool;
  performance_testing_needed : bool
}.

Record SecurityImplications : Type := mkSec {
  sec_impact_level : string;
  security_areas_affected : list string;
  security_review_required : bool;
  threat_model_update_needed : bool
}.

Record ResolutionOption : Type := mkOption {
  option_name : string;
  option_description : string;
  pros : list string;
  cons : list string;
  implementation_effort : string
}.

Record ConflictAnalysis : Type := mkConflict {
  conflict_id : string;
  agents_involved : list string;
  conflict_type : ConflictType;
  severity : ConflictSeverity;
  description : string;
  root_cause : string;
  technical_areas : list string;
  architecture_impact : string;
  performance_implications : PerformanceImplications;
  security_implications : SecurityImplications;
  resolution_options : list ResolutionOption;
  stakeholder_input_required : bool
}.

Record QualityMetrics : Type := mkMetric {
  metric_type : QualityMetricType;
  score : Q;
  threshold : Q;
  metric_status : string;
  details : PyDict;
  improvement_suggestions : list string
}.

Record AgentPerformance : Type := mkPerformance {
  total_consultations : nat;
  average_confidence : Q;
  successful_consultations : nat;
  conflict_involvement : nat
}.

(** The attributes of [IntelligenceEngine] the analyses below read or
    write.  ([technical_decisions], the registry of decision points, is
    written by an analysis that is not part of this development and read
    by none of the functions here.) *)
Record Engine : Type := mkEngine {
  conflict_history : list ConflictAnalysis;
  quality_metrics_history : list QualityMetrics;
  agent_performance_tracking : list (string * AgentPerformance)
}.

(** [IntelligenceEngine()] *)
Definition new_engine : Engine := mkEngine [] [] [].

Section Analyses.

(** [set(...)] iterated, in the order the interpreter happens to give. *)
Variable list_of_set : list string -> list string.

(** *** Overlap detection *)

Definition decision_text (d : StrDict) : string :=
  lower (sget_or "decision" "" d ++ " " ++ sget_or "recommendation" "" d).

Definition _decisions_overlap (decision1 decision2 : StrDict) : bool :=
  let words1 := dedup (split (decision_text decision1)) in
  let words2 := dedup (split (decision_text decision2)) in
  let common := filter (fun w => mem w words2) words1 in
  let overlap_ratio :=
    (Qnat (length common)
     / Qnat (Nat.max (Nat.max (length words1) (length words2)) 1))%Q in
  Qlt_bool (3 # 10) overlap_ratio.

Definition development_topics : list string :=
  ["architecture"; "database"; "api"; "security"; "performance";
   "testing"; "deployment"; "frontend"; "backend"; "authentication";
   "authorization"; "caching"; "monitoring"; "logging"].

Definition _find_overlap_areas (response1 response2 : ResponseDict) : list string :=
  let from_decisions :=
    flat_map
      (fun decision1 =>
         flat_map
           (fun decision2 =>
              if _decisions_overlap decision1 decision2
              then ["technical_decision: " ++ sget_or "decision" "unknown" decision1]
              else [])
           (technical_decisions response2))
      (technical_decisions response1) in
  let result1 := result_text response1 in
  let result2 := result_text response2 in
  let from_topics :=
    map (fun topic => "domain_expertise: " ++ topic)
        (filter (fun topic => contains topic result1 && contains topic result2)
                development_topics) in
  let from_recommendations :=
    match recommendations response1, recommendations response2 with
    | PDict recommendations1, PDict recommendations2 =>
        map (fun key => "recommendation_area: " ++ key)
            (list_of_set
               (filter (fun key => has_key key recommendations2)
                       (keys recommendations1)))
    | _, _ => []
    end in
  (from_decisions +++ from_topics +++ from_recommendations).

Definition any_area (marker : string) (overlap_areas : list string) : bool :=
  existsb (contains marker) overlap_areas.

Definition _classify_overlap_type (overlap_areas : list string) : string :=
  if any_area "technical_decision" overlap_areas then "decision_overlap"
  else if any_area "domain_expertise" overlap_areas then "expertise_overlap"
  else if any_area "recommendation_area" overlap_areas then "recommendation_overlap"
  else "general_overlap".

Definition _calculate_overlap_confidence (response1 response2 : ResponseDict)
    (overlap_areas : list string) : Q :=
  let base_confidence := py_min (9 # 10) (Qnat (length overlap_areas) * (2 # 10))%Q in
  let quality1 := confidence_or (1 # 2) response1 in
  let quality2 := confidence_or (1 # 2) response2 in
  let quality_boost := ((quality1 + quality2) / 2 * (2 # 10))%Q in
  py_min 1 (base_confidence + quality_boost)%Q.

Definition agent_hierarchy (agent : string) : nat :=
  if String.eqb agent "senior-architect" then 5
  else if String.eqb agent "security-consultant" then 4
  else if String.eqb agent "ux-strategist" then 3
  else if String.eqb agent "backend-builder" then 2
  else if String.eqb agent "frontend-builder" then 2
  else 1.

(** [str(overlap_areas)] *)
Definition str_of_areas (overlap_areas : list string) : string :=
  py_str (PList (map PStr overlap_areas)).

Definition _determine_resolution_strategy (agent1 agent2 : string)
    (overlap_areas : list string) : string :=
  let priority1 := agent_hierarchy agent1 in
  let priority2 := agent_hierarchy agent2 in
  if priority2 <? priority1 then "defer_to_" ++ agent1
  else if priority1 <? priority2 then "defer_to_" ++ agent2
  else if contains "security" (lower (str_of_areas overlap_areas)) then "security_priority"
  else if contains "architecture" (lower (str_of_areas overlap_areas))
       then "architecture_priority"
  else "consensus_building".

Definition _assess_overlap_impact (response1 response2 : ResponseDict)
    (overlap_areas : list string) : OverlapImpact :=
  mkOverlapImpact
    (if 2 <? length overlap_areas then "medium" else "low")
    (if any_area "technical_decision" overlap_areas then "high" else "medium")
    (Qnat (length overlap_areas) * (1 # 10))%Q
    (if length overlap_areas <=? 2 then "positive" else "neutral")
    overlap_areas.

Definition code_areas : list string :=
  ["authentication"; "authorization"; "database"; "api"; "frontend";
   "backend"; "middleware"; "routing"; "validation"; "testing";
   "configuration"; "logging"; "monitoring"; "deployment"].

Definition _identify_affected_code_areas (response1 response2 : ResponseDict)
    : list string :=
  filter (fun area => contains area (result_text response1)
                      && contains area (result_text response2))
         code_areas.

Definition _assess_architectural_impact (response1 response2 : ResponseDict) : string :=
  let text := combined_text response1 response2 in
  if any_in ["architecture"; "design"; "pattern"; "structure"] text then
    "significant - architectural decisions affected"
  else if any_in ["database"; "api"; "integration"] text then
    "moderate - component design affected"
  else "minimal - implementation details only".

Definition _assess_technical_risk (response1 response2 : ResponseDict)
    (overlap_areas : list string) : string :=
  let high_hits :=
    length (filter (fun area_desc =>
                      any_in ["security"; "architecture"; "database"; "authentication"]
                             (lower area_desc))
                   overlap_areas) in
  let medium_hits :=
    length (filter (fun area_desc =>
                      any_in ["api"; "performance"; "integration"] (lower area_desc))
                   overlap_areas) in
  let risk_indicators := 2 * high_hits + medium_hits in
  if 4 <=? risk_indicators then "high"
  else if 2 <=? risk_indicators then "medium"
  else "low".

(** The body of the two nested loops of [_detect_agent_overlaps] for the
    pair at positions [i < j]. *)
Definition overlap_of_pair (i : nat) (response1 : ResponseDict)
    (j : nat) (response2 : ResponseDict) : list AgentOverlap :=
  let agent1_name := name_or ("agent_" ++ str_of_nat i) response1 in
  let agent2_name := name_or ("agent_" ++ str_of_nat j) response2 in
  let areas := _find_overlap_areas response1 response2 in
  match areas with
  | [] => []
  | _ =>
      [mkOverlap [agent1_name; agent2_name]
         (_classify_overlap_type areas)
         areas
         (_calculate_overlap_confidence response1 response2 areas)
         (_determine_resolution_strategy agent1_name agent2_name areas)
         (_assess_overlap_impact response1 response2 areas)
         (_identify_affected_code_areas response1 response2)
         (_assess_architectural_impact response1 response2)
         (_assess_technical_risk response1 response2 areas)]
  end.

(** [for i, x in enumerate(l): for j, y in enumerate(l[i+1:], i+1): ...] *)
Fixpoint pairs_from {A B : Type} (body : nat -> A -> nat -> A -> list B)
    (i : nat) (l : list A) : list B :=
  match l with
  | [] => []
  | x :: rest =>
      app (flat_map (fun jy : nat * A => body i x (fst jy) (snd jy))
                    (combine (seq (S i) (length rest)) rest))
          (pairs_from body (S i) rest)
  end.

Definition _detect_agent_overlaps (agent_responses : list ResponseDict)
    : list AgentOverlap :=
  pairs_from overlap_of_pair 0 agent_responses.

(** *** Conflict analysis *)

(** [str({**conflicts1, **conflicts2}).lower()] *)
Definition conflict_text (conflicts1 conflicts2 : PyDict) : string :=
  lower (py_str (PDict (update conflicts1 conflicts2))).

Definition high_impact_keywords : list string := ["security"; "architecture"; "database"].
Definition blocking_keywords : list string :=
  ["cannot"; "incompatible"; "conflicts"; "contradicts"].
Definition performance_keywords : list string :=
  ["performance"; "scalability"; "bottleneck"].

Definition severity_indicators (text : string) : nat :=
  (if any_in high_impact_keywords text then 2 else 0)
  + (if any_in blocking_keywords text then 2 else 0)
  + (if any_in performance_keywords text then 1 else 0).

Definition severity_of (indicators : nat) : ConflictSeverity :=
  if 4 <=? indicators then CRITICAL
  else if 2 <=? indicators then HIGH
  else if 1 <=? indicators then MODERATE
  else LOW.

Definition type_of_text (text : string) : ConflictType :=
  if contains "architecture" text || contains "design" text
  then ARCHITECTURE_DISAGREEMENT
  else if contains "technology" text || contains "framework" text
  then TECHNOLOGY_CHOICE_CONFLICT
  else if contains "security" text && contains "performance" text
  then SECURITY_VS_PERFORMANCE
  else if contains "implementation" text || contains "approach" text
  then IMPLEMENTATION_APPROACH_CONFLICT
  else if contains "pattern" text then DESIGN_PATTERN_DISAGREEMENT
  else SCOPE_OVERLAP.

Definition _classify_conflict (conflicts1 conflicts2 : PyDict)
    (response1 response2 : ResponseDict) : ConflictType * ConflictSeverity :=
  let text := conflict_text conflicts1 conflicts2 in
  (type_of_text text, severity_of (severity_indicators text)).

Definition _generate_conflict_description (response1 response2 : ResponseDict)
    (ct : ConflictType) : string :=
  let agent1 := name_or "Agent 1" response1 in
  let agent2 := name_or "Agent 2" response2 in
  match ct with
  | ARCHITECTURE_DISAGREEMENT =>
      agent1 ++ " and " ++ agent2 ++ " have conflicting architectural recommendations"
  | TECHNOLOGY_CHOICE_CONFLICT =>
      agent1 ++ " and " ++ agent2 ++ " recommend different technology choices"
  | SECURITY_VS_PERFORMANCE =>
      "Security requirements from " ++ agent1
        ++ " conflict with performance goals from " ++ agent2
  | IMPLEMENTATION_APPROACH_CONFLICT =>
      agent1 ++ " and " ++ agent2 ++ " suggest incompatible implementation approaches"
  | DESIGN_PATTERN_DISAGREEMENT =>
      agent1 ++ " and " ++ agent2 ++ " recommend different design patterns"
  | SCOPE_OVERLAP =>
      agent1 ++ " and " ++ agent2
        ++ " have overlapping scope with conflicting recommendations"
  end.

Definition _identify_conflict_root_cause (response1 response2 : ResponseDict)
    (ct : ConflictType) : string :=
  match ct with
  | ARCHITECTURE_DISAGREEMENT =>
      "Different architectural philosophies and trade-off priorities"
  | TECHNOLOGY_CHOICE_CONFLICT =>
      "Varying technology expertise and preference frameworks"
  | SECURITY_VS_PERFORMANCE =>
      "Fundamental trade-off between security requirements and performance optimization"
  | IMPLEMENTATION_APPROACH_CONFLICT =>
      "Different implementation methodologies and development practices"
  | DESIGN_PATTERN_DISAGREEMENT =>
      "Varying interpretation of appropriate design patterns for the context"
  | SCOPE_OVERLAP =>
      "Unclear agent responsibility boundaries and scope definitions"
  end.

Definition _identify_technical_conflict_areas (response1 response2 : ResponseDict)
    : list string :=
  flat_map
    (fun decision1 =>
       let decision_area := lower (sget_or "decision" "" decision1) in
       flat_map
         (fun decision2 =>
            if option_eqb (sget "decision" decision1) (sget "decision" decision2)
               && negb (option_eqb (sget "recommendation" decision1)
                                   (sget "recommendation" decision2))
            then [decision_area] else [])
         (technical_decisions response2))
    (technical_decisions response1).

Definition _assess_conflict_architecture_impact (response1 response2 : ResponseDict)
    : string :=
  let arch_mentions :=
    count_in ["architecture"; "design"; "pattern"; "structure"; "component"]
             (combined_text response1 response2) in
  if 3 <=? arch_mentions then "high - fundamental architectural decisions affected"
  else if 1 <=? arch_mentions then "medium - architectural components affected"
  else "low - implementation details only".

Definition perf_keywords : list string :=
  ["performance"; "speed"; "latency"; "throughput"; "optimization"; "bottleneck"].

Definition _analyze_performance_implications (response1 response2 : ResponseDict)
    : PerformanceImplications :=
  let text := combined_text response1 response2 in
  let perf_impact := count_in perf_keywords text in
  mkPerf
    (if 2 <=? perf_impact then "high" else if 1 <=? perf_impact then "medium" else "low")
    (filter (fun kw => contains kw text) perf_keywords)
    (2 <=? perf_impact)
    (1 <=? perf_impact).

Definition security_keywords : list string :=
  ["security"; "authentication"; "authorization"; "encryption"; "vulnerability";
   "threat"].

Definition _analyze_security_implications (response1 response2 : ResponseDict)
    : SecurityImplications :=
  let text := combined_text response1 response2 in
  let security_impact := count_in security_keywords text in
  mkSec
    (if 3 <=? security_impact then "critical"
     else if 2 <=? security_impact then "high"
     else if 1 <=? security_impact then "medium" else "low")
    (filter (fun kw => contains kw text) security_keywords)
    (1 <=? security_impact)
    (2 <=? security_impact).

Definition _generate_resolution_options (response1 response2 : ResponseDict)
    (ct : ConflictType) : list ResolutionOption :=
  let agent1 := name_or "Agent 1" response1 in
  let agent2 := name_or "Agent 2" response2 in
  match ct with
  | ARCHITECTURE_DISAGREEMENT =>
      [mkOption "senior_architect_decision"
         "Senior architect makes final architectural decision"
         ["Clear decision authority"; "Architectural consistency"]
         ["May not consider all specialized perspectives"] "low";
       mkOption "hybrid_approach"
         ("Combine elements from both " ++ agent1 ++ " and " ++ agent2 ++ " approaches")
         ["Incorporates multiple perspectives"; "Potentially optimal solution"]
         ["Increased complexity"; "Potential inconsistencies"] "medium";
       mkOption "prototype_evaluation"
         "Build small prototypes to evaluate both approaches"
         ["Data-driven decision"; "Validates assumptions"]
         ["Additional development time"; "Resource overhead"] "high"]
  | SECURITY_VS_PERFORMANCE =>
      [mkOption "security_priority"
         "Prioritize security requirements, optimize performance within constraints"
         ["Security compliance maintained"; "Risk mitigation"]
         ["Potential performance limitations"] "medium";
       mkOption "performance_priority"
         "Prioritize performance, implement security measures that don't impact performance"
         ["Optimal performance maintained"; "User experience preserved"]
         ["Security risks may remain"; "Compliance challenges"] "medium";
       mkOption "balanced_approach"
         "Find middle ground with acceptable performance and security"
         ["Balanced solution"; "Stakeholder compromise"]
         ["May not fully optimize either aspect"] "high"]
  | _ =>
      [mkOption ("defer_to_" ++ agent1) ("Accept " ++ agent1 ++ " recommendations")
         [agent1 ++ " domain expertise"] ["May miss " ++ agent2 ++ " insights"] "low";
       mkOption ("defer_to_" ++ agent2) ("Accept " ++ agent2 ++ " recommendations")
         [agent2 ++ " domain expertise"] ["May miss " ++ agent1 ++ " insights"] "low";
       mkOption "consensus_building" "Facilitate discussion to build consensus"
         ["Collaborative solution"; "Buy-in from all agents"]
         ["Time-intensive"; "May not reach agreement"] "medium"]
  end.

Definition _requires_stakeholder_input (ct : ConflictType) (sev : ConflictSeverity)
    : bool :=
  match sev with
  | CRITICAL => true
  | HIGH =>
      match ct with
      | ARCHITECTURE_DISAGREEMENT | SECURITY_VS_PERFORMANCE => true
      | _ => false
      end
  | _ => false
  end.

Definition is_low (sev : ConflictSeverity) : bool :=
  match sev with LOW => true | _ => false end.

Definition _detect_response_conflict (self : Engine) (response1 response2 : ResponseDict)
    (request_context : PyDict) : option ConflictAnalysis :=
  let agent1 := name_or "unknown" response1 in
  let agent2 := name_or "unknown" response2 in
  let conflicts1 := potential_conflicts response1 in
  let conflicts2 := potential_conflicts response2 in
  if truthy_dict conflicts1 || truthy_dict conflicts2 then
    let '(ct, sev) := _classify_conflict conflicts1 conflicts2 response1 response2 in
    if negb (is_low sev) then
      Some (mkConflict
              ("conflict_" ++ agent1 ++ "_" ++ agent2 ++ "_"
                 ++ str_of_nat (length (conflict_history self)))
              [agent1; agent2] ct sev
              (_generate_conflict_description response1 response2 ct)
              (_identify_conflict_root_cause response1 response2 ct)
              (_identify_technical_conflict_areas response1 response2)
              (_assess_conflict_architecture_impact response1 response2)
              (_analyze_performance_implications response1 response2)
              (_analyze_security_implications response1 response2)
              (_generate_resolution_options response1 response2 ct)
              (_requires_stakeholder_input ct sev))
    else None
  else None.

Definition list_of_option {A : Type} (o : option A) : list A :=
  match o with Some a => [a] | None => [] end.

Definition _analyze_conflicts (self : Engine) (agent_responses : list ResponseDict)
    (request_context : PyDict) : list ConflictAnalysis :=
  pairs_from
    (fun (_ : nat) response1 (_ : nat) response2 =>
       list_of_option (_detect_response_conflict self response1 response2 request_context))
    0 agent_responses.

(** *** Quality assessment *)

Definition status_for (score pass_at warn_at : Q) : string :=
  if Qle_bool pass_at score then "pass"
  else if Qle_bool warn_at score then "warning"
  else "fail".

Definition complexity_step (acc : nat * PyDict) (response : ResponseDict)
    : nat * PyDict :=
  let '(indicators, complexity_details) := acc in
  let text := result_text response in
  let indicators1 :=
    if contains "complex" text || contains "complicated" text
    then indicators + 1 else indicators in
  let '(indicators2, details2) :=
    if contains "microservices" text then
      (indicators1 + 2, set_item "architecture_complexity" (PStr "high") complexity_details)
    else if contains "monolith" text then
      (indicators1, set_item "architecture_complexity" (PStr "low") complexity_details)
    else (indicators1, complexity_details) in
  (indicators2
   + length (filter (fun decision =>
                       any_in ["complex"; "intricate"; "sophisticated"]
                              (lower (py_str (of_strdict decision))))
                    (technical_decisions response)),
   details2).

Definition _assess_code_complexity (agent_responses : list ResponseDict)
    (request_context : PyDict) : QualityMetrics :=
  let '(complexity_indicators, complexity_details) :=
    fold_left complexity_step agent_responses (0, []) in
  let base_score := py_max (1 # 10)%Q (1 - Qnat complexity_indicators * (2 # 10)%Q)%Q in
  mkMetric CODE_COMPLEXITY base_score (6 # 10)%Q
    (status_for base_score (6 # 10)%Q (4 # 10)%Q)
    (dict_of (("complexity_indicators", PInt (Z.of_nat complexity_indicators))
              :: complexity_details))
    (if 3 <=? complexity_indicators then
       ["Consider simplifying architecture design";
        "Implement clear component boundaries";
        "Review complexity of business logic"]
     else []).

Definition is_security_consultant (response : ResponseDict) : bool :=
  option_eqb (agent_name response) (Some "security-consultant").

Definition _assess_security_score (agent_responses : list ResponseDict)
    (request_context : PyDict) : QualityMetrics :=
  let '(raw_score, security_details, first_suggestions) :=
    match find is_security_consultant agent_responses with
    | Some security_response =>
        let res := result security_response in
        let s1 := if has_key "security_analysis" res then ((1 # 2)%Q + (2 # 10))%Q else (1 # 2)%Q in
        let d1 := if has_key "security_analysis" res
                  then [("security_analysis_complete", PBool true)] else [] in
        let s2 := if has_key "threat_model" res then (s1 + (2 # 10))%Q else s1 in
        let d2 := if has_key "threat_model" res
                  then set_item "threat_modeling_complete" (PBool true) d1 else d1 in
        let s3 := if has_key "compliance_requirements" res then (s2 + (1 # 10))%Q else s2 in
        let d3 := if has_key "compliance_requirements" res
                  then set_item "compliance_addressed" (PBool true) d2 else d2 in
        (fold_left
           (fun sc decision =>
              if contains "security" (lower (sget_or "decision" "" decision))
              then (sc + (1 # 10))%Q else sc)
           (technical_decisions security_response) s3,
         d3, [])
    | None =>
        ((3 # 10)%Q, [], ["Include security consultant in development process"])
    end in
  let security_score := py_min 1%Q raw_score in
  mkMetric SECURITY_SCORE security_score (8 # 10)%Q
    (status_for security_score (8 # 10)%Q (6 # 10)%Q)
    security_details
    (first_suggestions +++
       (if Qlt_bool security_score (8 # 10)%Q then
          ["Conduct comprehensive security analysis";
           "Implement threat modeling";
           "Review security technical decisions"]
        else [])).

Definition coverage_step (acc : Q * PyDict) (response : ResponseDict) : Q * PyDict :=
  let '(test_score, test_details) := acc in
  let text := result_text response in
  let s1 := if contains "test" text then (test_score + (2 # 10))%Q else test_score in
  let s2 := if contains "unit test" text then (s1 + (2 # 10))%Q else s1 in
  let d2 := if contains "unit test" text
            then set_item "unit_testing_mentioned" (PBool true) test_details
            else test_details in
  let s3 := if contains "integration test" text then (s2 + (2 # 10))%Q else s2 in
  let d3 := if contains "integration test" text
            then set_item "integration_testing_mentioned" (PBool true) d2 else d2 in
  let s4 := if contains "coverage" text then (s3 + (2 # 10))%Q else s3 in
  let d4 := if contains "coverage" text
            then set_item "coverage_requirements_mentioned" (PBool true) d3 else d3 in
  (fold_left
     (fun sc decision =>
        if contains "test" (lower (sget_or "decision" "" decision))
        then (sc + (2 # 10))%Q else sc)
     (technical_decisions response) s4,
   d4).

Definition _assess_test_coverage (agent_responses : list ResponseDict)
    (request_context : PyDict) : QualityMetrics :=
  let '(raw_score, test_details) := fold_left coverage_step agent_responses (0%Q, []) in
  let test_score := py_min 1%Q raw_score in
  mkMetric TEST_COVERAGE test_score (6 # 10)%Q
    (status_for test_score (6 # 10)%Q (4 # 10)%Q)
    test_details
    (if Qlt_bool test_score (6 # 10)%Q then
       ["Include comprehensive testing strategy";
        "Define unit testing requirements";
        "Establish integration testing approach";
        "Set test coverage targets"]
     else []).

Definition debt_step (acc : Q * PyDict) (response : ResponseDict) : Q * PyDict :=
  let '(debt_risk, debt_details) := acc in
  let text := result_text response in
  let c1 := contains "quick fix" text || contains "temporary" text in
  let r1 := if c1 then (debt_risk + (2 # 10))%Q else debt_risk in
  let d1 := if c1 then set_item "temporary_solutions_mentioned" (PBool true) debt_details
            else debt_details in
  let c2 := contains "legacy" text && contains "maintain" text in
  let r2 := if c2 then (r1 + (1 # 10))%Q else r1 in
  let d2 := if c2 then set_item "legacy_maintenance_required" (PBool true) d1 else d1 in
  let c3 := contains "workaround" text in
  let r3 := if c3 then (r2 + (2 # 10))%Q else r2 in
  let d3 := if c3 then set_item "workarounds_mentioned" (PBool true) d2 else d2 in
  let c4 := contains "refactor" text || contains "clean" text in
  let r4 := if c4 then (r3 - (1 # 10))%Q else r3 in
  let d4 := if c4 then set_item "refactoring_mentioned" (PBool true) d3 else d3 in
  let c5 := contains "best practices" text || contains "clean code" text in
  let r5 := if c5 then (r4 - (1 # 10))%Q else r4 in
  let d5 := if c5 then set_item "best_practices_mentioned" (PBool true) d4 else d4 in
  (r5, d5).

Definition _assess_technical_debt (agent_responses : list ResponseDict)
    (request_context : PyDict) : QualityMetrics :=
  let '(debt_risk, debt_details) := fold_left debt_step agent_responses (0%Q, []) in
  let debt_score := py_max 0%Q (1 - debt_risk)%Q in
  mkMetric TECHNICAL_DEBT debt_score (7 # 10)%Q
    (status_for debt_score (7 # 10)%Q (5 # 10)%Q)
    debt_details
    (if Qlt_bool debt_score (7 # 10)%Q then
       ["Avoid temporary solutions and workarounds";
        "Plan for code refactoring";
        "Follow clean code principles";
        "Document technical debt for future resolution"]
     else []).

Definition maintainability_step (acc : Q * PyDict) (response : ResponseDict)
    : Q * PyDict :=
  let '(m_score, m_details) := acc in
  let text := result_text response in
  let c1 := contains "documentation" text in
  let s1 := if c1 then (m_score + (1 # 10))%Q else m_score in
  let d1 := if c1 then set_item "documentation_mentioned" (PBool true) m_details
            else m_details in
  let c2 := contains "modular" text || contains "component" text in
  let s2 := if c2 then (s1 + (1 # 10))%Q else s1 in
  let d2 := if c2 then set_item "modular_design_mentioned" (PBool true) d1 else d1 in
  let c3 := contains "clean" text && contains "code" text in
  let s3 := if c3 then (s2 + (1 # 10))%Q else s2 in
  let d3 := if c3 then set_item "clean_code_mentioned" (PBool true) d2 else d2 in
  let c4 := contains "pattern" text in
  let s4 := if c4 then (s3 + (1 # 10))%Q else s3 in
  let d4 := if c4 then set_item "design_patterns_mentioned" (PBool true) d3 else d3 in
  let c5 := contains "standard" text || contains "convention" text in
  let s5 := if c5 then (s4 + (1 # 10))%Q else s4 in
  let d5 := if c5 then set_item "standards_mentioned" (PBool true) d4 else d4 in
  (fold_left
     (fun sc decision =>
        if any_in ["maintainable"; "clean"; "modular"; "standard"]
                  (lower (py_str (of_strdict decision)))
        then (sc + (1 # 10))%Q else sc)
     (technical_decisions response) s5,
   d5).

Definition _assess_maintainability (agent_responses : list ResponseDict)
    (request_context : PyDict) : QualityMetrics :=
  let '(raw_score, m_details) :=
    fold_left maintainability_step agent_responses ((1 # 2)%Q, []) in
  let maintainability_score := py_min 1%Q raw_score in
  mkMetric MAINTAINABILITY maintainability_score (7 # 10)%Q
    (status_for maintainability_score (7 # 10)%Q (5 # 10)%Q)
    m_details
    (if Qlt_bool maintainability_score (7 # 10)%Q then
       ["Include comprehensive documentation requirements";
        "Design for modularity and component reuse";
        "Follow clean code principles and standards";
        "Implement consistent design patterns"]
     else []).

Definition _calculate_quality_metric (mt : QualityMetricType)
    (agent_responses : list ResponseDict) (request_context : PyDict)
    : option QualityMetrics :=
  match mt with
  | CODE_COMPLEXITY => Some (_assess_code_complexity agent_responses request_context)
  | SECURITY_SCORE => Some (_assess_security_score agent_responses request_context)
  | TEST_COVERAGE => Some (_assess_test_coverage agent_responses request_context)
  | TECHNICAL_DEBT => Some (_assess_technical_debt agent_responses request_context)
  | MAINTAINABILITY => Some (_assess_maintainability agent_responses request_context)
  | _ => None
  end.

(** [for metric_type in QualityMetricType], in the order of the enum. *)
Definition all_metric_types : list QualityMetricType :=
  [CODE_COMPLEXITY; TEST_COVERAGE; TECHNICAL_DEBT; SECURITY_SCORE;
   PERFORMANCE_INDEX; MAINTAINABILITY; DOCUMENTATION_COVERAGE].

Definition _assess_code_quality (agent_responses : list ResponseDict)
    (request_context : PyDict) : list QualityMetrics :=
  flat_map
    (fun mt => list_of_option (_calculate_quality_metric mt agent_responses request_context))
    all_metric_types.

(** *** The engine run *)

Record AnalysisResults : Type := mkAnalysis {
  overlap_analysis : list AgentOverlap;
  conflict_analysis : list ConflictAnalysis;
  quality_assessment : list QualityMetrics
}.

Fixpoint find_perf (name : string) (t : list (string * AgentPerformance))
    : option AgentPerformance :=
  match t with
  | [] => None
  | (n, p) :: rest => if String.eqb name n then Some p else find_perf name rest
  end.

Fixpoint set_perf (name : string) (p : AgentPerformance)
    (t : list (string * AgentPerformance)) : list (string * AgentPerformance) :=
  match t with
  | [] => [(name, p)]
  | (n, q) :: rest =>
      if String.eqb name n then (name, p) :: rest else (n, q) :: set_perf name p rest
  end.

Definition track (conflicts : list ConflictAnalysis)
    (tracking : list (string * AgentPerformance)) (response : ResponseDict)
    : list (string * AgentPerformance) :=
  let name := name_or "unknown" response in
  let conf := confidence_or (1 # 2)%Q response in
  let perf :=
    match find_perf name tracking with
    | Some p => p
    | None => mkPerformance 0 0%Q 0 0
    end in
  let total := S (total_consultations perf) in
  set_perf name
    (mkPerformance total
       ((average_confidence perf * Qnat (total - 1) + conf) / Qnat total)%Q
       (if option_eqb (status response) (Some "success")
        then S (successful_consultations perf) else successful_consultations perf)
       (conflict_involvement perf
        + length (filter (fun c => mem name (agents_involved c)) conflicts)))
    tracking.

Definition _update_intelligence_state (self : Engine) (analysis_results : AnalysisResults)
    (agent_responses : list ResponseDict) (request_context : PyDict) : Engine :=
  let conflicts := conflict_analysis analysis_results in
  mkEngine
    (conflict_history self +++ conflicts)
    (quality_metrics_history self +++ quality_assessment analysis_results)
    (fold_left (track conflicts) agent_responses (agent_performance_tracking self)).

(** [analyze_agent_responses], restricted to the analyses above: the
    entries [overlap_analysis], [conflict_analysis] and
    [quality_assessment] of its result, and the state it leaves. *)
Definition analyze_agent_responses (self : Engine) (agent_responses : list ResponseDict)
    (request_context : PyDict) : AnalysisResults * Engine :=
  let analysis_results :=
    mkAnalysis
      (_detect_agent_overlaps agent_responses)
      (_analyze_conflicts self agent_responses request_context)
      (_assess_code_quality agent_responses request_context) in
  (analysis_results,
   _update_intelligence_state self analysis_results agent_responses request_context).

End Analyses.

(** *** Decision points *)

(** One entry of [all_decisions[decision_key]]. *)
Record DecisionEntry : Type := mkDecisionEntry {
  entry_agent : string;
  entry_recommendation : string;
  entry_response : ResponseDict
}.

Record ImpactAnalysis : Type := mkImpact {
  impact_level : string;
  affected_components : list string;
  development_effort : string;
  risk_level : string;
  reversibility : string
}.

Record DecisionOption : Type := mkDecisionOption {
  option_text : string;
  supporting_agents : list string;
  rationale : string
}.

Record TechnicalDecisionPoint : Type := mkDecisionPoint {
  decision_id : string;
  title : string;
  point_description : string;
  options : list DecisionOption;
  point_agents_involved : list string;
  impact_analysis : ImpactAnalysis;
  point_recommendation : option PyDict;
  stakeholder_approval_required : bool
}.

Definition component_keywords : list (string * list string) :=
  [("frontend", ["frontend"; "ui"; "interface"; "react"; "vue"; "angular"]);
   ("backend", ["backend"; "api"; "server"; "service"]);
   ("database", ["database"; "db"; "storage"; "sql"; "nosql"]);
   ("security", ["security"; "auth"; "encryption"; "permission"]);
   ("infrastructure", ["deployment"; "infrastructure"; "devops"; "ci/cd"])].

Definition _identify_affected_components (decision_text : string) : list string :=
  map fst (filter (fun ck => any_in (snd ck) decision_text) component_keywords).

Definition _estimate_development_effort (decision_text : string) : string :=
  if any_in ["architecture"; "refactor"; "migration"; "integration"] decision_text
  then "high"
  else if any_in ["implementation"; "development"; "configuration"] decision_text
  then "medium"
  else "low".

Definition _assess_decision_risk (decision_text : string) : string :=
  if any_in ["security"; "architecture"; "database"; "migration"] decision_text
  then "high"
  else if any_in ["performance"; "integration"; "api"] decision_text
  then "medium"
  else "low".

Definition _assess_decision_reversibility (decision_text : string) : string :=
  if any_in ["database"; "architecture"; "migration"; "framework"] decision_text
  then "difficult"
  else if any_in ["integration"; "api"; "security"] decision_text
  then "moderate"
  else "easy".

(** [all_decisions[decision_key].append(entry)], the key created on its
    first use. *)
Fixpoint add_entry (decision_key : string) (entry : DecisionEntry)
    (all_decisions : list (string * list DecisionEntry))
    : list (string * list DecisionEntry) :=
  match all_decisions with
  | [] => [(decision_key, [entry])]
  | (k, entries) :: rest =>
      if String.eqb decision_key k then (k, entries +++ [entry]) :: rest
      else (k, entries) :: add_entry decision_key entry rest
  end.

(** The inner loop over the technical decisions of one response; the
    state is [all_decisions] with [decision_counter]. *)
Definition collect_response (acc : list (string * list DecisionEntry) * nat)
    (response : ResponseDict) : list (string * list DecisionEntry) * nat :=
  fold_left
    (fun (st : list (string * list DecisionEntry) * nat) (decision : StrDict) =>
       let decision_key :=
         sget_or "decision" ("decision_" ++ str_of_nat (snd st)) decision in
       (add_entry decision_key
          (mkDecisionEntry (name_or "unknown" response)
             (sget_or "recommendation" "" decision) response)
          (fst st),
        S (snd st)))
    (technical_decisions response) acc.

Definition collect_decisions (agent_responses : list ResponseDict)
    : list (string * list DecisionEntry) :=
  fst (fold_left collect_response agent_responses ([], 0)).

Section Decisions.

(** [list(set(recommendations))] *)
Variable list_of_set : list string -> list string.

(** [str(decision_data)]: the entries, each with the whole response of
    its agent. *)
Variable str_of_decision_data : list DecisionEntry -> string.

(** [f"{decision_key} {str(decision_data)}".lower()] *)
Definition decision_impact_text (decision_key : string)
    (decision_data : list DecisionEntry) : string :=
  lower (decision_key ++ " " ++ str_of_decision_data decision_data).

Definition _analyze_decision_impact (decision_key : string)
    (decision_data : list DecisionEntry) : ImpactAnalysis :=
  let text := decision_impact_text decision_key decision_data in
  mkImpact
    (if any_in ["architecture"; "database"; "security"; "framework"] text then "high"
     else if any_in ["api"; "performance"; "testing"; "deployment"] text then "medium"
     else "low")
    (_identify_affected_components text)
    (_estimate_development_effort text)
    (_assess_decision_risk text)
    (_assess_decision_reversibility text).

Definition _requires_stakeholder_approval (decision_key : string)
    (decision_data : list DecisionEntry) : bool :=
  any_in ["architecture"; "security"; "budget"; "timeline"; "framework"; "database"]
         (decision_impact_text decision_key decision_data).

(** The body of the loop over [all_decisions.items()]. *)
Definition decision_point_step (decision_points : list TechnicalDecisionPoint)
    (item : string * list DecisionEntry) : list TechnicalDecisionPoint :=
  let decision_key := fst item in
  let decision_data := snd item in
  if 1 <? length decision_data then
    let unique_recommendations :=
      list_of_set (map entry_recommendation decision_data) in
    if 1 <? length unique_recommendations then
      decision_points +++
        [mkDecisionPoint
           ("decision_" ++ str_of_nat (length decision_points))
           ("Technical Decision: " ++ decision_key)
           ("Multiple agents provided conflicting recommendations for " ++ decision_key)
           (map (fun rec =>
                   mkDecisionOption rec
                     (map entry_agent
                        (filter (fun d => String.eqb (entry_recommendation d) rec)
                                decision_data))
                     rec)
                unique_recommendations)
           (map entry_agent decision_data)
           (_analyze_decision_impact decision_key decision_data)
           None
           (_requires_stakeholder_approval decision_key decision_data)]
    else decision_points
  else decision_points.

Definition _identify_decision_points (agent_responses : list ResponseDict)
    : list TechnicalDecisionPoint :=
  fold_left decision_point_step (collect_decisions agent_responses) [].

End Decisions.

(** *** Optimization opportunities *)

Record Opportunity : Type := mkOpportunity {
  opportunity_agent : string;
  opportunity : string;
  opportunity_impact : string
}.

Record Optimizations : Type := mkOptimizations {
  performance_optimizations : list Opportunity;
  security_enhancements : list Opportunity;
  code_quality_improvements : list Opportunity;
  architecture_optimizations : list Opportunity;
  development_process_improvements : list Opportunity
}.

Definition _extract_performance_opportunities (text : string) : string :=
  if contains "caching" text then "Implement caching strategy for improved performance"
  else if contains "database" text then "Optimize database queries and indexing"
  else if contains "api" text then "Optimize API response times and payload sizes"
  else "General performance optimization opportunities identified".

Definition _extract_security_opportunities (text : string) : string :=
  if contains "authentication" text
  then "Enhance authentication mechanisms and security"
  else if contains "encryption" text then "Implement comprehensive encryption strategy"
  else if contains "vulnerability" text then "Address identified security vulnerabilities"
  else "General security enhancement opportunities identified".

Definition _extract_quality_opportunities (text : string) : string :=
  if contains "testing" text then "Improve testing coverage and quality"
  else if contains "documentation" text then "Enhance code documentation and comments"
  else if contains "refactor" text then "Refactor code for better maintainability"
  else "General code quality improvement opportunities identified".

Definition _extract_architecture_opportunities (text : string) : string :=
  if contains "modular" text then "Improve system modularity and component design"
  else if contains "scalability" text then "Enhance system scalability and performance"
  else if contains "integration" text then "Optimize system integration patterns"
  else "General architecture optimization opportunities identified".

(** The body of the loop of [_identify_optimizations]. *)
Definition optimization_step (optimizations : Optimizations) (response : ResponseDict)
    : Optimizations :=
  let agent := name_or "unknown" response in
  let text := result_text response in
  mkOptimizations
    (if contains "performance" text || contains "optimization" text then
       performance_optimizations optimizations +++
         [mkOpportunity agent (_extract_performance_opportunities text) "medium"]
     else performance_optimizations optimizations)
    (if contains "security" text && String.eqb agent "security-consultant" then
       security_enhancements optimizations +++
         [mkOpportunity agent (_extract_security_opportunities text) "high"]
     else security_enhancements optimizations)
    (if any_in ["clean"; "refactor"; "quality"; "best practices"] text then
       code_quality_improvements optimizations +++
         [mkOpportunity agent (_extract_quality_opportunities text) "medium"]
     else code_quality_improvements optimizations)
    (if contains "architecture" text || contains "design" text then
       architecture_optimizations optimizations +++
         [mkOpportunity agent (_extract_architecture_opportunities text) "high"]
     else architecture_optimizations optimizations)
    (development_process_improvements optimizations).

Definition _identify_optimizations (agent_responses : list ResponseDict)
    : Optimizations :=
  fold_left optimization_step agent_responses (mkOptimizations [] [] [] [] []).

(** *** Consensus recommendations *)

Record RecommendationItem : Type := mkRecommendationItem {
  item_agent : string;
  item_recommendation : string;
  item_confidence : Q
}.

Record Consensus : Type := mkConsensus {
  high_confidence_recommendations : list RecommendationItem;
  moderate_confidence_recommendations : list RecommendationItem;
  conflicting_areas : list string;
  unanimous_decisions : list string;
  majority_decisions : list string;
  overall_confidence : Q
}.

(** The first of the four keys present in the result gives the answer;
    with none of them, [str(result)]. *)
Fixpoint first_present (keys : list string) (res : PyDict) : string :=
  match keys with
  | [] => py_str (PDict res)
  | key :: rest =>
      match get key res with
      | Some v => py_str v
      | None => first_present rest res
      end
  end.

Definition _extract_primary_recommendation (response : ResponseDict) : string :=
  first_present
    ["primary_recommendation"; "architectural_recommendation"; "security_analysis";
     "consultation_output"]
    (result response).

Definition _find_unanimous_decisions (agent_responses : list ResponseDict)
    : list string :=
  map (fun keyword => "All agents emphasize " ++ keyword)
      (filter
         (fun keyword =>
            forallb (fun response => contains keyword (result_text response))
                    agent_responses)
         ["security"; "testing"; "documentation"; "best practices"]).

Definition _find_majority_decisions (agent_responses : list ResponseDict)
    : list string :=
  flat_map
    (fun keyword =>
       let count :=
         length (filter (fun response => contains keyword (result_text response))
                        agent_responses) in
       if Qlt_bool (Qnat (length agent_responses) / 2)%Q (Qnat count) then
         ["Majority of agents (" ++ str_of_nat count ++ "/"
            ++ str_of_nat (length agent_responses) ++ ") emphasize " ++ keyword]
       else [])
    ["performance"; "scalability"; "maintainability"; "integration"].

Definition recommendation_item (response : ResponseDict) : RecommendationItem :=
  mkRecommendationItem (name_or "unknown" response)
    (_extract_primary_recommendation response)
    (confidence_or (1 # 2)%Q response).

Definition _generate_consensus_recommendations (agent_responses : list ResponseDict)
    : Consensus :=
  let confidences := map (confidence_or (1 # 2)%Q) agent_responses in
  mkConsensus
    (map recommendation_item
         (filter (fun r => Qle_bool (8 # 10)%Q (confidence_or (1 # 2)%Q r))
                 agent_responses))
    (map recommendation_item
         (filter (fun r => negb (Qle_bool (8 # 10)%Q (confidence_or (1 # 2)%Q r))
                           && Qle_bool (6 # 10)%Q (confidence_or (1 # 2)%Q r))
                 agent_responses))
    []
    (_find_unanimous_decisions agent_responses)
    (_find_majority_decisions agent_responses)
    (match confidences with
     | [] => 0%Q
     | _ => (Qsum confidences / Qnat (length confidences))%Q
     end).

(** *** Summary of the engine state *)

Definition conflict_type_value (ct : ConflictType) : string :=
  match ct with
  | ARCHITECTURE_DISAGREEMENT => "architecture_disagreement"
  | TECHNOLOGY_CHOICE_CONFLICT => "technology_choice_conflict"
  | SECURITY_VS_PERFORMANCE => "security_vs_performance"
  | IMPLEMENTATION_APPROACH_CONFLICT => "implementation_approach_conflict"
  | DESIGN_PATTERN_DISAGREEMENT => "design_pattern_disagreement"
  | SCOPE_OVERLAP => "scope_overlap"
  end.

(** [distribution[k] = distribution.get(k, 0) + 1] *)
Fixpoint count_one (k : string) (distribution : list (string * nat))
    : list (string * nat) :=
  match distribution with
  | [] => [(k, 1)]
  | (k', n) :: rest =>
      if String.eqb k k' then (k', n + 1) :: rest else (k', n) :: count_one k rest
  end.

Definition _get_conflict_type_distribution (self : Engine) : list (string * nat) :=
  fold_left (fun distribution conflict =>
               count_one (conflict_type_value (conflict_type conflict)) distribution)
            (conflict_history self) [].

(** [perf['successful_consultations'] / max(1, perf['total_consultations'])] *)
Definition success_rate (perf : AgentPerformance) : Q :=
  (Qnat (successful_consultations perf)
   / Qnat (Nat.max 1 (total_consultations perf)))%Q.

Definition _calculate_system_health_score (self : Engine) : Q :=
  match agent_performance_tracking self with
  | [] => (1 # 2)%Q
  | tracking =>
      let total_success_rate :=
        fold_left (fun acc kv => (acc + success_rate (snd kv))%Q) tracking 0%Q in
      let total_confidence :=
        fold_left (fun acc kv => (acc + average_confidence (snd kv))%Q) tracking 0%Q in
      let total_agents := Qnat (length tracking) in
      let avg_success_rate := (total_success_rate / total_agents)%Q in
      let avg_confidence := (total_confidence / total_agents)%Q in
      (avg_success_rate * (7 # 10) + avg_confidence * (3 # 10))%Q
  end.

End IntelligenceEngine.

(* ------------------------------------------------------------------ *)
(** ** methodology_validator.py                                        *)
(* ------------------------------------------------------------------ *)

Module MethodologyValidator.
Import Py.

Inductive MethodologyType : Type :=
| CLEAN_ARCHITECTURE
| SOLID_PRINCIPLES
| OWASP_SECURITY
| NIST_CYBERSECURITY
| UX_DESIGN_THINKING
| REST_API_DESIGN
| AGILE_DEVELOPMENT
| TEST_DRIVEN_DEVELOPMENT
| DOMAIN_DRIVEN_DESIGN
| MICROSERVICES_PATTERNS.

(** [methodology_type.value] *)
Definition methodology_value (mt : MethodologyType) : string :=
  match mt with
  | CLEAN_ARCHITECTURE => "clean_architecture"
  | SOLID_PRINCIPLES => "solid_principles"
  | OWASP_SECURITY => "owasp_security"
  | NIST_CYBERSECURITY => "nist_cybersecurity"
  | UX_DESIGN_THINKING => "ux_design_thinking"
  | REST_API_DESIGN => "rest_api_design"
  | AGILE_DEVELOPMENT => "agile_development"
  | TEST_DRIVEN_DEVELOPMENT => "tdd"
  | DOMAIN_DRIVEN_DESIGN => "ddd"
  | MICROSERVICES_PATTERNS => "microservices_patterns"
  end.

Inductive ValidationSeverity : Type :=
| INFO
| WARNING
| ERROR
| CRITICAL.

Definition severity_value (s : ValidationSeverity) : string :=
  match s with
  | INFO => "info"
  | WARNING => "warning"
  | ERROR => "error"
  | CRITICAL => "critical"
  end.

Record ValidationIssue : Type := mkIssue {
  severity : ValidationSeverity;
  methodology : MethodologyType;
  issue_type : string;
  description : string;
  recommendation : string;
  affected_content : string;
  line_reference : option nat
}.

Definition issue (s : ValidationSeverity) (m : MethodologyType)
    (ty descr rec : string) : ValidationIssue :=
  mkIssue s m ty descr rec "" None.

Record MethodologyValidationResult : Type := mkResult {
  agent_name : string;
  methodology_claimed : string;
  validation_score : Q;
  overall_compliance : string;
  issues : list ValidationIssue;
  strengths : list string;
  improvement_areas : list string;
  methodology_consistency : bool;
  expert_framework_adherence : Q
}.

(** What a [_validate_*] method appends to the three lists of the
    result it is given. *)
Definition extend (result : MethodologyValidationResult)
    (new_issues : list ValidationIssue) (new_strengths new_areas : list string)
    : MethodologyValidationResult :=
  mkResult (agent_name result) (methodology_claimed result)
    (validation_score result) (overall_compliance result)
    (issues result +++ new_issues)
    (strengths result +++ new_strengths)
    (improvement_areas result +++ new_areas)
    (methodology_consistency result) (expert_framework_adherence result).

(** The agent response handed to the validator: a dict, by the three
    keys the validator reads; [None] is an absent key. *)
Record ResponseDict : Type := mkResponseDict {
  result : option PyVal;
  technical_decisions : option (list PyVal);
  recommendations : option PyVal
}.

Definition _extract_full_response_text (agent_response : ResponseDict) : string :=
  let from_result :=
    match result agent_response with
    | None => []
    | Some (PDict d) =>
        flat_map
          (fun value =>
             match value with
             | PStr s => [s]
             | PList _ | PDict _ => [py_str value]
             | _ => []
             end)
          (values d)
    | Some other => [py_str other]
    end in
  let from_decisions :=
    match technical_decisions agent_response with
    | None => []
    | Some l => map py_str l
    end in
  let from_recommendations :=
    match recommendations agent_response with
    | None => []
    | Some (PDict d) => map py_str (values d)
    | Some other => [py_str other]
    end in
  join " " (from_result +++ from_decisions +++ from_recommendations).

(** [self._extract_full_response_text(agent_response).lower()] *)
Definition response_text (agent_response : ResponseDict) : string :=
  lower (_extract_full_response_text agent_response).

Definition _map_methodology_string_to_type (methodology_string : string)
    : option MethodologyType :=
  let m := lower methodology_string in
  if contains "clean architecture" m then Some CLEAN_ARCHITECTURE
  else if contains "solid" m then Some SOLID_PRINCIPLES
  else if contains "owasp" m then Some OWASP_SECURITY
  else if contains "nist" m then Some NIST_CYBERSECURITY
  else if any_in ["ux"; "design thinking"; "user experience"] m
       then Some UX_DESIGN_THINKING
  else if contains "rest" m || contains "api" m then Some REST_API_DESIGN
  else if contains "microservices" m then Some MICROSERVICES_PATTERNS
  else if contains "tdd" m || contains "test driven" m
       then Some TEST_DRIVEN_DEVELOPMENT
  else if contains "ddd" m || contains "domain driven" m
       then Some DOMAIN_DRIVEN_DESIGN
  else None.

(** *** The rubrics ([_initialize_methodology_frameworks]) *)

Module CleanArchitecture.
Definition core_principles : list string :=
  ["independence_of_frameworks"; "testability"; "independence_of_ui";
   "independence_of_database"; "independence_of_external_agency"].
Definition layer_structure : list string :=
  ["entities"; "use_cases"; "interface_adapters"; "frameworks_drivers"].
Definition required_concepts : list string :=
  ["separation_of_concerns"; "dependency_inversion"; "business_logic_isolation";
   "testable_architecture"; "framework_independence"].
Definition anti_patterns : list string :=
  ["business_logic_in_ui"; "database_logic_in_business";
   "tight_framework_coupling"; "circular_dependencies"].
End CleanArchitecture.

Record Principle : Type := mkPrinciple {
principle_name : string;
principle_keywords : list string;
principle_anti_patterns : list string
}.

Module Solid.
Definition principles : list Principle :=
  [mkPrinciple "single_responsibility"
     ["single responsibility"; "one reason to change"; "cohesion"]
     ["god class"; "swiss army knife"; "multiple responsibilities"];
   mkPrinciple "open_closed"
     ["open closed"; "extension"; "modification"; "polymorphism"]
     ["modification of existing code"; "breaking changes"];
   mkPrinciple "liskov_substitution"
     ["substitution"; "inheritance"; "polymorphism"; "contract"]
     ["violated contracts"; "strengthened preconditions"];
   mkPrinciple "interface_segregation"
     ["interface segregation"; "client specific"; "minimal interface"]
     ["fat interface"; "interface pollution"; "unused methods"];
   mkPrinciple "dependency_inversion"
     ["dependency inversion"; "abstraction"; "dependency injection"]
     ["concrete dependencies"; "tight coupling"; "direct instantiation"]].
Definition implementation_patterns : list string :=
  ["dependency_injection"; "factory_pattern"; "strategy_pattern";
   "observer_pattern"; "adapter_pattern"].
End Solid.

Record Vulnerability : Type := mkVulnerability {
vuln_id : string;
mitigations : list string;
vuln_keywords : list string
}.

Module Owasp.
Definition top_10_2021 : list Vulnerability :=
  [mkVulnerability "A01_broken_access_control"
     ["principle_of_least_privilege"; "deny_by_default"; "rate_limiting"]
     ["access control"; "authorization"; "privilege"; "permissions"];
   mkVulnerability "A02_cryptographic_failures"
     ["encryption_at_rest"; "encryption_in_transit"; "secure_key_management"]
     ["encryption"; "cryptography"; "sensitive data"; "key management"];
   mkVulnerability "A03_injection"
     ["parameterized_queries"; "input_validation"; "output_encoding"]
     ["injection"; "sql injection"; "input validation"; "parameterized"];
   mkVulnerability "A04_insecure_design"
     ["secure_design_patterns"; "threat_modeling"; "secure_development"]
     ["secure design"; "threat modeling"; "security architecture"];
   mkVulnerability "A05_security_misconfiguration"
     ["security_hardening"; "configuration_management"; "minimal_platform"]
     ["configuration"; "hardening"; "security settings"; "defaults"]].
Definition security_principles : list string :=
  ["defense_in_depth"; "principle_of_least_privilege"; "fail_securely";
   "secure_by_default"; "separation_of_duties"; "complete_mediation"].
Definition validation_categories : list string :=
  ["authentication"; "authorization"; "input_validation"; "output_encoding";
   "session_management"; "cryptography"; "error_handling"; "logging"].
End Owasp.

Record FrameworkFunction : Type := mkFunction {
function_name : string;
categories : list string;
function_keywords : list string
}.

Module Nist.
Definition framework_functions : list FrameworkFunction :=
  [mkFunction "identify"
     ["asset_management"; "business_environment"; "governance"; "risk_assessment"]
     ["identify"; "inventory"; "risk assessment"; "governance"];
   mkFunction "protect"
     ["identity_management"; "awareness_training"; "data_security";
      "protective_technology"]
     ["protect"; "access control"; "data protection"; "training"];
   mkFunction "detect"
     ["anomalies_events"; "security_monitoring"; "detection_processes"]
     ["detect"; "monitoring"; "logging"; "anomaly detection"];
   mkFunction "respond"
     ["response_planning"; "communications"; "analysis"; "mitigation"]
     ["respond"; "incident response"; "mitigation"; "communications"];
   mkFunction "recover"
     ["recovery_planning"; "improvements"; "communications"]
     ["recover"; "backup"; "recovery"; "business continuity"]].
End Nist.

Module Ux.
Definition design_thinking_process : list string :=
  ["empathize"; "define"; "ideate"; "prototype"; "test"].
Definition don_norman_principles : list string :=
  ["visibility"; "feedback"; "constraints"; "mapping"; "consistency"; "affordance"].
Definition usability_heuristics : list string :=
  ["visibility_of_system_status"; "match_system_real_world"; "user_control_freedom";
   "consistency_standards"; "error_prevention"; "recognition_vs_recall";
   "flexibility_efficiency"; "aesthetic_minimalist_design"; "error_recovery";
   "help_documentation"].
Definition user_centered_design : list string :=
  ["user_research"; "persona_development"; "user_journey_mapping";
   "usability_testing"; "accessibility"; "inclusive_design"].
End Ux.

Module Rest.
Definition rest_principles : list string :=
  ["client_server"; "stateless"; "cacheable"; "uniform_interface";
   "layered_system"; "code_on_demand"].
Definition http_methods : list string := ["GET"; "POST"; "PUT"; "PATCH"; "DELETE"].
Definition status_codes : list string := ["200"; "201"; "400"; "401"; "404"; "500"].
Definition best_practices : list string :=
  ["consistent_naming"; "proper_status_codes"; "versioning_strategy";
   "error_handling"; "pagination"; "filtering"; "documentation"].
End Rest.

Module Microservices.
Definition core_patterns : list string :=
  ["database_per_service"; "api_gateway"; "circuit_breaker";
   "service_discovery"; "event_sourcing"; "cqrs"; "saga_pattern"].
Definition decomposition_patterns : list string :=
  ["decompose_by_business_capability"; "decompose_by_subdomain";
   "self_contained_service"; "service_per_team"].
Definition data_management : list string :=
  ["database_per_service"; "shared_databases_anti_pattern";
   "eventual_consistency"; "distributed_transactions"].
Definition communication_patterns : list string :=
  ["synchronous_messaging"; "asynchronous_messaging";
   "service_mesh"; "api_gateway"; "message_broker"].
Definition observability : list string :=
  ["distributed_tracing"; "centralized_logging"; "metrics_aggregation";
   "health_check_api"; "service_monitoring"].
End Microservices.

(** *** The rubric walks *)

Definition count_where {A : Type} (f : A -> bool) (l : list A) : nat :=
  length (filter f l).

(** [f"... {x} ..."] for each [x] of [l] that passes [f]. *)
Definition strengths_for {A : Type} (f : A -> bool) (msg : A -> string) (l : list A)
    : list string :=
  map msg (filter f l).

Definition _validate_clean_architecture (agent_response : ResponseDict)
    (result : MethodologyValidationResult) : MethodologyValidationResult :=
  let text := response_text agent_response in
  let principle_hit principle := any_in (split_on underscore principle) text in
  let principles_mentioned := count_where principle_hit CleanArchitecture.core_principles in
  let concept_hit concept := contains (unsnake concept) text in
  let concepts_mentioned := count_where concept_hit CleanArchitecture.required_concepts in
  let anti_pattern_warnings :=
    count_where (fun anti_pattern =>
                   contains (unsnake anti_pattern) text || contains "avoid" text)
                CleanArchitecture.anti_patterns in
  let layers := any_in CleanArchitecture.layer_structure text in
  extend result
    ((if principles_mentioned =? 0 then
        [issue ERROR CLEAN_ARCHITECTURE "missing_core_principles"
           "No Clean Architecture core principles mentioned"
           "Include discussion of framework independence, testability, UI independence, etc."]
      else if principles_mentioned <? 3 then
        [issue WARNING CLEAN_ARCHITECTURE "insufficient_principle_coverage"
           ("Only " ++ str_of_nat principles_mentioned ++ "/5 core principles mentioned")
           "Provide more comprehensive Clean Architecture guidance"]
      else [])
     +++
     (if concepts_mentioned <? 2 then
        [issue WARNING CLEAN_ARCHITECTURE "missing_key_concepts"
           "Insufficient Clean Architecture concepts discussed"
           "Include separation of concerns, dependency inversion, business logic isolation"]
      else []))
    (strengths_for principle_hit (fun p => "Mentions " ++ unsnake p)
                   CleanArchitecture.core_principles
     +++ strengths_for concept_hit (fun c => "Addresses " ++ unsnake c)
                      CleanArchitecture.required_concepts
     +++ (if layers then ["Demonstrates layer structure understanding"] else []))
    ((if anti_pattern_warnings =? 0
      then ["Include warnings about Clean Architecture anti-patterns"] else [])
     +++ (if layers then [] else ["Explain Clean Architecture layer structure"])).

Definition _validate_solid_principles (agent_response : ResponseDict)
    (result : MethodologyValidationResult) : MethodologyValidationResult :=
  let text := response_text agent_response in
  let principle_mentioned p := any_in (principle_keywords p) text in
  let principles_covered := count_where principle_mentioned Solid.principles in
  let pattern_hit pattern := contains (unsnake pattern) text in
  let patterns_mentioned := count_where pattern_hit Solid.implementation_patterns in
  extend result
    (if principles_covered =? 0 then
       [issue CRITICAL SOLID_PRINCIPLES "no_solid_principles"
          "No SOLID principles mentioned in response"
          "Agent claiming SOLID methodology must discuss relevant principles"]
     else if principles_covered <? 3 then
       [issue WARNING SOLID_PRINCIPLES "incomplete_solid_coverage"
          ("Only " ++ str_of_nat principles_covered ++ "/5 SOLID principles covered")
          "Provide more comprehensive SOLID principles guidance"]
     else [])
    (flat_map
       (fun p =>
          ((if principle_mentioned p
            then ["Addresses " ++ unsnake (principle_name p) ++ " principle"] else [])
           +++ strengths_for
                (fun anti_pattern => contains anti_pattern text || contains "avoid" text)
                (fun anti_pattern => "Warns against " ++ anti_pattern)
                (principle_anti_patterns p)))
       Solid.principles
     +++ strengths_for pattern_hit (fun pattern => "Mentions " ++ unsnake pattern)
                      Solid.implementation_patterns)
    (if patterns_mentioned =? 0
     then ["Include SOLID implementation patterns (DI, Factory, Strategy, etc.)"]
     else []).

Definition _validate_owasp_security (agent_response : ResponseDict)
    (result : MethodologyValidationResult) : MethodologyValidationResult :=
  let text := response_text agent_response in
  let vuln_mentioned v := any_in (vuln_keywords v) text in
  let top10_mentioned := count_where vuln_mentioned Owasp.top_10_2021 in
  let mitigation_hit mitigation := contains (unsnake mitigation) text in
  let principle_hit principle := contains (unsnake principle) text in
  let principles_mentioned := count_where principle_hit Owasp.security_principles in
  let categories_covered :=
    count_where (fun category => contains category text) Owasp.validation_categories in
  extend result
    (if top10_mentioned =? 0 then
       [issue ERROR OWASP_SECURITY "no_owasp_coverage"
          "No OWASP Top 10 vulnerabilities addressed"
          "Security analysis should reference relevant OWASP Top 10 items"]
     else [])
    (flat_map
       (fun v =>
          if vuln_mentioned v then
            ("Addresses " ++ unsnake (vuln_id v))
            :: strengths_for mitigation_hit
                 (fun mitigation => "Provides " ++ unsnake mitigation ++ " guidance")
                 (mitigations v)
          else [])
       Owasp.top_10_2021
     +++ strengths_for principle_hit
          (fun principle => "Applies " ++ unsnake principle ++ " principle")
          Owasp.security_principles)
    (flat_map
       (fun v =>
          if vuln_mentioned v && (count_where mitigation_hit (mitigations v) =? 0)
          then ["Include specific mitigations for " ++ vuln_id v] else [])
       Owasp.top_10_2021
     +++ (if principles_mentioned =? 0 then
           ["Include fundamental security principles (defense in depth, least privilege, etc.)"]
         else [])
     +++ (if categories_covered <? 3 then
           ["Cover more security validation categories (auth, input validation, crypto, etc.)"]
         else [])).

Definition _validate_nist_cybersecurity (agent_response : ResponseDict)
    (result : MethodologyValidationResult) : MethodologyValidationResult :=
  let text := response_text agent_response in
  let function_mentioned f := any_in (function_keywords f) text in
  let functions_mentioned := count_where function_mentioned Nist.framework_functions in
  let categories_mentioned f :=
    count_where (fun category => contains (unsnake category) text) (categories f) in
  extend result
    (if functions_mentioned =? 0 then
       [issue WARNING NIST_CYBERSECURITY "no_nist_functions"
          "No NIST Cybersecurity Framework functions addressed"
          "Reference relevant NIST framework functions (Identify, Protect, Detect, Respond, Recover)"]
     else [])
    (flat_map
       (fun f =>
          if function_mentioned f then
            ("Addresses NIST " ++ upper (function_name f) ++ " function")
            :: (if 0 <? categories_mentioned f
                then ["Covers " ++ str_of_nat (categories_mentioned f) ++ " "
                        ++ function_name f ++ " categories"]
                else [])
          else [])
       Nist.framework_functions)
    (if functions_mentioned =? 0 then []
     else if functions_mentioned <? 3
     then ["Consider broader NIST framework coverage across multiple functions"]
     else []).

Definition _validate_ux_design_thinking (agent_response : ResponseDict)
    (result : MethodologyValidationResult) : MethodologyValidationResult :=
  let text := response_text agent_response in
  let in_text (kw : string) := contains kw text in
  let process_steps_mentioned := count_where in_text Ux.design_thinking_process in
  let norman_principles := count_where in_text Ux.don_norman_principles in
  let heuristics_mentioned :=
    count_where (fun heuristic => any_in (split (unsnake heuristic)) text)
                Ux.usability_heuristics in
  let element_hit element := contains (unsnake element) text in
  let ucd_elements := count_where element_hit Ux.user_centered_design in
  extend result
    (if ucd_elements =? 0 then
       [issue WARNING UX_DESIGN_THINKING "missing_user_centered_design"
          "No user-centered design elements mentioned"
          "Include user research, personas, journey mapping, or usability testing"]
     else [])
    (strengths_for in_text
       (fun step => "References " ++ step ++ " phase of design thinking")
       Ux.design_thinking_process
     +++ strengths_for in_text (fun principle => "Applies " ++ principle ++ " principle")
          Ux.don_norman_principles
     +++ (if 3 <? heuristics_mentioned
         then ["Addresses " ++ str_of_nat heuristics_mentioned ++ " usability heuristics"]
         else [])
     +++ strengths_for element_hit (fun element => "Includes " ++ unsnake element)
          Ux.user_centered_design)
    ((if process_steps_mentioned =? 0 then
        ["Include design thinking process steps (empathize, define, ideate, prototype, test)"]
      else [])
     +++ (if norman_principles =? 0
         then ["Reference Don Norman's design principles"] else [])
     +++ (if 3 <? heuristics_mentioned then []
         else if heuristics_mentioned =? 0
         then ["Include usability heuristics and guidelines"] else [])).

Definition _validate_rest_api_design (agent_response : ResponseDict)
    (result : MethodologyValidationResult) : MethodologyValidationResult :=
  let text := response_text agent_response in
  let principle_hit principle := contains (unsnake principle) text in
  let principles_mentioned := count_where principle_hit Rest.rest_principles in
  let methods_mentioned :=
    count_where (fun method => contains (lower method) text) Rest.http_methods in
  let codes := any_in Rest.status_codes text in
  let practice_hit practice := contains (unsnake practice) text in
  let practices_mentioned := count_where practice_hit Rest.best_practices in
  extend result
    (if principles_mentioned =? 0 then
       [issue WARNING REST_API_DESIGN "missing_rest_principles"
          "No REST architectural principles mentioned"
          "Include REST principles (stateless, cacheable, uniform interface, etc.)"]
     else [])
    (strengths_for principle_hit
       (fun principle => "Addresses " ++ unsnake principle ++ " principle")
       Rest.rest_principles
     +++ (if 0 <? methods_mentioned
         then ["Discusses " ++ str_of_nat methods_mentioned ++ " HTTP methods"] else [])
     +++ (if codes then ["References HTTP status codes"] else [])
     +++ strengths_for practice_hit
          (fun practice => "Includes " ++ unsnake practice ++ " best practice")
          Rest.best_practices)
    ((if 0 <? methods_mentioned then []
      else ["Include HTTP methods usage (GET, POST, PUT, DELETE)"])
     +++ (if codes then [] else ["Include HTTP status code guidance"])
     +++ (if practices_mentioned <? 2
         then ["Include more REST API best practices"] else [])).

Definition _validate_microservices_patterns (agent_response : ResponseDict)
    (result : MethodologyValidationResult) : MethodologyValidationResult :=
  let text := response_text agent_response in
  let pattern_hit pattern := contains (unsnake pattern) text in
  let patterns_mentioned := count_where pattern_hit Microservices.core_patterns in
  let decomposition_mentioned :=
    count_where pattern_hit Microservices.decomposition_patterns in
  let data_patterns := count_where pattern_hit Microservices.data_management in
  let observability_mentioned := count_where pattern_hit Microservices.observability in
  extend result
    (if patterns_mentioned =? 0 then
       [issue WARNING MICROSERVICES_PATTERNS "missing_core_patterns"
          "No microservices patterns mentioned"
          "Include core patterns like API gateway, circuit breaker, service discovery"]
     else [])
    (strengths_for pattern_hit (fun pattern => "Mentions " ++ unsnake pattern ++ " pattern")
       Microservices.core_patterns
     +++ (if 0 <? decomposition_mentioned
         then ["Addresses service decomposition strategy"] else [])
     +++ (if 0 <? data_patterns
         then ["Addresses microservices data management"] else [])
     +++ (if 0 <? observability_mentioned
         then ["Includes " ++ str_of_nat observability_mentioned ++ " observability patterns"]
         else []))
    ((if 0 <? decomposition_mentioned then []
      else ["Include service decomposition strategy"])
     +++ (if 0 <? data_patterns then []
         else ["Include data management patterns (database per service, etc.)"])
     +++ (if 0 <? observability_mentioned then []
         else ["Include observability patterns (tracing, logging, monitoring)"])).

(** [len(response_text)] is [String.length], one [ascii] a character:
    the length Python gives an ASCII text. *)
Definition _validate_generic_methodology (agent_response : ResponseDict)
    (result : MethodologyValidationResult) (mt : MethodologyType)
    : MethodologyValidationResult :=
  let text := response_text agent_response in
  let methodology_name := unsnake (methodology_value mt) in
  extend result
    ((if String.length text <? 100 then
        [issue WARNING mt "insufficient_detail"
           "Response lacks sufficient detail for methodology validation"
           "Provide more comprehensive methodology-based guidance"]
      else [])
     +++
     (if negb (contains methodology_name text) then
        [issue WARNING mt "methodology_not_referenced"
           ("Claimed methodology '" ++ methodology_name ++ "' not explicitly referenced")
           ("Reference " ++ methodology_name ++ " principles and practices")]
      else []))
    []
    ["Provide more specific " ++ methodology_name ++ " guidance"].

(** *** Scores *)

Definition penalty (s : ValidationSeverity) : Q :=
  match s with
  | CRITICAL => 3 # 10
  | ERROR => 2 # 10
  | WARNING => 1 # 10
  | INFO => 5 # 100
  end%Q.

Definition _calculate_validation_score (result : MethodologyValidationResult) : Q :=
  let deducted :=
    fold_left (fun base_score i => (base_score - penalty (severity i))%Q)
              (issues result) 1%Q in
  let strength_bonus :=
    py_min (2 # 10)%Q (Qnat (length (strengths result)) * (5 # 100))%Q in
  py_max 0%Q (py_min 1%Q (deducted + strength_bonus)%Q).

Definition _determine_compliance_level (validation_score : Q) : string :=
  if Qle_bool (9 # 10)%Q validation_score then "excellent"
  else if Qle_bool (75 # 100)%Q validation_score then "good"
  else if Qle_bool (6 # 10)%Q validation_score then "fair"
  else "poor".

Definition is_critical (i : ValidationIssue) : bool :=
  match severity i with CRITICAL => true | _ => false end.

Definition is_error (i : ValidationIssue) : bool :=
  match severity i with ERROR => true | _ => false end.

Definition _calculate_framework_adherence (result : MethodologyValidationResult) : Q :=
  let critical_issues := count_where is_critical (issues result) in
  let error_issues := count_where is_error (issues result) in
  if 0 <? critical_issues then
    py_max (3 # 10)%Q (validation_score result - (4 # 10))%Q
  else if 1 <? error_issues then
    py_max (5 # 10)%Q (validation_score result - (2 # 10))%Q
  else validation_score result.

(** *** Tracking *)

Record Tracking : Type := mkTracking {
  total_validations : nat;
  average_score : Q;
  tracked_consistency : bool;
  common_issues : list (string * nat);
  strengths_count : list (string * nat);
  claimed_methodologies : list string
}.

(** The attributes of [DevelopmentMethodologyValidator] that change. *)
Record Validator : Type := mkValidator {
  validation_history : list MethodologyValidationResult;
  agent_methodology_tracking : list (string * Tracking)
}.

(** [DevelopmentMethodologyValidator()] *)
Definition new_validator : Validator := mkValidator [] [].

Fixpoint lookup {A : Type} (k : string) (d : list (string * A)) : option A :=
  match d with
  | [] => None
  | (k', v) :: rest => if String.eqb k k' then Some v else lookup k rest
  end.

Fixpoint store {A : Type} (k : string) (v : A) (d : list (string * A))
    : list (string * A) :=
  match d with
  | [] => [(k, v)]
  | (k', v') :: rest =>
      if String.eqb k k' then (k, v) :: rest else (k', v') :: store k v rest
  end.

(** [d[k] = d.get(k, 0) + 1] *)
Definition bump (d : list (string * nat)) (k : string) : list (string * nat) :=
  store k (match lookup k d with Some n => n | None => 0 end + 1) d.

(** [s.add(x)] on a set kept as a duplicate-free list. *)
Definition set_add (x : string) (l : list string) : list string :=
  if mem x l then l else l +++ [x].

Definition _update_agent_tracking (self : Validator) (name : string)
    (result : MethodologyValidationResult) : Validator :=
  let tracking :=
    match lookup name (agent_methodology_tracking self) with
    | Some t => t
    | None => mkTracking 0 0%Q true [] [] []
    end in
  let total := total_validations tracking + 1 in
  let claimed := set_add (methodology_claimed result) (claimed_methodologies tracking) in
  mkValidator
    (validation_history self)
    (store name
       (mkTracking total
          ((average_score tracking * Qnat (total - 1) + validation_score result)
           / Qnat total)%Q
          (if 1 <? length claimed then false else tracked_consistency tracking)
          (fold_left
             (fun acc i => bump acc (issue_type i ++ "_" ++ severity_value (severity i)))
             (issues result) (common_issues tracking))
          (fold_left bump (strengths result) (strengths_count tracking))
          claimed)
       (agent_methodology_tracking self)).

(** *** Validation of one response *)

Definition dispatch (mt : MethodologyType) (agent_response : ResponseDict)
    (result : MethodologyValidationResult) : MethodologyValidationResult :=
  match mt with
  | CLEAN_ARCHITECTURE => _validate_clean_architecture agent_response result
  | SOLID_PRINCIPLES => _validate_solid_principles agent_response result
  | OWASP_SECURITY => _validate_owasp_security agent_response result
  | NIST_CYBERSECURITY => _validate_nist_cybersecurity agent_response result
  | UX_DESIGN_THINKING => _validate_ux_design_thinking agent_response result
  | REST_API_DESIGN => _validate_rest_api_design agent_response result
  | MICROSERVICES_PATTERNS => _validate_microservices_patterns agent_response result
  | _ => _validate_generic_methodology agent_response result mt
  end.

Definition scored (result : MethodologyValidationResult) : MethodologyValidationResult :=
  let score := _calculate_validation_score result in
  let with_score :=
    mkResult (agent_name result) (methodology_claimed result) score
      (_determine_compliance_level score)
      (issues result) (strengths result) (improvement_areas result)
      (methodology_consistency result) (expert_framework_adherence result) in
  mkResult (agent_name result) (methodology_claimed result) score
    (_determine_compliance_level score)
    (issues result) (strengths result) (improvement_areas result)
    (methodology_consistency result)
    (_calculate_framework_adherence with_score).

Definition validate_agent_methodology (self : Validator) (agent_response : ResponseDict)
    (claimed_methodology : string) (name : string)
    : MethodologyValidationResult * Validator :=
  let result := mkResult name claimed_methodology 0%Q "unknown" [] [] [] true 0%Q in
  match _map_methodology_string_to_type claimed_methodology with
  | None =>
      (mkResult name claimed_methodology (1 # 2)%Q "fair"
         [issue WARNING CLEAN_ARCHITECTURE "unknown_methodology"
            ("Cannot validate unknown methodology: " ++ claimed_methodology)
            "Specify a recognized development methodology"]
         [] [] true 0%Q,
       self)
  | Some methodology_type =>
      let final := scored (dispatch methodology_type agent_response result) in
      let tracked := _update_agent_tracking self name final in
      (final,
       mkValidator (validation_history tracked +++ [final])
                   (agent_methodology_tracking tracked))
  end.

(** *** Reports *)

(** [l[-n:]] *)
Definition last_n {A : Type} (n : nat) (l : list A) : list A :=
  skipn (length l - n) l.

Fixpoint insert_desc (x : string * nat) (l : list (string * nat))
    : list (string * nat) :=
  match l with
  | [] => [x]
  | y :: rest => if snd y <? snd x then x :: y :: rest else y :: insert_desc x rest
  end.

(** [sorted(d.items(), key=lambda x: x[1], reverse=True)]: stable. *)
Definition sorted_desc (d : list (string * nat)) : list (string * nat) :=
  fold_left (fun acc x => insert_desc x acc) d [].

Definition _calculate_improvement_trend
    (recent_validations : list MethodologyValidationResult) : string :=
  if length recent_validations <? 3 then "insufficient_data"
  else
    let scores := map validation_score recent_validations in
    let half := length scores / 2 in
    let first_half := firstn half scores in
    let second_half := skipn half scores in
    let avg_first := (Qsum first_half / Qnat (length first_half))%Q in
    let avg_second := (Qsum second_half / Qnat (length second_half))%Q in
    if Qlt_bool (avg_first + (1 # 10))%Q avg_second then "improving"
    else if Qlt_bool avg_second (avg_first - (1 # 10))%Q then "declining"
    else "stable".

(** [key.split('_', 1)] on a key that has an underscore. *)
Fixpoint split_first (s : string) (before : string) : string * string :=
  match s with
  | EmptyString => (before, "")
  | String c rest =>
      if Ascii.eqb c underscore then (before, rest)
      else split_first rest (before ++ str1 c)
  end.

Definition _generate_agent_recommendations (tracking : Tracking)
    (recent_validations : list MethodologyValidationResult) : list string :=
  (if Qlt_bool (average_score tracking) (7 # 10)%Q then
     ["Focus on improving methodology adherence - current average score is below good threshold"]
   else [])
  +++ (if negb (tracked_consistency tracking) then
         ["Maintain consistency in claimed methodology across consultations"]
       else [])
  +++ map (fun kv : string * nat =>
             let '(issue_ty, sev) := split_first (fst kv) "" in
             "Address recurring " ++ sev ++ " issue: " ++ unsnake issue_ty)
          (firstn 3 (common_issues tracking))
  +++ (match recent_validations with
       | [] => []
       | _ =>
           if 5 <? length (flat_map issues (last_n 3 recent_validations))
           then ["Recent validations show increased issues - review methodology application"]
           else []
       end).

Record ValidationSummary : Type := mkSummary {
  summary_total_validations : nat;
  average_validation_score : Q;
  summary_consistency : bool;
  summary_claimed_methodologies : list string
}.

Record PerformanceTrends : Type := mkTrends {
  recent_scores : list Q;
  recent_compliance : list string;
  improvement_trend : string
}.

(** The dict returned by [get_agent_methodology_report]: either the single
    key [error], or the full report. *)
Inductive Report : Type :=
| ErrorReport (error : string)
| AgentReport (name : string) (validation_summary : ValidationSummary)
    (performance_trends : PerformanceTrends)
    (top_issues : list (string * nat)) (top_strengths : list (string * nat))
    (report_recommendations : list string).

Section Reports.

(** [list(s)] of a set, in the order the interpreter happens to give. *)
Variable list_of_set : list string -> list string.

(** The method reads the validator and returns it as it found it. *)
Definition get_agent_methodology_report (self : Validator) (name : string)
    : Report * Validator :=
  match lookup name (agent_methodology_tracking self) with
  | None => (ErrorReport ("No validation history found for agent: " ++ name), self)
  | Some tracking =>
      let recent_validations :=
        filter (fun r => String.eqb (agent_name r) name)
               (last_n 10 (validation_history self)) in
      (AgentReport name
         (mkSummary (total_validations tracking) (average_score tracking)
            (tracked_consistency tracking)
            (list_of_set (claimed_methodologies tracking)))
         (mkTrends
            (map validation_score (last_n 5 recent_validations))
            (map overall_compliance (last_n 5 recent_validations))
            (_calculate_improvement_trend recent_validations))
         (firstn 5 (sorted_desc (common_issues tracking)))
         (firstn 5 (sorted_desc (strengths_count tracking)))
         (_generate_agent_recommendations tracking recent_validations),
       self)
  end.

End Reports.

(** *** System health *)

(** [for methodology in MethodologyType], in the order of the enum. *)
Definition all_methodologies : list MethodologyType :=
  [CLEAN_ARCHITECTURE; SOLID_PRINCIPLES; OWASP_SECURITY; NIST_CYBERSECURITY;
   UX_DESIGN_THINKING; REST_API_DESIGN; AGILE_DEVELOPMENT; TEST_DRIVEN_DEVELOPMENT;
   DOMAIN_DRIVEN_DESIGN; MICROSERVICES_PATTERNS].

Record AgentSummary : Type := mkAgentSummary {
  agent_average_score : Q;
  agent_total_validations : nat;
  agent_methodology_consistency : bool
}.

Record SystemHealth : Type := mkSystemHealth {
  system_health_score : Q;
  health_total_validations : nat;
  recent_validations_analyzed : nat;
  compliance_distribution : list (string * nat);
  average_issues_per_validation : Q;
  issue_severity_breakdown : list (string * nat);
  most_common_issues : list (string * nat);
  methodology_coverage : list (string * nat);
  agent_performance_summary : list (string * AgentSummary)
}.

(** The dict returned by [get_system_methodology_health]: the two keys
    [status] and [message], or the full report. *)
Inductive Health : Type :=
| NoData (status message : string)
| HealthReport (health : SystemHealth).

Definition get_system_methodology_health (self : Validator) : Health :=
  match validation_history self with
  | [] => NoData "no_data" "No validation history available"
  | _ =>
      let recent_validations := last_n 20 (validation_history self) in
      let avg_score :=
        (Qsum (map validation_score recent_validations)
         / Qnat (length recent_validations))%Q in
      let distribution :=
        fold_left (fun d v => bump d (overall_compliance v)) recent_validations [] in
      let all_issues := flat_map issues recent_validations in
      let issue_severity_counts :=
        fold_left (fun d i => bump d (severity_value (severity i))) all_issues [] in
      let issue_type_counts :=
        fold_left (fun d i => bump d (issue_type i)) all_issues [] in
      HealthReport
        (mkSystemHealth avg_score
           (length (validation_history self))
           (length recent_validations)
           distribution
           (Qnat (length all_issues) / Qnat (length recent_validations))%Q
           issue_severity_counts
           (firstn 5 (sorted_desc issue_type_counts))
           (map (fun m =>
                   (methodology_value m,
                    length (filter
                              (fun v => contains (methodology_value m)
                                                 (lower (methodology_claimed v)))
                              recent_validations)))
                all_methodologies)
           (map (fun kv : string * Tracking =>
                   (fst kv,
                    mkAgentSummary (average_score (snd kv))
                      (total_validations (snd kv))
                      (tracked_consistency (snd kv))))
                (agent_methodology_tracking self)))
  end.

(** *** The score in binary64 *)

(** [_calculate_validation_score] and [_determine_compliance_level] on
    the floats of the interpreter: the same subtractions, in the order of
    the issues, the same bonus and the same comparisons. *)
Module Binary64.

Definition penalty (s : ValidationSeverity) : float :=
  match s with
  | CRITICAL => 0.3
  | ERROR => 0.2
  | WARNING => 0.1
  | INFO => 0.05
  end%float.

(** [float(n)] of a count. *)
Definition float_of_nat (n : nat) : float :=
  PrimFloat.of_uint63 (Uint63.of_Z (Z.of_nat n)).

(** Python's two-argument [min] and [max] on floats. *)
Definition py_min (a b : float) : float := if PrimFloat.ltb b a then b else a.
Definition py_max (a b : float) : float := if PrimFloat.ltb a b then b else a.

Definition _calculate_validation_score (result : MethodologyValidationResult) : float :=
  let deducted :=
    fold_left (fun base_score i => (base_score - penalty (severity i))%float)
              (issues result) 1.0%float in
  let strength_bonus :=
    py_min 0.2%float (float_of_nat (length (strengths result)) * 0.05)%float in
  py_max 0.0%float (py_min 1.0%float (deducted + strength_bonus)%float).

Definition _determine_compliance_level (validation_score : float) : string :=
  if PrimFloat.leb 0.9%float validation_score then "excellent"
  else if PrimFloat.leb 0.75%float validation_score then "good"
  else if PrimFloat.leb 0.6%float validation_score then "fair"
  else "poor".

End Binary64.

End MethodologyValidator.

(* ================================================================== *)
(** * Part II.  Theorems                                               *)
(* ================================================================== *)

(* ------------------------------------------------------------------ *)
(** ** Dictionaries and keyword scans                                  *)
(* ------------------------------------------------------------------ *)

Module PyFacts.
Import Py.

Lemma get_set_item (k k' : string) (v : PyVal) (d : PyDict) :
  get k (set_item k' v d) = if String.eqb k k' then Some v else get k d.
Proof.
  induction d as [| [k0 v0] rest IH]; simpl.
  - reflexivity.
  - destruct (String.eqb k' k0) eqn:E'; simpl.
    + apply String.eqb_eq in E'. subst k0.
      destruct (String.eqb k k'); reflexivity.
    + destruct (String.eqb k k0) eqn:E0.
      * apply String.eqb_eq in E0. subst k0.
        rewrite String.eqb_sym, E'. reflexivity.
      * exact IH.
Qed.

Lemma has_key_set_item (k k' : string) (v : PyVal) (d : PyDict) :
  has_key k (set_item k' v d) = String.eqb k k' || has_key k d.
Proof.
  unfold has_key. rewrite get_set_item.
  destruct (String.eqb k k'); reflexivity.
Qed.

Lemma has_key_update_mono (k : string) (e d : PyDict) :
  has_key k d = true -> has_key k (update d e) = true.
Proof.
  unfold update. revert d.
  induction e as [| [k0 v0] rest IH]; simpl; intros d H.
  - exact H.
  - apply IH. rewrite has_key_set_item, H. apply orb_true_r.
Qed.

Lemma has_key_update_new (k : string) (e d : PyDict) :
  has_key k e = true -> has_key k (update d e) = true.
Proof.
  unfold update. revert d.
  induction e as [| [k0 v0] rest IH]; simpl; intros d H.
  - discriminate.
  - unfold has_key in H. simpl in H.
    destruct (String.eqb k k0) eqn:E.
    + apply (has_key_update_mono k rest). rewrite has_key_set_item, E. reflexivity.
    + apply IH. exact H.
Qed.

Lemma get_update_other (k : string) (e d : PyDict) :
  has_key k e = false -> get k (update d e) = get k d.
Proof.
  unfold update. revert d.
  induction e as [| [k0 v0] rest IH]; simpl; intros d H.
  - reflexivity.
  - unfold has_key in H. simpl in H.
    destruct (String.eqb k k0) eqn:E; [discriminate |].
    rewrite IH by exact H. simpl. rewrite get_set_item, E. reflexivity.
Qed.

(** The printed form of a dict, as the keyword scans see it. *)
Example py_str_of_dict :
  py_str (PDict [("performance", PStr "Security measures may impact API performance");
                 ("retries", PInt 3); ("strict", PBool true);
                 ("notes", PList [PNone; PStr "it's fine"])])
  = "{'performance': 'Security measures may impact API performance', "
      ++ "'retries': 3, 'strict': True, 'notes': [None, "
      ++ String dquote ("it's fine" ++ String dquote "]}").
Proof. reflexivity. Qed.

Example lower_and_scan :
  contains "api" (lower "Optimize API response times") = true
  /\ contains "apis" (lower "Optimize API response times") = false.
Proof. split; reflexivity. Qed.

Example split_examples :
  split "  unit   tests first " = ["unit"; "tests"; "first"]
  /\ split_on underscore "independence_of_ui" = ["independence"; "of"; "ui"]
  /\ unsnake "dependency_injection" = "dependency injection".
Proof. repeat split; reflexivity. Qed.

Example update_keeps_positions :
  update [("a", PInt 1); ("b", PInt 2)] [("b", PInt 3); ("c", PInt 4)]
  = [("a", PInt 1); ("b", PInt 3); ("c", PInt 4)].
Proof. reflexivity. Qed.


Lemma filter_none {A : Type} (f : A -> bool) (l : list A) :
  (forall x, In x l -> f x = false) -> filter f l = [].
Proof.
  induction l as [| a rest IH]; simpl; intros H.
  - reflexivity.
  - rewrite (H a) by (left; reflexivity). apply IH.
    intros x Hx. apply H. right. exact Hx.
Qed.


(** Python's [min] and [max] bound their result. *)
Lemma py_min_le_l (a b : Q) : (py_min a b <= a)%Q.
Proof.
  unfold py_min, Qlt_bool.
  destruct (Qle_bool a b) eqn:E; simpl.
  - apply Qle_refl.
  - destruct (Qlt_le_dec b a) as [L | L].
    + apply Qlt_le_weak. exact L.
    + apply Qle_bool_iff in L. congruence.
Qed.

Lemma py_min_ge (a b c : Q) : (c <= a)%Q -> (c <= b)%Q -> (c <= py_min a b)%Q.
Proof.
  unfold py_min. intros Ha Hb. destruct (Qlt_bool b a); assumption.
Qed.

Lemma py_max_ge_l (a b : Q) : (a <= py_max a b)%Q.
Proof.
  unfold py_max, Qlt_bool.
  destruct (Qle_bool b a) eqn:E; simpl.
  - apply Qle_refl.
  - destruct (Qlt_le_dec a b) as [L | L].
    + apply Qlt_le_weak. exact L.
    + apply Qle_bool_iff in L. congruence.
Qed.

Lemma py_max_le (a b c : Q) : (a <= c)%Q -> (b <= c)%Q -> (py_max a b <= c)%Q.
Proof.
  unfold py_max. intros Ha Hb. destruct (Qlt_bool a b); assumption.
Qed.

Lemma Qnat_nonneg (n : nat) : (0 <= Qnat n)%Q.
Proof.
  unfold Qnat, Qle. simpl. lia.
Qed.

End PyFacts.

(* ------------------------------------------------------------------ *)
(** ** The pattern executor and the entry point                        *)
(* ------------------------------------------------------------------ *)

Module OrchestratorTheorems.
Import Py PyFacts MetaOrchestrator.

(** A registry of two validated agents. *)
Definition two_agents : ActiveAgents :=
  [("senior-architect", mkConfig (Some "Clean Architecture"));
   ("security-consultant", mkConfig (Some "OWASP"))].

(** The same registry when the architect's file has no [methodology]
    entry: the file passes [_validate_agent_compatibility], and the
    consultation of the architect ends in a [KeyError], hence in a failed
    response. *)
Definition architect_unusable : ActiveAgents :=
  [("senior-architect", mkConfig None);
   ("security-consultant", mkConfig (Some "OWASP"))].

Definition sample_request : DevelopmentRequest :=
  mkRequest "Design the system security architecture"
            [("existing_system", PStr "Node.js API with Express")] []
            "consultation" "" "feature" [] [].

Definition sample_orchestrator (agents : ActiveAgents) : Orchestrator :=
  mkOrchestrator agents [] [] [].

(** [d2] has every entry of [d1], and a key [d1] lacks. *)
Definition submap (d1 d2 : PyDict) : Prop :=
  forall k v, get k d1 = Some v -> get k d2 = Some v.

Definition key_subset (d1 d2 : PyDict) : Prop :=
  forall k, has_key k d1 = true -> has_key k d2 = true.

Definition strict_superset (d2 d1 : PyDict) : Prop :=
  submap d1 d2 /\ exists k, has_key k d2 = true /\ has_key k d1 = false.

(** None of the three keys a contributor writes is in the context yet. *)
Definition fresh_keys (name : string) (ctx : PyDict) : Prop :=
  has_key (name ++ "_recommendations") ctx = false
  /\ has_key (name ++ "_decisions") ctx = false
  /\ has_key (name ++ "_constraints") ctx = false.

Lemma has_key_update_inv (k : string) (e d : PyDict) :
  has_key k (update d e) = true -> has_key k d = true \/ has_key k e = true.
Proof.
  unfold update. revert d.
  induction e as [| [k0 v0] rest IH]; simpl; intros d H.
  - left. exact H.
  - apply IH in H. simpl in H.
    destruct (String.eqb k k0) eqn:E.
    + right. unfold has_key. simpl. rewrite E. reflexivity.
    + destruct H as [H | H].
      * rewrite has_key_set_item, E in H. left. exact H.
      * right. unfold has_key in *. simpl. rewrite E. exact H.
Qed.

Lemma contribution_has_key (name : string) (r : AgentResponse) :
  has_key (name ++ "_recommendations") (contribution name r) = true.
Proof.
  unfold contribution, dict_of. apply has_key_update_new.
  unfold has_key. simpl. rewrite String.eqb_refl. reflexivity.
Qed.

Lemma contribution_keys (name : string) (r : AgentResponse) (k : string) :
  has_key k (contribution name r) = true ->
  k = name ++ "_recommendations" \/ k = name ++ "_decisions"
  \/ k = name ++ "_constraints".
Proof.
  unfold contribution, dict_of. intros H.
  apply has_key_update_inv in H. destruct H as [H | H]; [discriminate |].
  unfold has_key in H. simpl in H.
  destruct (String.eqb k (name ++ "_recommendations")) eqn:E1;
    [apply String.eqb_eq in E1; tauto |].
  destruct (String.eqb k (name ++ "_decisions")) eqn:E2;
    [apply String.eqb_eq in E2; tauto |].
  destruct (String.eqb k (name ++ "_constraints")) eqn:E3;
    [apply String.eqb_eq in E3; tauto | discriminate].
Qed.

Lemma get_has_key (k : string) (v : PyVal) (d : PyDict) :
  get k d = Some v -> has_key k d = true.
Proof. unfold has_key. intros ->. reflexivity. Qed.

Lemma contribution_strict (name : string) (r : AgentResponse) (ctx : PyDict) :
  fresh_keys name ctx -> strict_superset (update ctx (contribution name r)) ctx.
Proof.
  intros [F1 [F2 F3]]. split.
  - intros k v Hk.
    rewrite get_update_other; [exact Hk |].
    destruct (has_key k (contribution name r)) eqn:E; [| reflexivity].
    apply get_has_key in Hk.
    apply contribution_keys in E. destruct E as [-> | [-> | ->]]; congruence.
  - exists (name ++ "_recommendations"). split; [| exact F1].
    apply has_key_update_new. apply contribution_has_key.
Qed.

Section Patterns.

Variable consult : string -> DevelopmentRequest -> Outcome AgentResponse.

Local Abbreviation parallel := (_execute_parallel_analysis consult).
Local Abbreviation sequential := (_execute_sequential_workflow consult).
Local Abbreviation hierarchical := (_execute_hierarchical_delegation consult).
Local Abbreviation trace := (sequential_trace consult).

Lemma parallel_length (request : DevelopmentRequest) (agents : list string) :
  length (parallel request agents) = length agents.
Proof.
  unfold _execute_parallel_analysis, gather. rewrite !length_map. reflexivity.
Qed.

Lemma parallel_entry (request : DevelopmentRequest) (agents : list string) (i : nat) :
  nth_error (parallel request agents) i
  = option_map (fun name => settle (consult name request)) (nth_error agents i).
Proof.
  unfold _execute_parallel_analysis, gather.
  rewrite map_map, nth_error_map. reflexivity.
Qed.

Lemma failed_response_not_success (e : string) :
  is_success (failed_response e) = false.
Proof. reflexivity. Qed.

(** The trace starts with the context it is given. *)
Lemma trace_head (request : DevelopmentRequest) (agents : list string)
    (ctx c : PyDict) (r : AgentResponse) :
  nth_error (trace request agents ctx) 0 = Some (c, r) -> c = ctx.
Proof.
  destruct agents as [| name rest]; simpl; [discriminate |].
  destruct (consult name (with_context request ctx)); simpl; congruence.
Qed.

Lemma trace_step (request : DevelopmentRequest) (agents : list string) :
  forall (ctx : PyDict) (k : nat) (name : string)
         (c1 c2 : PyDict) (r1 r2 : AgentResponse),
    nth_error agents k = Some name ->
    nth_error (trace request agents ctx) k = Some (c1, r1) ->
    nth_error (trace request agents ctx) (S k) = Some (c2, r2) ->
    c2 = if is_success r1 then update c1 (contribution name r1) else c1.
Proof.
  induction agents as [| name0 rest IH]; intros ctx k name c1 c2 r1 r2 Hn H1 H2.
  - destruct k; discriminate.
  - destruct k as [| k'].
    + simpl in Hn. injection Hn as ->.
      simpl in H1, H2.
      destruct (consult name (with_context request ctx)) as [resp | e].
      * simpl in H1, H2. injection H1 as <- <-.
        apply trace_head in H2. exact H2.
      * simpl in H1, H2. injection H1 as <- <-.
        apply trace_head in H2. rewrite failed_response_not_success. exact H2.
    + simpl in Hn. simpl in H1, H2.
      destruct (consult name0 (with_context request ctx)) as [resp | e];
        simpl in H1, H2; eapply IH; eassumption.
Qed.

End Patterns.

(** *** Pattern selection on the request of the example run *)

(** The request at the end of [meta_orchestrator.py]: three constraints
    make conflicts likely, and three kinds of expertise are required. *)
Definition example_request : DevelopmentRequest :=
  mkRequest "Design and implement a user authentication system with OAuth2 integration"
    [("existing_system", PStr "Node.js API with Express");
     ("user_base", PStr "10,000+ users");
     ("compliance_requirements", PList [PStr "GDPR"; PStr "SOC2"])]
    [("timeline", PStr "4 weeks"); ("team_size", PStr "3 developers");
     ("budget", PStr "limited")]
    "consultation"
    "Secure, scalable authentication system with social login support"
    "feature"
    [("oauth_providers", PList [PStr "Google"; PStr "GitHub"]);
     ("session_management", PStr "JWT tokens");
     ("database", PStr "PostgreSQL")]
    ["Security review"; "Performance testing"; "Integration testing"].

Example example_request_plan :
  let plan := _analyze_development_task dedup example_request in
  pattern plan = CONSENSUS
  /\ required_expertise plan
     = ["senior-architect"; "security-consultant"; "ux-strategist"]
  /\ complexity_level (complexity plan) = "high".
Proof. repeat split; reflexivity. Qed.

(** *** Parallel *)

(** A consultation of [who] that raises, whatever the shipped
    consultation does for the others. *)
Definition raising_for (who : string) (agents : ActiveAgents)
    (name : string) (request : DevelopmentRequest) : Outcome AgentResponse :=
  if String.eqb name who then Raised "connection reset"
  else _consult_agent agents name request.

(** C3.  In Parallel execution the result has one entry per contributor,
    in the order of the batch; the entry of a contributor is its own
    outcome, a raised exception becoming a response of status "failed"
    and a returned response staying as it is; and when the behaviour of
    one contributor [a] changes (it raises, or fails), the entry of every
    other contributor is unchanged. *)
Theorem C3_parallel_isolation
    (consult consult' : string -> DevelopmentRequest -> Outcome AgentResponse)
    (request : DevelopmentRequest) (agents : list string) (a : string) :
  (forall name, name <> a -> consult' name request = consult name request) ->
  length (_execute_parallel_analysis consult' request agents) = length agents
  /\ (forall i,
        nth_error (_execute_parallel_analysis consult' request agents) i
        = option_map (fun name => settle (consult' name request)) (nth_error agents i))
  /\ (forall name e,
        consult' name request = Raised e ->
        settle (consult' name request) = failed_response e
        /\ status (settle (consult' name request)) = "failed")
  /\ (forall name r,
        consult' name request = Returned r -> settle (consult' name request) = r)
  /\ (forall i name,
        nth_error agents i = Some name -> name <> a ->
        nth_error (_execute_parallel_analysis consult' request agents) i
        = nth_error (_execute_parallel_analysis consult request agents) i).
Proof.
  intros Hsame.
  split; [apply parallel_length |].
  split; [apply parallel_entry |].
  split; [intros name e ->; split; reflexivity |].
  split; [intros name r ->; reflexivity |].
  intros i name Hi Hne.
  rewrite !parallel_entry, Hi. simpl. rewrite (Hsame name Hne). reflexivity.
Qed.

(** The security consultant keeps its successful output when the
    architect of the same batch raises. *)
Lemma C3_parallel_isolation_witness :
  (forall name, name <> "senior-architect" ->
     raising_for "senior-architect" two_agents name sample_request
     = _consult_agent two_agents name sample_request)
  /\ option_map status
       (nth_error
          (_execute_parallel_analysis (raising_for "senior-architect" two_agents)
             sample_request ["senior-architect"; "security-consultant"]) 0)
     = Some "failed"
  /\ nth_error
       (_execute_parallel_analysis (raising_for "senior-architect" two_agents)
          sample_request ["senior-architect"; "security-consultant"]) 1
     = nth_error
         (_execute_parallel_analysis (_consult_agent two_agents)
            sample_request ["senior-architect"; "security-consultant"]) 1.
Proof.
  assert (forall name, name <> "senior-architect" ->
            raising_for "senior-architect" two_agents name sample_request
            = _consult_agent two_agents name sample_request) as Hsame.
  { intros name Hne. unfold raising_for.
    destruct (String.eqb name "senior-architect") eqn:E; [| reflexivity].
    apply String.eqb_eq in E. contradiction. }
  split; [exact Hsame |].
  split; [reflexivity |].
  destruct (@C3_parallel_isolation (_consult_agent two_agents)
              (raising_for "senior-architect" two_agents) sample_request
              ["senior-architect"; "security-consultant"] "senior-architect" Hsame)
    as [_ [_ [_ [_ Hiso]]]].
  apply (Hiso 1 "security-consultant"); [reflexivity | discriminate].
Defined.

(** *** Hierarchical *)

Lemma guided_context (request : DevelopmentRequest) (a : AgentResponse) :
  context (guided request a)
  = set_item "technical_direction" (PList (map of_strdict (technical_decisions a)))
      (set_item "architect_guidance" (PDict (result a)) (context request)).
Proof. reflexivity. Qed.

(** C4 as the claim has it, for the branch of a failed architect: the
    fallback would run Parallel over the contributors other than the
    architect. *)
Definition fallback_over_the_rest
    (consult : string -> DevelopmentRequest -> Outcome AgentResponse)
    (request : DevelopmentRequest) (agents : list string) : Prop :=
  forall architect_response,
    mem "senior-architect" agents = true ->
    consult "senior-architect" request = Returned architect_response ->
    is_success architect_response = false ->
    _execute_hierarchical_delegation consult request agents
    = Returned (_execute_parallel_analysis consult request
                  (filter (fun name => negb (is_architect name)) agents)).

(** The architect's consultation fails; the fallback consults both
    contributors, the architect a second time, and returns two outputs
    where Parallel over the rest returns one. *)
Lemma C4_counterexample :
  ~ fallback_over_the_rest (_consult_agent architect_unusable) sample_request
      ["senior-architect"; "security-consultant"].
Proof.
  intros H.
  specialize (H (failed_response "'methodology'") eq_refl eq_refl eq_refl).
  vm_compute in H. discriminate H.
Qed.

(** C4, amended.  Without an architect in the list, Hierarchical is
    Sequential over the full list.  When the architect's consultation
    returns a response that is not a success, it is Parallel over the full
    list, the architect included.  When the architect succeeds, the
    result is the architect's output followed by the Parallel outputs of
    the other contributors, in their order, for a request whose context
    is that of the original request with [architect_guidance] bound to the
    architect's result and [technical_direction] to its technical
    decisions, and every other entry kept. *)
Theorem C4_hierarchical_delegation
    (consult : string -> DevelopmentRequest -> Outcome AgentResponse)
    (request : DevelopmentRequest) (agents : list string) :
  (mem "senior-architect" agents = false ->
     _execute_hierarchical_delegation consult request agents
     = Returned (_execute_sequential_workflow consult request agents))
  /\ (forall architect_response,
        mem "senior-architect" agents = true ->
        consult "senior-architect" request = Returned architect_response ->
        (is_success architect_response = false ->
           _execute_hierarchical_delegation consult request agents
           = Returned (_execute_parallel_analysis consult request agents))
        /\ (is_success architect_response = true ->
              let specialists := filter (fun name => negb (is_architect name)) agents in
              let guided_request := guided request architect_response in
              _execute_hierarchical_delegation consult request agents
              = Returned (architect_response
                          :: _execute_parallel_analysis consult guided_request specialists)
              /\ get "architect_guidance" (context guided_request)
                 = Some (PDict (result architect_response))
              /\ get "technical_direction" (context guided_request)
                 = Some (PList (map of_strdict (technical_decisions architect_response)))
              /\ (forall k, k <> "architect_guidance" -> k <> "technical_direction" ->
                    get k (context guided_request) = get k (context request))
              /\ objective guided_request = objective request
              /\ constraints guided_request = constraints request)).
Proof.
  split.
  - intros Hmem. unfold _execute_hierarchical_delegation. rewrite Hmem. reflexivity.
  - intros a Hmem Hc. split; intros Hs.
    + unfold _execute_hierarchical_delegation. rewrite Hmem, Hc, Hs. reflexivity.
    + cbv zeta. split.
      { unfold _execute_hierarchical_delegation. rewrite Hmem, Hc, Hs. reflexivity. }
      rewrite guided_context.
      split.
      { rewrite !get_set_item. reflexivity. }
      split.
      { rewrite get_set_item. reflexivity. }
      split; [| split; reflexivity].
      intros k H1 H2.
      rewrite !get_set_item.
      destruct (String.eqb k "technical_direction") eqn:E2;
        [apply String.eqb_eq in E2; contradiction |].
      destruct (String.eqb k "architect_guidance") eqn:E1;
        [apply String.eqb_eq in E1; contradiction |].
      reflexivity.
Qed.

(** The three branches of Hierarchical on the shipped consultation: no
    architect in the list, an architect whose consultation fails, and an
    architect who succeeds. *)
Lemma C4_hierarchical_delegation_witness :
  _execute_hierarchical_delegation (_consult_agent two_agents) sample_request
    ["security-consultant"]
  = Returned (_execute_sequential_workflow (_consult_agent two_agents) sample_request
                ["security-consultant"])
  /\ _execute_hierarchical_delegation (_consult_agent architect_unusable) sample_request
       ["senior-architect"; "security-consultant"]
     = Returned (_execute_parallel_analysis (_consult_agent architect_unusable)
                   sample_request ["senior-architect"; "security-consultant"])
  /\ option_map (map name_of)
       (match _execute_hierarchical_delegation (_consult_agent two_agents)
                sample_request ["security-consultant"; "senior-architect"] with
        | Returned l => Some l
        | Raised _ => None
        end)
     = Some ["senior-architect"; "security-consultant"].
Proof.
  split.
  { apply (proj1 (C4_hierarchical_delegation (_consult_agent two_agents)
                    sample_request ["security-consultant"])).
    reflexivity. }
  split.
  { destruct (proj2 (C4_hierarchical_delegation (_consult_agent architect_unusable)
                       sample_request ["senior-architect"; "security-consultant"])
                    (failed_response "'methodology'") eq_refl eq_refl) as [Hfail _].
    apply Hfail. reflexivity. }
  destruct (C4_hierarchical_delegation (_consult_agent two_agents)
              sample_request ["security-consultant"; "senior-architect"])
    as [_ H].
  destruct (_consult_agent two_agents "senior-architect" sample_request)
    as [arch | e] eqn:Hc; [| discriminate Hc].
  destruct (H arch eq_refl eq_refl) as [_ Hs].
  assert (is_success arch = true) as Hok
    by (vm_compute in Hc; injection Hc as <-; reflexivity).
  destruct (Hs Hok) as [-> _].
  vm_compute in Hc. injection Hc as <-. reflexivity.
Defined.

(** *** Sequential *)

(** C5 as the claim has it: the context of each contributor after the
    first is a strict superset of the context of the one before. *)
Definition contexts_strictly_grow
    (consult : string -> DevelopmentRequest -> Outcome AgentResponse)
    (request : DevelopmentRequest) (agents : list string) : Prop :=
  forall k c1 c2,
    nth_error (sequential_contexts consult request agents) k = Some c1 ->
    nth_error (sequential_contexts consult request agents) (S k) = Some c2 ->
    strict_superset c2 c1.

(** The architect's consultation fails, and the security consultant is
    called with the very context the architect was called with. *)
Lemma C5_counterexample :
  ~ contexts_strictly_grow (_consult_agent architect_unusable) sample_request
      ["senior-architect"; "security-consultant"].
Proof.
  intros H.
  destruct (H 0 (context sample_request) (context sample_request) eq_refl eq_refl)
    as [_ [k [Hin Hout]]].
  congruence.
Qed.

(** C5, amended.  For every adjacent pair of contributors k and k+1 of a
    Sequential run: the context passed to k+1 is the context passed to k
    when the output of k is not a success (a failed response, or an
    exception turned into one), and is that context updated with the three
    entries of k ([<k>_recommendations], [<k>_decisions],
    [<k>_constraints]) when it is; in both cases it has every key of the
    context passed to k; and it is a strict superset of it when k
    succeeded and none of the three keys was in the context already. *)
Theorem C5_sequential_context_growth
    (consult : string -> DevelopmentRequest -> Outcome AgentResponse)
    (request : DevelopmentRequest) (agents : list string)
    (k : nat) (name : string) (c1 c2 : PyDict) (r1 r2 : AgentResponse) :
  nth_error agents k = Some name ->
  nth_error (sequential_trace consult request agents (context request)) k
  = Some (c1, r1) ->
  nth_error (sequential_trace consult request agents (context request)) (S k)
  = Some (c2, r2) ->
  c2 = (if is_success r1 then update c1 (contribution name r1) else c1)
  /\ key_subset c1 c2
  /\ (is_success r1 = true -> fresh_keys name c1 -> strict_superset c2 c1).
Proof.
  intros Hn H1 H2.
  pose proof (trace_step consult request agents (context request) k Hn H1 H2) as Hc.
  split; [exact Hc |].
  split.
  - intros key Hkey. subst c2.
    destruct (is_success r1); [apply has_key_update_mono |]; exact Hkey.
  - intros Hs Hfresh. subst c2. rewrite Hs.
    apply contribution_strict. exact Hfresh.
Qed.

(** With both agents usable, the security consultant is called with the
    architect's three entries on top of the request's context. *)
Lemma C5_sequential_context_growth_witness :
  exists c1 c2 r1 r2,
    nth_error (sequential_trace (_consult_agent two_agents) sample_request
                 ["senior-architect"; "security-consultant"] (context sample_request)) 0
    = Some (c1, r1)
    /\ nth_error (sequential_trace (_consult_agent two_agents) sample_request
                    ["senior-architect"; "security-consultant"]
                    (context sample_request)) 1
       = Some (c2, r2)
    /\ keys c1 = ["existing_system"]
    /\ keys c2 = ["existing_system"; "senior-architect_recommendations";
                  "senior-architect_decisions"; "senior-architect_constraints"]
    /\ strict_superset c2 c1.
Proof.
  destruct (nth_error (sequential_trace (_consult_agent two_agents) sample_request
                         ["senior-architect"; "security-consultant"]
                         (context sample_request)) 0) as [[c1 r1] |] eqn:E1;
    [| discriminate E1].
  destruct (nth_error (sequential_trace (_consult_agent two_agents) sample_request
                         ["senior-architect"; "security-consultant"]
                         (context sample_request)) 1) as [[c2 r2] |] eqn:E2;
    [| discriminate E2].
  exists c1, c2, r1, r2.
  split; [reflexivity |]. split; [reflexivity |].
  destruct (@C5_sequential_context_growth (_consult_agent two_agents) sample_request
              ["senior-architect"; "security-consultant"] 0 "senior-architect"
              c1 c2 r1 r2 eq_refl E1 E2) as [_ [_ Hstrict]].
  vm_compute in E1. injection E1 as <- <-.
  vm_compute in E2. injection E2 as <- <-.
  split; [reflexivity |]. split; [reflexivity |].
  apply Hstrict; [reflexivity |].
  repeat split; reflexivity.
Defined.

(** *** Coordinate *)

Lemma filter_nil_existsb {A : Type} (f : A -> bool) (l : list A) :
  filter f l = [] <-> existsb f l = false.
Proof.
  induction l as [| a rest IH]; simpl.
  - tauto.
  - destruct (f a); simpl.
    + split; discriminate.
    + exact IH.
Qed.

Lemma some_success (results : list AgentResponse) :
  existsb is_success results = true
  <-> exists r, In r results /\ status r = "success".
Proof.
  rewrite existsb_exists. unfold is_success.
  split; intros [r [Hin Hs]]; exists r; (split; [exact Hin |]);
    apply String.eqb_eq; exact Hs.
Qed.

Section Coordinate.

Variable consult : string -> DevelopmentRequest -> Outcome AgentResponse.
Variable list_of_set : list string -> list string.
Variable str_of_response : Response -> string.
Variables validation_time history_time error_time : string.

Local Abbreviation synthesize := (_synthesize_development_results list_of_set).
Local Abbreviation validate :=
  (_validate_development_quality str_of_response validation_time).
Local Abbreviation outputs := (contributor_outputs consult list_of_set).
Local Abbreviation coordinate :=
  (process_development_request consult list_of_set str_of_response
     validation_time history_time error_time).

Lemma synthesis_status (results : list AgentResponse) (request : DevelopmentRequest) :
  resp_status (synthesize results request)
  = if existsb is_success results then "success" else "failed".
Proof.
  unfold _synthesize_development_results.
  destruct (filter is_success results) as [| r rest] eqn:E.
  - apply filter_nil_existsb in E. rewrite E. reflexivity.
  - destruct (existsb is_success results) eqn:X; [reflexivity |].
    apply filter_nil_existsb in X. congruence.
Qed.

Lemma synthesis_failed (results : list AgentResponse) (request : DevelopmentRequest) :
  existsb is_success results = false ->
  synthesize results request = failed_synthesis (filter is_failed results).
Proof.
  intros X. unfold _synthesize_development_results.
  apply filter_nil_existsb in X. rewrite X. reflexivity.
Qed.

Lemma validation_keeps_status (response : Response) (request : DevelopmentRequest) :
  resp_status (validate response request) = resp_status response
  /\ failed_agents (validate response request) = failed_agents response
  /\ resp_error (validate response request) = resp_error response.
Proof. repeat split; reflexivity. Qed.

(** The status of the answer, whichever way the pattern ends. *)
Lemma coordinate_status (self : Orchestrator) (request : DevelopmentRequest) :
  resp_status (fst (coordinate self request))
  = match outputs self request with
    | Returned results => if existsb is_success results then "success" else "failed"
    | Raised _ => "failed"
    end.
Proof.
  unfold process_development_request.
  destruct (contributor_outputs consult list_of_set self request) as [results | e].
  - simpl. apply synthesis_status.
  - reflexivity.
Qed.

(** C1.  For a request that names a contributor with a loaded profile,
    the answer of [process_development_request] has status "success"
    exactly when one of the contributor outputs has status "success";
    when none has, the answer is a failed result whose [failed_agents]
    is the number of outputs of status "failed". *)
Theorem C1_coordinate_status (self : Orchestrator) (request : DevelopmentRequest) :
  (exists name,
     In name (required_expertise (_analyze_development_task list_of_set request))
     /\ is_active self name = true) ->
  (resp_status (fst (coordinate self request)) = "success"
   <-> exists results r,
         outputs self request = Returned results
         /\ In r results /\ status r = "success")
  /\ (forall results,
        outputs self request = Returned results ->
        (forall r, In r results -> status r <> "success") ->
        resp_status (fst (coordinate self request)) = "failed"
        /\ resp_error (fst (coordinate self request))
           = Some "No agents provided successful consultations"
        /\ failed_agents (fst (coordinate self request))
           = Some (length (filter is_failed results))).
Proof.
  intros _. split.
  - rewrite coordinate_status.
    destruct (contributor_outputs consult list_of_set self request) as [results | e].
    + destruct (existsb is_success results) eqn:X.
      * split; [intros _ | reflexivity].
        apply some_success in X. destruct X as [r [Hin Hs]].
        exists results, r. repeat split; assumption.
      * split; [discriminate |].
        intros [results' [r [Heq [Hin Hs]]]]. injection Heq as <-.
        assert (existsb is_success results = true) as Y
          by (apply some_success; exists r; split; assumption).
        congruence.
    + split; [discriminate |].
      intros [results' [r [Heq _]]]. discriminate Heq.
  - intros results Hout Hnone.
    assert (existsb is_success results = false) as X.
    { destruct (existsb is_success results) eqn:X; [| reflexivity].
      apply some_success in X. destruct X as [r [Hin Hs]].
      exfalso. exact (Hnone r Hin Hs). }
    unfold process_development_request. rewrite Hout. simpl.
    rewrite (synthesis_failed results request X).
    repeat split; reflexivity.
Qed.

End Coordinate.

(** The shipped consultation on a request for the architect and the
    security consultant: both succeed and so does the answer; with the
    architect alone and unusable, the answer is failed and counts one
    failed consultation. *)
Lemma C1_coordinate_status_witness :
  resp_status
    (fst (process_development_request (_consult_agent two_agents) dedup
            (fun _ => "") "t1" "t2" "t3"
            (sample_orchestrator two_agents) sample_request))
  = "success"
  /\ failed_agents
       (fst (process_development_request
               (_consult_agent [("senior-architect", mkConfig None)]) dedup
               (fun _ => "") "t1" "t2" "t3"
               (sample_orchestrator [("senior-architect", mkConfig None)])
               sample_request))
     = Some 1.
Proof.
  assert (forall agents,
            find_agent "senior-architect" agents <> None ->
            exists name,
              In name (required_expertise
                         (_analyze_development_task dedup sample_request))
              /\ is_active (sample_orchestrator agents) name = true) as Hnamed.
  { intros agents Hfound. exists "senior-architect". split.
    - vm_compute. left. reflexivity.
    - unfold is_active, sample_orchestrator. simpl.
      destruct (find_agent "senior-architect" agents); [reflexivity | contradiction]. }
  split.
  - apply (proj1 (@C1_coordinate_status (_consult_agent two_agents) dedup
                    (fun _ => "") "t1" "t2" "t3"
                    (sample_orchestrator two_agents) sample_request
                    (Hnamed two_agents ltac:(discriminate)))).
    eexists. eexists. split; [reflexivity |]. split; [left; reflexivity | reflexivity].
  - destruct (proj2 (@C1_coordinate_status
                       (_consult_agent [("senior-architect", mkConfig None)]) dedup
                       (fun _ => "") "t1" "t2" "t3"
                       (sample_orchestrator [("senior-architect", mkConfig None)])
                       sample_request
                       (Hnamed [("senior-architect", mkConfig None)]
                               ltac:(discriminate)))
                    [failed_response "'methodology'"])
      as [_ [_ H]].
    + reflexivity.
    + intros r [<- | []]; discriminate.
    + exact H.
Defined.

End OrchestratorTheorems.

(* ------------------------------------------------------------------ *)
(** ** The analysis layer                                              *)
(* ------------------------------------------------------------------ *)

Module EngineTheorems.
Import Py PyFacts IntelligenceEngine.

(** *** The pairwise loops *)

Lemma in_combine_seq {A : Type} (l : list A) :
  forall (s j : nat) (y : A),
    In (j, y) (combine (seq s (length l)) l)
    <-> exists n, j = s + n /\ nth_error l n = Some y.
Proof.
  induction l as [| a rest IH]; intros s j y; simpl.
  - split; [contradiction |]. intros [n [_ H]]. destruct n; discriminate.
  - split.
    + intros [H | H].
      * injection H as <- <-. exists 0. split; [lia | reflexivity].
      * apply IH in H. destruct H as [n [-> Hn]].
        exists (S n). split; [lia | exact Hn].
    + intros [n [-> Hn]]. destruct n as [| n'].
      * simpl in Hn. injection Hn as <-. left. f_equal. lia.
      * right. apply IH. exists n'. split; [lia | exact Hn].
Qed.

(** Every pair of positions [i < j] is visited, and nothing else. *)
Lemma in_pairs_from {A B : Type} (body : nat -> A -> nat -> A -> list B) (o : B) :
  forall (l : list A) (s : nat),
    In o (pairs_from body s l)
    <-> exists i j x y,
          i < j /\ nth_error l i = Some x /\ nth_error l j = Some y
          /\ In o (body (s + i) x (s + j) y).
Proof.
  induction l as [| a rest IH]; intros s; simpl.
  - split; [contradiction |].
    intros [i [j [x [y [_ [H _]]]]]]. destruct i; discriminate.
  - rewrite in_app_iff, in_flat_map, IH. split.
    + intros [[[j y] [Hin Ho]] | [i [j [x [y [Hlt [Hi [Hj Ho]]]]]]]].
      * apply in_combine_seq in Hin. destruct Hin as [n [-> Hn]].
        exists 0, (S n), a, y. simpl in Ho.
        repeat split; [lia | exact Hn |].
        replace (s + 0) with s by lia.
        replace (s + S n) with (S s + n) by lia. exact Ho.
      * exists (S i), (S j), x, y.
        repeat split; [lia | exact Hi | exact Hj |].
        replace (s + S i) with (S s + i) by lia.
        replace (s + S j) with (S s + j) by lia. exact Ho.
    + intros [i [j [x [y [Hlt [Hi [Hj Ho]]]]]]].
      destruct j as [| j']; [lia |]. simpl in Hj.
      destruct i as [| i'].
      * simpl in Hi. injection Hi as <-. left.
        exists (S s + j', y). split.
        -- apply in_combine_seq. exists j'. split; [reflexivity | exact Hj].
        -- simpl. replace (s + 0) with s in Ho by lia.
           replace (s + S j') with (S (s + j')) in Ho by lia. exact Ho.
      * simpl in Hi. right. exists i', j', x, y.
        repeat split; [lia | exact Hi | exact Hj |].
        replace (S s + i') with (s + S i') by lia.
        replace (S s + j') with (s + S j') by lia. exact Ho.
Qed.

Lemma flat_map_combine_map {A C : Type} (g : A -> A) (f : nat -> A -> list C)
    (l : list A) :
  forall (s : list nat),
    flat_map (fun jy : nat * A => f (fst jy) (snd jy)) (combine s (map g l))
    = flat_map (fun jy : nat * A => f (fst jy) (g (snd jy))) (combine s l).
Proof.
  induction l as [| a rest IH]; intros s; destruct s as [| n s']; simpl;
    try reflexivity.
  rewrite IH. reflexivity.
Qed.

Lemma pairs_from_map {A B : Type} (g : A -> A) (body : nat -> A -> nat -> A -> list B) :
  forall (l : list A) (s : nat),
    pairs_from body s (map g l)
    = pairs_from (fun i x j y => body i (g x) j (g y)) s l.
Proof.
  induction l as [| a rest IH]; intros s; simpl.
  - reflexivity.
  - rewrite length_map, IH.
    rewrite (flat_map_combine_map g (fun j y => body s (g a) j y)).
    reflexivity.
Qed.

Lemma pairs_from_ext {A B : Type} (body body' : nat -> A -> nat -> A -> list B) :
  (forall i x j y, body i x j y = body' i x j y) ->
  forall (l : list A) (s : nat), pairs_from body s l = pairs_from body' s l.
Proof.
  intros Hext. induction l as [| a rest IH]; intros s; simpl.
  - reflexivity.
  - rewrite IH. f_equal. apply flat_map_ext. intros [j y]. apply Hext.
Qed.

Lemma map_pairs_from {A B C : Type} (f : B -> C) (body : nat -> A -> nat -> A -> list B) :
  forall (l : list A) (s : nat),
    map f (pairs_from body s l)
    = pairs_from (fun i x j y => map f (body i x j y)) s l.
Proof.
  induction l as [| a rest IH]; intros s; simpl.
  - reflexivity.
  - rewrite map_app, IH. f_equal.
    induction (combine (seq (S s) (length rest)) rest) as [| jy more IHm]; simpl.
    + reflexivity.
    + rewrite map_app, IHm. reflexivity.
Qed.

(** *** Sample outputs *)

(** The two responses of the example run at the end of
    [intelligence_engine.py]. *)
Definition architect_output : ResponseDict :=
  mkResponseDict (Some "success") (Some "senior-architect") (Some (9 # 10)%Q)
    [("architectural_recommendation",
        PStr "Implement microservices architecture with API gateway");
     ("technology_stack_guidance",
        PStr "Use Node.js with TypeScript for consistency")]
    [[("decision", "Architecture Pattern"); ("recommendation", "Microservices")];
     [("decision", "API Design"); ("recommendation", "RESTful with OpenAPI spec")]]
    (PDict [])
    [("complexity", PStr "Microservices add operational complexity")].

Definition security_output : ResponseDict :=
  mkResponseDict (Some "success") (Some "security-consultant") (Some (85 # 100)%Q)
    [("security_analysis",
        PStr "Implement OAuth2 with JWT tokens and rate limiting");
     ("threat_model", PStr "API security and data protection requirements")]
    [[("decision", "Authentication"); ("recommendation", "OAuth2 + JWT")];
     [("decision", "API Security");
      ("recommendation", "Rate limiting + input validation")]]
    (PDict [])
    [("performance", PStr "Security measures may impact API performance")].

(** A failed consultation as the orchestrator builds it: a status and
    nothing else. *)
Definition failed_output : ResponseDict :=
  mkResponseDict (Some "failed") None None [] [] (PDict []) [].

(** Two contributors that report a failure together with what they had
    found. *)
Definition failed_with_findings (name : string) : ResponseDict :=
  mkResponseDict (Some "failed") (Some name) None
    [("consultation_output", PStr "Partial review of the database schema")]
    [] (PDict []) [].

(** *** Overlap and conflict analysis *)

Definition conflict_of_pair (self : Engine) (request_context : PyDict)
    (i : nat) (response1 : ResponseDict) (j : nat) (response2 : ResponseDict)
    : list ConflictAnalysis :=
  list_of_option (_detect_response_conflict self response1 response2 request_context).

(** The record [o] comes from comparing two outputs of status "success". *)
Definition from_successful_pair {B : Type}
    (body : nat -> ResponseDict -> nat -> ResponseDict -> list B)
    (agent_responses : list ResponseDict) (o : B) : Prop :=
  exists i j response1 response2,
    i < j
    /\ nth_error agent_responses i = Some response1
    /\ nth_error agent_responses j = Some response2
    /\ status response1 = Some "success"
    /\ status response2 = Some "success"
    /\ In o (body i response1 j response2).

(** C6 as the claim has it. *)
Definition only_successful_outputs_compared
    (list_of_set : list string -> list string) (self : Engine)
    (agent_responses : list ResponseDict) (request_context : PyDict) : Prop :=
  (forall o, In o (_detect_agent_overlaps list_of_set agent_responses) ->
             from_successful_pair (overlap_of_pair list_of_set) agent_responses o)
  /\ (forall c, In c (_analyze_conflicts self agent_responses request_context) ->
                from_successful_pair (conflict_of_pair self request_context)
                                     agent_responses c).

(** [response] with its status replaced. *)
Definition with_status (st : option string) (response : ResponseDict) : ResponseDict :=
  mkResponseDict st (agent_name response) (confidence response) (result response)
    (technical_decisions response) (recommendations response)
    (potential_conflicts response).

Lemma in_analyze_conflicts (self : Engine) (agent_responses : list ResponseDict)
    (request_context : PyDict) (c : ConflictAnalysis) :
  In c (_analyze_conflicts self agent_responses request_context)
  <-> exists i j response1 response2,
        i < j
        /\ nth_error agent_responses i = Some response1
        /\ nth_error agent_responses j = Some response2
        /\ _detect_response_conflict self response1 response2 request_context
           = Some c.
Proof.
  unfold _analyze_conflicts. rewrite in_pairs_from.
  split; intros [i [j [r1 [r2 [Hlt [Hi [Hj Ho]]]]]]]; exists i, j, r1, r2;
    (repeat split; [exact Hlt | exact Hi | exact Hj |]).
  - destruct (_detect_response_conflict self r1 r2 request_context) as [c' |];
      simpl in Ho; [destruct Ho as [-> | []]; reflexivity | contradiction].
  - rewrite Ho. left. reflexivity.
Qed.

(** A failed consultation next to the security consultant's output: the
    conflict analysis reports a conflict between the two.  Two failed
    outputs that both mention the database: the overlap detection reports
    their overlap. *)
Lemma C6_counterexample :
  (~ only_successful_outputs_compared dedup new_engine
       [failed_output; security_output] [])
  /\ (~ only_successful_outputs_compared dedup new_engine
        [failed_with_findings "backend-builder"; failed_with_findings "frontend-builder"]
        []).
Proof.
  split.
  - intros [_ H].
    destruct (_analyze_conflicts new_engine [failed_output; security_output] [])
      as [| c rest] eqn:E; [vm_compute in E; discriminate E |].
    destruct (H c (or_introl eq_refl))
      as [i [j [r1 [r2 [Hlt [Hi [Hj [Hs1 [Hs2 _]]]]]]]]].
    destruct i as [| i'].
    + simpl in Hi. injection Hi as <-. discriminate Hs1.
    + destruct j as [| [| j']]; [lia | lia |].
      simpl in Hj. destruct j'; discriminate Hj.
  - intros [H _].
    destruct (_detect_agent_overlaps dedup
                [failed_with_findings "backend-builder";
                 failed_with_findings "frontend-builder"])
      as [| o rest] eqn:E; [vm_compute in E; discriminate E |].
    destruct (H o (or_introl eq_refl))
      as [i [j [r1 [r2 [Hlt [Hi [Hj [Hs1 [Hs2 _]]]]]]]]].
    destruct i as [| [| i']].
    + simpl in Hi. injection Hi as <-. discriminate Hs1.
    + simpl in Hi. injection Hi as <-. discriminate Hs1.
    + simpl in Hi. destruct i'; discriminate Hi.
Qed.

(** C6, amended.  Overlap detection and conflict analysis compare every
    pair of the outputs they are given, whatever the statuses: a record is
    emitted exactly for the pairs of positions [i < j] whose comparison
    yields one, and replacing the statuses of the outputs by any others
    changes neither list. *)
Theorem C6_all_outputs_compared
    (list_of_set : list string -> list string) (self : Engine)
    (agent_responses : list ResponseDict) (request_context : PyDict) :
  (forall o,
     In o (_detect_agent_overlaps list_of_set agent_responses)
     <-> exists i j response1 response2,
           i < j
           /\ nth_error agent_responses i = Some response1
           /\ nth_error agent_responses j = Some response2
           /\ In o (overlap_of_pair list_of_set i response1 j response2))
  /\ (forall c,
        In c (_analyze_conflicts self agent_responses request_context)
        <-> exists i j response1 response2,
              i < j
              /\ nth_error agent_responses i = Some response1
              /\ nth_error agent_responses j = Some response2
              /\ _detect_response_conflict self response1 response2 request_context
                 = Some c)
  /\ (forall relabel : ResponseDict -> option string,
        _detect_agent_overlaps list_of_set
          (map (fun r => with_status (relabel r) r) agent_responses)
        = _detect_agent_overlaps list_of_set agent_responses
        /\ _analyze_conflicts self
             (map (fun r => with_status (relabel r) r) agent_responses) request_context
           = _analyze_conflicts self agent_responses request_context).
Proof.
  split; [| split].
  - intros o. unfold _detect_agent_overlaps. rewrite in_pairs_from. reflexivity.
  - intros c. apply in_analyze_conflicts.
  - intros relabel. split.
    + unfold _detect_agent_overlaps. rewrite pairs_from_map.
      apply pairs_from_ext. reflexivity.
    + unfold _analyze_conflicts. rewrite pairs_from_map.
      apply pairs_from_ext. reflexivity.
Qed.

(** *** Conflict severity *)

Definition rank (sev : ConflictSeverity) : nat :=
  match sev with
  | LOW => 0
  | MODERATE => 1
  | HIGH => 2
  | CRITICAL => 3
  end.

(** The three indicator groups of the severity scan. *)
Definition high_impact (text : string) : bool :=
  any_in ["security"; "architecture"; "database"] text.
Definition blocking (text : string) : bool :=
  any_in ["cannot"; "incompatible"; "conflicts"; "contradicts"] text.
Definition performance_impact (text : string) : bool :=
  any_in ["performance"; "scalability"; "bottleneck"] text.

Definition b2n (b : bool) : nat := if b then 1 else 0.

(** How many of the three groups the text matches. *)
Definition matched_groups (text : string) : nat :=
  b2n (high_impact text) + b2n (blocking text) + b2n (performance_impact text).

(** The severity the scan gives a text. *)
Definition severity_of_text (text : string) : ConflictSeverity :=
  severity_of (severity_indicators text).

Lemma severity_by_groups (text : string) :
  severity_of_text text
  = match high_impact text, blocking text, performance_impact text with
    | true, true, _ => CRITICAL
    | true, false, _ => HIGH
    | false, true, _ => HIGH
    | false, false, true => MODERATE
    | false, false, false => LOW
    end.
Proof.
  unfold severity_of_text, severity_indicators, high_impact, blocking,
    performance_impact, high_impact_keywords, blocking_keywords, performance_keywords.
  destruct (any_in ["security"; "architecture"; "database"] text),
           (any_in ["cannot"; "incompatible"; "conflicts"; "contradicts"] text),
           (any_in ["performance"; "scalability"; "bottleneck"] text);
    reflexivity.
Qed.

(** The end of C7 as the claim has it: the severity never decreases
    with the number of matched groups. *)
Definition severity_monotone_in_count : Prop :=
  forall text text',
    matched_groups text <= matched_groups text' ->
    rank (severity_of_text text) <= rank (severity_of_text text').

(** An output that declares one potential conflict. *)
Definition finding_of (name finding : string) : ResponseDict :=
  mkResponseDict (Some "success") (Some name) None [] [] (PDict [])
    [("scope", PStr finding)].

(** The text the severity scan reads for two outputs. *)
Definition merged_text (response1 response2 : ResponseDict) : string :=
  lower (py_str (PDict (update (potential_conflicts response1)
                               (potential_conflicts response2)))).

(** Two conflicts that match one group each: the one about security is
    high, the one about performance is moderate. *)
Lemma C7_counterexample :
  (exists c,
     _detect_response_conflict new_engine
       (finding_of "security-consultant" "Security review pending") failed_output []
     = Some c
     /\ severity c = HIGH)
  /\ (exists c,
        _detect_response_conflict new_engine
          (finding_of "backend-builder" "Performance budget") failed_output []
        = Some c
        /\ severity c = MODERATE)
  /\ matched_groups
       (merged_text (finding_of "security-consultant" "Security review pending")
                    failed_output) = 1
  /\ matched_groups
       (merged_text (finding_of "backend-builder" "Performance budget")
                    failed_output) = 1
  /\ ~ severity_monotone_in_count.
Proof.
  split; [eexists; split; reflexivity |].
  split; [eexists; split; reflexivity |].
  split; [reflexivity |]. split; [reflexivity |].
  intros H.
  specialize (H (merged_text (finding_of "security-consultant" "Security review pending")
                             failed_output)
                (merged_text (finding_of "backend-builder" "Performance budget")
                             failed_output)).
  vm_compute in H. specialize (H (le_n 1)).
  apply Nat.nle_succ_diag_l in H. exact H.
Qed.

(** C7, amended.  For two outputs of which one declares a non-empty
    conflict map, the severity is read off the text of the merged map,
    [str({**conflicts1, **conflicts2}).lower()], in which an entry of the
    second output replaces the entry of the first under the same key: 2
    points when security, architecture or database appears, 2 points when
    cannot, incompatible, conflicts or contradicts appears, 1 point when
    performance, scalability or bottleneck appears; critical from 4
    points, high from 2, moderate from 1, low otherwise.  A low conflict
    gives no record; any other gives one record carrying that severity.
    The severity follows the points, not the number of matched groups:
    it never decreases when the matched groups of one text include those
    of another, nor when one text matches strictly more groups than
    another, and two texts that match equally many groups can differ. *)
Theorem C7_conflict_severity (self : Engine) (response1 response2 : ResponseDict)
    (request_context : PyDict) :
  truthy_dict (potential_conflicts response1)
  || truthy_dict (potential_conflicts response2) = true ->
  let text :=
    lower (py_str (PDict (update (potential_conflicts response1)
                                 (potential_conflicts response2)))) in
  let points :=
    (if any_in ["security"; "architecture"; "database"] text then 2 else 0)
    + (if any_in ["cannot"; "incompatible"; "conflicts"; "contradicts"] text
       then 2 else 0)
    + (if any_in ["performance"; "scalability"; "bottleneck"] text then 1 else 0) in
  let sev :=
    snd (_classify_conflict (potential_conflicts response1)
                            (potential_conflicts response2) response1 response2) in
  sev = (if 4 <=? points then CRITICAL
         else if 2 <=? points then HIGH
         else if 1 <=? points then MODERATE
         else LOW)
  /\ (sev = LOW ->
      _detect_response_conflict self response1 response2 request_context = None)
  /\ (sev <> LOW ->
      exists c,
        _detect_response_conflict self response1 response2 request_context = Some c
        /\ severity c = sev)
  /\ (forall text',
        (high_impact text = true -> high_impact text' = true) ->
        (blocking text = true -> blocking text' = true) ->
        (performance_impact text = true -> performance_impact text' = true) ->
        rank (severity_of_text text) <= rank (severity_of_text text'))
  /\ (forall text',
        matched_groups text < matched_groups text' ->
        rank (severity_of_text text) <= rank (severity_of_text text'))
  /\ sev = severity_of_text text.
Proof.
  intros Hdeclared. cbv zeta.
  set (text := lower (py_str (PDict (update (potential_conflicts response1)
                                            (potential_conflicts response2))))).
  assert (snd (_classify_conflict (potential_conflicts response1)
                 (potential_conflicts response2) response1 response2)
          = severity_of_text text) as Hsev by reflexivity.
  assert (conflict_text (potential_conflicts response1) (potential_conflicts response2)
          = text) as Htext by reflexivity.
  rewrite Hsev.
  split; [reflexivity |].
  split.
  { intros Hlow. unfold _detect_response_conflict. rewrite Hdeclared.
    unfold _classify_conflict. rewrite Htext.
    change (severity_of (severity_indicators text)) with (severity_of_text text).
    rewrite Hlow. reflexivity. }
  split.
  { intros Hnot. unfold _detect_response_conflict. rewrite Hdeclared.
    unfold _classify_conflict. rewrite Htext.
    change (severity_of (severity_indicators text)) with (severity_of_text text).
    destruct (severity_of_text text) eqn:E; [contradiction | | |];
      simpl; eexists; split; reflexivity. }
  split.
  { intros text' H1 H2 H3. rewrite !severity_by_groups.
    destruct (high_impact text), (blocking text), (performance_impact text);
      try (rewrite (H1 eq_refl)); try (rewrite (H2 eq_refl));
      try (rewrite (H3 eq_refl));
      destruct (high_impact text'), (blocking text'), (performance_impact text');
      simpl; lia. }
  split; [| reflexivity].
  intros text'. unfold matched_groups. rewrite !severity_by_groups.
  destruct (high_impact text), (blocking text), (performance_impact text),
           (high_impact text'), (blocking text'), (performance_impact text');
    simpl; lia.
Qed.

(** An output whose only finding is declared by itself, next to one that
    declares nothing; and one whose finding is replaced, under the same
    key, by the harmless entry of the second output. *)
Definition first_only : ResponseDict :=
  mkResponseDict (Some "success") (Some "security-consultant") None [] [] (PDict [])
    [("security", PStr "Cannot share the database")].

(** The example run: security and performance both appear, no blocking
    term does; 3 points, a conflict of high severity is recorded.  A
    finding of the first output alone, with a blocking term on the
    database: 4 points, critical.  The same finding under the key the
    second output also uses: the merged text keeps the second entry only,
    and no record is made. *)
Lemma C7_conflict_severity_witness :
  (exists c,
     _detect_response_conflict new_engine architect_output security_output [] = Some c
     /\ severity c = HIGH)
  /\ (exists c,
        _detect_response_conflict new_engine first_only failed_output [] = Some c
        /\ severity c = CRITICAL)
  /\ _detect_response_conflict new_engine
       (finding_of "security-consultant" "Cannot share the database")
       (finding_of "backend-builder" "Fine with me") []
     = None.
Proof.
  split; [| split].
  - destruct (@C7_conflict_severity new_engine architect_output security_output []
                eq_refl) as [Hsev [_ [Hrecord _]]].
    destruct Hrecord as [c [Hc Hs]].
    + rewrite Hsev. vm_compute. discriminate.
    + exists c. split; [exact Hc |]. rewrite Hs, Hsev. reflexivity.
  - destruct (@C7_conflict_severity new_engine first_only failed_output []
                eq_refl) as [Hsev [_ [Hrecord _]]].
    destruct Hrecord as [c [Hc Hs]].
    + rewrite Hsev. vm_compute. discriminate.
    + exists c. split; [exact Hc |]. rewrite Hs, Hsev. reflexivity.
  - destruct (@C7_conflict_severity new_engine
                (finding_of "security-consultant" "Cannot share the database")
                (finding_of "backend-builder" "Fine with me") []
                eq_refl) as [Hsev [Hnone _]].
    apply Hnone. rewrite Hsev. reflexivity.
Defined.

(** *** Repeated runs *)

(** C8 as the claim has it: a second run of the engine on the same
    outputs reports the same conflict records as the first. *)
Definition rerun_reports_same_conflicts
    (list_of_set : list string -> list string) (self : Engine)
    (agent_responses : list ResponseDict) (request_context : PyDict) : Prop :=
  let first := analyze_agent_responses list_of_set self agent_responses request_context in
  let second :=
    analyze_agent_responses list_of_set (snd first) agent_responses request_context in
  conflict_analysis (fst first) = conflict_analysis (fst second).

(** The example run, twice on a fresh engine: the conflict is
    [conflict_senior-architect_security-consultant_0] the first time and
    [conflict_senior-architect_security-consultant_1] the second. *)
Lemma C8_counterexample :
  ~ rerun_reports_same_conflicts dedup new_engine
      [architect_output; security_output] [].
Proof.
  unfold rerun_reports_same_conflicts. vm_compute. discriminate.
Qed.

(** A conflict record without its identifier. *)
Definition without_id (c : ConflictAnalysis) : ConflictAnalysis :=
  mkConflict "" (agents_involved c) (conflict_type c) (severity c)
    (description c) (root_cause c) (technical_areas c) (architecture_impact c)
    (performance_implications c) (security_implications c)
    (resolution_options c) (stakeholder_input_required c).

Lemma detect_up_to_id (self self' : Engine) (r1 r2 : ResponseDict) (ctx : PyDict) :
  map without_id (list_of_option (_detect_response_conflict self r1 r2 ctx))
  = map without_id (list_of_option (_detect_response_conflict self' r1 r2 ctx)).
Proof.
  unfold _detect_response_conflict.
  destruct (truthy_dict (potential_conflicts r1) || truthy_dict (potential_conflicts r2));
    [| reflexivity].
  destruct (_classify_conflict (potential_conflicts r1) (potential_conflicts r2) r1 r2)
    as [ct sev].
  destruct (negb (is_low sev)); reflexivity.
Qed.

Lemma detect_same_history (self self' : Engine) (r1 r2 : ResponseDict) (ctx : PyDict) :
  length (conflict_history self) = length (conflict_history self') ->
  _detect_response_conflict self r1 r2 ctx = _detect_response_conflict self' r1 r2 ctx.
Proof.
  intros Hlen. unfold _detect_response_conflict. rewrite Hlen. reflexivity.
Qed.

Lemma detect_identifier (self : Engine) (r1 r2 : ResponseDict) (ctx : PyDict)
    (c : ConflictAnalysis) :
  _detect_response_conflict self r1 r2 ctx = Some c ->
  conflict_id c
  = "conflict_" ++ name_or "unknown" r1 ++ "_" ++ name_or "unknown" r2 ++ "_"
      ++ str_of_nat (length (conflict_history self)).
Proof.
  unfold _detect_response_conflict.
  destruct (truthy_dict (potential_conflicts r1) || truthy_dict (potential_conflicts r2));
    [| discriminate].
  destruct (_classify_conflict (potential_conflicts r1) (potential_conflicts r2) r1 r2)
    as [ct sev].
  destruct (negb (is_low sev)); [| discriminate].
  intros H. injection H as <-. reflexivity.
Qed.

(** C8, amended.  Whatever the state of the engine, the conflict analysis
    of the same outputs yields the same records in the same order up to
    their identifier; the identifier of a record ends with the number of
    conflicts the engine has recorded before the run, so that two runs
    yield identical records exactly when that number is the same, and a
    run that finds conflicts changes it for the next run. *)
Theorem C8_conflicts_depend_on_history_length
    (list_of_set : list string -> list string) (self self' : Engine)
    (agent_responses : list ResponseDict) (request_context : PyDict) :
  map without_id (_analyze_conflicts self agent_responses request_context)
  = map without_id (_analyze_conflicts self' agent_responses request_context)
  /\ (forall c,
        In c (_analyze_conflicts self agent_responses request_context) ->
        exists response1 response2,
          In response1 agent_responses /\ In response2 agent_responses
          /\ conflict_id c
             = "conflict_" ++ name_or "unknown" response1 ++ "_"
                 ++ name_or "unknown" response2 ++ "_"
                 ++ str_of_nat (length (conflict_history self)))
  /\ (length (conflict_history self) = length (conflict_history self') ->
      _analyze_conflicts self agent_responses request_context
      = _analyze_conflicts self' agent_responses request_context)
  /\ length (conflict_history
               (snd (analyze_agent_responses list_of_set self agent_responses
                       request_context)))
     = length (conflict_history self)
       + length (_analyze_conflicts self agent_responses request_context).
Proof.
  split; [| split; [| split]].
  - unfold _analyze_conflicts. rewrite !map_pairs_from.
    apply pairs_from_ext. intros i x j y. apply detect_up_to_id.
  - intros c Hc.
    apply in_analyze_conflicts in Hc.
    destruct Hc as [i [j [r1 [r2 [_ [Hi [Hj Hd]]]]]]].
    exists r1, r2.
    split; [apply nth_error_In with i; exact Hi |].
    split; [apply nth_error_In with j; exact Hj |].
    apply detect_identifier with request_context. exact Hd.
  - intros Hlen. unfold _analyze_conflicts.
    apply pairs_from_ext. intros i x j y.
    rewrite (detect_same_history self self' x y request_context Hlen). reflexivity.
  - unfold analyze_agent_responses, _update_intelligence_state. simpl.
    apply length_app.
Qed.

(** The example run on a fresh engine and on the engine it leaves: the
    same record but for the identifier, which counts one conflict more. *)
Lemma C8_conflicts_depend_on_history_length_witness :
  let after_first :=
    snd (analyze_agent_responses dedup new_engine
           [architect_output; security_output] []) in
  map without_id (_analyze_conflicts new_engine [architect_output; security_output] [])
  = map without_id (_analyze_conflicts after_first [architect_output; security_output] [])
  /\ map conflict_id
        (_analyze_conflicts new_engine [architect_output; security_output] [])
     = ["conflict_senior-architect_security-consultant_0"]
  /\ map conflict_id
        (_analyze_conflicts after_first [architect_output; security_output] [])
     = ["conflict_senior-architect_security-consultant_1"]
  /\ _analyze_conflicts new_engine [architect_output; security_output] []
     = _analyze_conflicts (mkEngine [] [] [("x", mkPerformance 1 0%Q 0 0)])
         [architect_output; security_output] [].
Proof.
  cbv zeta.
  split.
  - exact (proj1 (C8_conflicts_depend_on_history_length dedup new_engine
                    (snd (analyze_agent_responses dedup new_engine
                            [architect_output; security_output] []))
                    [architect_output; security_output] [])).
  - split; [reflexivity |]. split; [reflexivity |].
    apply (proj1 (proj2 (proj2 (C8_conflicts_depend_on_history_length dedup new_engine
                                  (mkEngine [] [] [("x", mkPerformance 1 0%Q 0 0)])
                                  [architect_output; security_output] [])))).
    reflexivity.
Defined.

(** *** Quality metrics *)

Lemma status_for_pass (sc pass_at warn_at : Q) :
  status_for sc pass_at warn_at = "pass" <-> (pass_at <= sc)%Q.
Proof.
  unfold status_for. rewrite <- Qle_bool_iff.
  destruct (Qle_bool pass_at sc).
  - tauto.
  - destruct (Qle_bool warn_at sc); split; discriminate.
Qed.

Lemma fold_left_invariant {A S : Type} (P : S -> Prop) (step : S -> A -> S) :
  (forall acc a, P acc -> P (step acc a)) ->
  forall (l : list A) (init : S), P init -> P (fold_left step l init).
Proof.
  intros Hstep. induction l as [| a rest IH]; simpl; intros init Hinit.
  - exact Hinit.
  - apply IH. apply Hstep. exact Hinit.
Qed.

Lemma credit_fold_ge (hit : StrDict -> bool) (credit : Q) :
  (0 <= credit)%Q ->
  forall (l : list StrDict) (sc : Q),
    (sc <= fold_left (fun acc d => if hit d then (acc + credit)%Q else acc) l sc)%Q.
Proof.
  intros Hc. induction l as [| d rest IH]; simpl; intros sc.
  - apply Qle_refl.
  - eapply Qle_trans; [| apply IH]. destruct (hit d); lra.
Qed.

Lemma complexity_score_bounds (agent_responses : list ResponseDict) (ctx : PyDict) :
  (0 <= score (_assess_code_complexity agent_responses ctx) <= 1)%Q.
Proof.
  unfold _assess_code_complexity.
  destruct (fold_left complexity_step agent_responses (0, [])) as [n d]. simpl.
  split.
  - eapply Qle_trans; [| apply py_max_ge_l]. lra.
  - apply py_max_le; [lra |]. pose proof (Qnat_nonneg n). lra.
Qed.

Lemma security_score_bounds (agent_responses : list ResponseDict) (ctx : PyDict) :
  (0 <= score (_assess_security_score agent_responses ctx) <= 1)%Q.
Proof.
  unfold _assess_security_score.
  destruct (find is_security_consultant agent_responses) as [r |]; simpl.
  - split; [| apply py_min_le_l].
    apply py_min_ge; [lra |].
    eapply Qle_trans; [| apply credit_fold_ge; lra].
    destruct (has_key "security_analysis" (result r)),
             (has_key "threat_model" (result r)),
             (has_key "compliance_requirements" (result r)); lra.
  - split; [| apply py_min_le_l]. apply py_min_ge; lra.
Qed.

Lemma coverage_step_nonneg (acc : Q * PyDict) (r : ResponseDict) :
  (0 <= fst acc)%Q -> (0 <= fst (coverage_step acc r))%Q.
Proof.
  destruct acc as [sc d]. unfold coverage_step. cbn [fst]. intros H.
  generalize (result_text r). intros text.
  eapply Qle_trans; [| apply credit_fold_ge; lra].
  destruct (contains "test" text), (contains "unit test" text),
           (contains "integration test" text), (contains "coverage" text); lra.
Qed.

Lemma coverage_score_bounds (agent_responses : list ResponseDict) (ctx : PyDict) :
  (0 <= score (_assess_test_coverage agent_responses ctx) <= 1)%Q.
Proof.
  unfold _assess_test_coverage.
  pose proof (fold_left_invariant (fun acc : Q * PyDict => (0 <= fst acc)%Q)
                coverage_step coverage_step_nonneg agent_responses (0%Q, [])) as H.
  destruct (fold_left coverage_step agent_responses (0%Q, [])) as [sc d]. simpl in *.
  split; [| apply py_min_le_l].
  apply py_min_ge; [lra | apply H; lra].
Qed.

Lemma maintainability_step_nonneg (acc : Q * PyDict) (r : ResponseDict) :
  (0 <= fst acc)%Q -> (0 <= fst (maintainability_step acc r))%Q.
Proof.
  destruct acc as [sc d]. unfold maintainability_step. cbn [fst]. intros H.
  generalize (result_text r). intros text.
  eapply Qle_trans; [| apply credit_fold_ge; lra].
  destruct (contains "documentation" text),
           (contains "modular" text || contains "component" text),
           (contains "clean" text && contains "code" text),
           (contains "pattern" text),
           (contains "standard" text || contains "convention" text);
    lra.
Qed.

Lemma maintainability_score_bounds (agent_responses : list ResponseDict) (ctx : PyDict) :
  (0 <= score (_assess_maintainability agent_responses ctx) <= 1)%Q.
Proof.
  unfold _assess_maintainability.
  pose proof (fold_left_invariant (fun acc : Q * PyDict => (0 <= fst acc)%Q)
                maintainability_step maintainability_step_nonneg agent_responses
                ((1 # 2)%Q, [])) as H.
  destruct (fold_left maintainability_step agent_responses ((1 # 2)%Q, [])) as [sc d].
  simpl in *.
  split; [| apply py_min_le_l].
  apply py_min_ge; [lra | apply H; lra].
Qed.

Lemma debt_score_nonneg (agent_responses : list ResponseDict) (ctx : PyDict) :
  (0 <= score (_assess_technical_debt agent_responses ctx))%Q.
Proof.
  unfold _assess_technical_debt.
  destruct (fold_left debt_step agent_responses (0%Q, [])) as [risk d]. simpl.
  apply py_max_ge_l.
Qed.

(** The fixed threshold of each metric kind the assessor computes. *)
Definition fixed_threshold (mt : QualityMetricType) : Q :=
  match mt with
  | CODE_COMPLEXITY | TEST_COVERAGE => 6 # 10
  | SECURITY_SCORE => 8 # 10
  | _ => 7 # 10
  end%Q.

(** What holds of every metric record: the kinds, the thresholds, "pass"
    exactly from the threshold on, a score that is never negative, and at
    most 1 for every kind but technical debt. *)
Lemma quality_metric_facts (agent_responses : list ResponseDict) (ctx : PyDict)
    (m : QualityMetrics) :
  In m (_assess_code_quality agent_responses ctx) ->
  threshold m = fixed_threshold (metric_type m)
  /\ (metric_status m = "pass" <-> (threshold m <= score m)%Q)
  /\ (0 <= score m)%Q
  /\ (metric_type m <> TECHNICAL_DEBT -> (score m <= 1)%Q).
Proof.
  unfold _assess_code_quality, all_metric_types. simpl.
  intros [<- | [<- | [<- | [<- | [<- | []]]]]].
  - pose proof (complexity_score_bounds agent_responses ctx) as [L U].
    unfold _assess_code_complexity in *.
    destruct (fold_left complexity_step agent_responses (0, [])) as [n d].
    simpl in *. repeat split; try assumption; try apply status_for_pass; auto.
  - pose proof (coverage_score_bounds agent_responses ctx) as [L U].
    unfold _assess_test_coverage in *.
    destruct (fold_left coverage_step agent_responses (0%Q, [])) as [sc d].
    simpl in *. repeat split; try assumption; try apply status_for_pass; auto.
  - pose proof (debt_score_nonneg agent_responses ctx) as L.
    unfold _assess_technical_debt in *.
    destruct (fold_left debt_step agent_responses (0%Q, [])) as [risk d].
    simpl in *. repeat split; try assumption; try apply status_for_pass.
    intros C. contradiction.
  - pose proof (security_score_bounds agent_responses ctx) as [L U].
    unfold _assess_security_score in *.
    destruct (find is_security_consultant agent_responses) as [r |];
      simpl in *; repeat split; try assumption; try apply status_for_pass; auto.
  - pose proof (maintainability_score_bounds agent_responses ctx) as [L U].
    unfold _assess_maintainability in *.
    destruct (fold_left maintainability_step agent_responses ((1 # 2)%Q, []))
      as [sc d].
    simpl in *. repeat split; try assumption; try apply status_for_pass; auto.
Qed.

(** One successful output whose result recommends a refactoring, and
    mentions no quick fix, temporary solution or workaround. *)
Definition refactoring_output : ResponseDict :=
  mkResponseDict (Some "success") (Some "backend-builder") (Some (85 # 100)%Q)
    [("consultation_output", PStr "Refactor the billing module before adding features")]
    [] (PDict []) [].

(** C2, at an input where it fails.  The technical-debt metric of
    [refactoring_output] has debt risk -0.1, hence score 1.1: above 1,
    with status "pass".  The metric is among those [_assess_code_quality]
    returns. *)
Theorem C2_technical_debt_score_exceeds_one :
  let m := _assess_technical_debt [refactoring_output] [] in
  In m (_assess_code_quality [refactoring_output] [])
  /\ metric_type m = TECHNICAL_DEBT
  /\ (score m == 11 # 10)%Q
  /\ (1 < score m)%Q
  /\ metric_status m = "pass".
Proof.
  cbv zeta. split.
  - unfold _assess_code_quality, all_metric_types. simpl. right. right. left. reflexivity.
  - vm_compute. repeat split; reflexivity.
Qed.

End EngineTheorems.

(* ------------------------------------------------------------------ *)
(** ** The methodology validator                                       *)
(* ------------------------------------------------------------------ *)

Module ValidatorTheorems.
Import Py PyFacts MethodologyValidator.

(** *** Rubric keywords *)


(** A response that says nothing any rubric looks for. *)
Definition plain_response : ResponseDict :=
  mkResponseDict
    (Some (PDict [("consultation_output", PStr "Looks good so far")]))
    None None.










(** *** A response without rubric keywords *)







Lemma count_where_all {A : Type} (f : A -> bool) (l : list A) :
  (forall x, In x l -> f x = true) -> count_where f l = length l.
Proof.
  intros H. unfold count_where. induction l as [| a rest IH]; simpl; [reflexivity |].
  rewrite (H a (or_introl eq_refl)). simpl. f_equal. apply IH.
  intros x Hx. apply H. right. exact Hx.
Qed.






(** *** Reports *)

(** The validators a program can hold: a new one, and the one a
    validation leaves.  (A report leaves the validator it is asked.) *)
Inductive reachable : Validator -> Prop :=
| reach_new : reachable new_validator
| reach_validate (self : Validator) (agent_response : ResponseDict)
    (claimed name : string) :
    reachable self ->
    reachable (snd (validate_agent_methodology self agent_response claimed name)).

Lemma lookup_store {A : Type} (k k' : string) (v : A) (d : list (string * A)) :
  lookup k (store k' v d) = if String.eqb k k' then Some v else lookup k d.
Proof.
  induction d as [| [k0 v0] rest IH]; simpl.
  - reflexivity.
  - destruct (String.eqb k' k0) eqn:E'; simpl.
    + apply String.eqb_eq in E'. subst k0. destruct (String.eqb k k'); reflexivity.
    + destruct (String.eqb k k0) eqn:E0.
      * apply String.eqb_eq in E0. subst k0.
        rewrite String.eqb_sym, E'. reflexivity.
      * exact IH.
Qed.

Lemma dispatch_keeps_name (mt : MethodologyType) (agent_response : ResponseDict)
    (result : MethodologyValidationResult) :
  agent_name (scored (dispatch mt agent_response result)) = agent_name result.
Proof. destruct mt; reflexivity. Qed.

(** Whoever is tracked has a result in the history. *)
Lemma tracked_has_history (self : Validator) :
  reachable self ->
  forall name,
    lookup name (agent_methodology_tracking self) <> None ->
    exists r, In r (validation_history self) /\ agent_name r = name.
Proof.
  induction 1 as [| self agent_response claimed who Hreach IH]; intros name Htracked.
  - simpl in Htracked. contradiction.
  - unfold validate_agent_methodology in *.
    destruct (_map_methodology_string_to_type claimed) as [mt |]; simpl in *.
    + rewrite lookup_store in Htracked.
      destruct (String.eqb name who) eqn:E.
      * apply String.eqb_eq in E. subst who.
        eexists. split; [apply in_or_app; right; left; reflexivity |].
        apply dispatch_keeps_name.
      * destruct (IH name Htracked) as [r [Hin Hname]].
        exists r. split; [apply in_or_app; left; exact Hin | exact Hname].
    + apply IH. exact Htracked.
Qed.

Lemma report_of_untracked (list_of_set : list string -> list string)
    (self : Validator) (name : string) :
  lookup name (agent_methodology_tracking self) = None ->
  get_agent_methodology_report list_of_set self name
  = (ErrorReport ("No validation history found for agent: " ++ name), self).
Proof.
  intros H. unfold get_agent_methodology_report. rewrite H. reflexivity.
Qed.

(** C10.  For a validator reached by any sequence of validations and an
    agent name for which the history holds no result, the report is the
    dict with the single key [error] and its message, no exception is
    raised, and the validator, tracking and history, is left as it
    was. *)
Theorem C10_report_without_history (list_of_set : list string -> list string)
    (self : Validator) (name : string) :
  reachable self ->
  (forall r, In r (validation_history self) -> agent_name r <> name) ->
  fst (get_agent_methodology_report list_of_set self name)
  = ErrorReport ("No validation history found for agent: " ++ name)
  /\ snd (get_agent_methodology_report list_of_set self name) = self
  /\ agent_methodology_tracking
       (snd (get_agent_methodology_report list_of_set self name))
     = agent_methodology_tracking self
  /\ validation_history (snd (get_agent_methodology_report list_of_set self name))
     = validation_history self.
Proof.
  intros Hreach Hnone.
  assert (lookup name (agent_methodology_tracking self) = None) as Huntracked.
  { destruct (lookup name (agent_methodology_tracking self)) as [t |] eqn:E;
      [| reflexivity].
    destruct (tracked_has_history Hreach name) as [r [Hin Hname]];
      [rewrite E; discriminate |].
    exfalso. exact (Hnone r Hin Hname). }
  rewrite (report_of_untracked list_of_set self name Huntracked).
  repeat split; reflexivity.
Qed.

(** After one validation of the architect, a report is asked for the
    security consultant. *)
Lemma C10_report_without_history_witness :
  let self :=
    snd (validate_agent_methodology new_validator plain_response
           "SOLID principles" "senior-architect") in
  length (validation_history self) = 1
  /\ fst (get_agent_methodology_report dedup self "security-consultant")
     = ErrorReport "No validation history found for agent: security-consultant"
  /\ snd (get_agent_methodology_report dedup self "security-consultant") = self.
Proof.
  cbv zeta. split; [reflexivity |].
  destruct (@C10_report_without_history dedup
              (snd (validate_agent_methodology new_validator plain_response
                      "SOLID principles" "senior-architect"))
              "security-consultant"
              (reach_validate plain_response "SOLID principles" "senior-architect"
                 reach_new))
    as [Hreport [Hsame _]].
  - intros r Hin. vm_compute in Hin. destruct Hin as [<- | []]. discriminate.
  - split; [exact Hreport | exact Hsame].
Defined.

End ValidatorTheorems.

(* ------------------------------------------------------------------ *)
(** ** More on the pattern executor and the entry point                *)
(* ------------------------------------------------------------------ *)

Module OrchestratorExtras.
Import Py PyFacts MetaOrchestrator OrchestratorTheorems.

(** How many responses declare a non-empty [potential_conflicts]. *)
Definition declaring (responses : list AgentResponse) : nat :=
  length (filter (fun r => truthy_dict (potential_conflicts r)) responses).

(** A consultation whose every answer declares a potential conflict. *)
Definition wary_consult (name : string) (request : DevelopmentRequest)
    : Outcome AgentResponse :=
  Returned (mkResponse "success" [("consultation_output", PStr name)]
              (mkMetadata (Some name) None (Some (3 # 4)%Q) None)
              [] [] [("scope", PStr ("overlaps with " ++ name))] "" [] [] []).

Section Executor.

Variable consult : string -> DevelopmentRequest -> Outcome AgentResponse.

Lemma trace_length (request : DevelopmentRequest) (agents : list string) :
  forall ctx, length (sequential_trace consult request agents ctx) = length agents.
Proof.
  induction agents as [| name rest IH]; intros ctx; simpl.
  - reflexivity.
  - destruct (consult name (with_context request ctx)); simpl; rewrite IH; reflexivity.
Qed.

Lemma sequential_length (request : DevelopmentRequest) (agents : list string) :
  length (_execute_sequential_workflow consult request agents) = length agents.
Proof.
  unfold _execute_sequential_workflow. rewrite length_map. apply trace_length.
Qed.

Lemma trace_entry (request : DevelopmentRequest) (agents : list string) :
  forall (ctx : PyDict) (k : nat) (name : string) (c : PyDict) (r : AgentResponse),
    nth_error agents k = Some name ->
    nth_error (sequential_trace consult request agents ctx) k = Some (c, r) ->
    r = settle (consult name (with_context request c))
    /\ (forall key, has_key key ctx = true -> has_key key c = true).
Proof.
  induction agents as [| name0 rest IH]; intros ctx k name c r Hn Ht.
  - destruct k; discriminate.
  - destruct k as [| k'].
    + simpl in Hn. injection Hn as ->. simpl in Ht.
      destruct (consult name (with_context request ctx)) as [resp | e] eqn:E;
        simpl in Ht; injection Ht as <- <-; rewrite E; split; auto.
    + simpl in Hn. simpl in Ht.
      destruct (consult name0 (with_context request ctx)) as [resp | e];
        simpl in Ht.
      * destruct (IH _ _ _ _ _ Hn Ht) as [Hr Hk]. split; [exact Hr |].
        intros key Hkey. apply Hk.
        destruct (is_success resp); [apply has_key_update_mono |]; exact Hkey.
      * exact (IH _ _ _ _ _ Hn Ht).
Qed.

(** *** The conflict scan of the consensus pattern *)

Lemma scan_row (response1 : AgentResponse) (c : nat -> ResponseConflict)
    (rest : list AgentResponse) :
  forall s,
    length (flat_map
              (fun jr : nat * AgentResponse =>
                 if truthy_dict (potential_conflicts response1)
                    && truthy_dict (potential_conflicts (snd jr))
                 then [c (fst jr)] else [])
              (indexed s rest))
    = if truthy_dict (potential_conflicts response1) then declaring rest else 0.
Proof.
  unfold indexed, declaring.
  induction rest as [| r more IH]; intros s; simpl.
  - destruct (truthy_dict (potential_conflicts response1)); reflexivity.
  - rewrite length_app, IH.
    destruct (truthy_dict (potential_conflicts response1));
      destruct (truthy_dict (potential_conflicts r)); reflexivity.
Qed.

Lemma detect_from_count (responses : list AgentResponse) :
  forall i,
    2 * length (detect_from i responses)
    = declaring responses * (declaring responses - 1).
Proof.
  induction responses as [| r rest IH]; intros i.
  - reflexivity.
  - cbn [detect_from]. rewrite length_app.
    rewrite (scan_row r
               (fun j => mkResponseConflict
                           ["agent_" ++ str_of_nat i; "agent_" ++ str_of_nat j]
                           "methodology_difference"
                           "Conflicting technical recommendations detected")
               rest (S i)).
    specialize (IH (S i)). unfold declaring in *. simpl.
    destruct (truthy_dict (potential_conflicts r)); simpl; nia.
Qed.

Lemma annotate_status (r : AgentResponse) : status (annotate r) = status r.
Proof. reflexivity. Qed.

Lemma annotate_flag (r : AgentResponse) :
  get "consensus_attempted" (potential_conflicts (annotate r)) = Some (PBool true).
Proof. unfold annotate. simpl. rewrite get_set_item. reflexivity. Qed.

Lemma consensus_cases (request : DevelopmentRequest) (agents : list string) :
  let responses := _execute_parallel_analysis consult request agents in
  (declaring responses < 2
   /\ _execute_consensus_decision consult request agents = responses)
  \/ (2 <= declaring responses
      /\ _execute_consensus_decision consult request agents = map annotate responses).
Proof.
  cbv zeta. unfold _execute_consensus_decision, _detect_response_conflicts,
    _resolve_conflicts_through_consensus.
  pose proof (detect_from_count (_execute_parallel_analysis consult request agents) 0)
    as Hcount.
  destruct (detect_from 0 (_execute_parallel_analysis consult request agents))
    as [| c more]; simpl in Hcount.
  - left. split; [nia | reflexivity].
  - right. split; [nia | reflexivity].
Qed.

Lemma consensus_length (request : DevelopmentRequest) (agents : list string) :
  length (_execute_consensus_decision consult request agents) = length agents.
Proof.
  destruct (consensus_cases request agents) as [[_ ->] | [_ ->]];
    [| rewrite length_map]; apply parallel_length.
Qed.

End Executor.

Section Outputs.

Variable consult : string -> DevelopmentRequest -> Outcome AgentResponse.

(** X1.  [_detect_response_conflicts] reports one conflict for every
    unordered pair of responses that both carry a non-empty
    [potential_conflicts]: with [n] such responses there are
    [n * (n - 1) / 2] conflicts, each of kind "methodology_difference"
    and naming two agents. *)
Theorem X1_conflicts_counted_by_pairs (responses : list AgentResponse) :
  2 * length (_detect_response_conflicts responses)
  = declaring responses * (declaring responses - 1)
  /\ Forall (fun c => conflict_kind c = "methodology_difference"
                      /\ length (conflict_agents c) = 2)
            (_detect_response_conflicts responses).
Proof.
  split; [apply detect_from_count |].
  unfold _detect_response_conflicts.
  set (two := 2). generalize 0. subst two.
  induction responses as [| r rest IH]; intros i; cbn [detect_from].
  - constructor.
  - apply Forall_app. split; [| apply IH].
    apply Forall_flat_map. apply Forall_forall. intros [j r'] _.
    destruct (truthy_dict (potential_conflicts r) && _); repeat constructor.
Qed.

(** X2.  Consensus returns one response per contributor, with the status
    and the result of the Parallel run.  When fewer than two responses
    declare potential conflicts it returns the Parallel responses
    unchanged; otherwise every response carries
    [potential_conflicts['consensus_attempted'] = True]. *)
Theorem X2_consensus_over_parallel (request : DevelopmentRequest) (agents : list string) :
  let responses := _execute_parallel_analysis consult request agents in
  let answers := _execute_consensus_decision consult request agents in
  length answers = length agents
  /\ map status answers = map status responses
  /\ map result answers = map result responses
  /\ ((declaring responses < 2 /\ answers = responses)
      \/ (2 <= declaring responses
          /\ Forall (fun r => get "consensus_attempted" (potential_conflicts r)
                              = Some (PBool true)) answers)).
Proof.
  cbv zeta. split; [apply consensus_length |].
  destruct (consensus_cases consult request agents) as [[Hn ->] | [Hn ->]].
  - repeat split; try reflexivity. left. split; [exact Hn | reflexivity].
  - rewrite !map_map. repeat split; try reflexivity.
    right. split; [exact Hn |].
    apply Forall_map. apply Forall_forall. intros r _. apply annotate_flag.
Qed.

(** X3.  Sequential returns one output per contributor, in order: the
    output at position [k] is the settled consultation of contributor [k]
    on the request with the context accumulated so far, and that context
    still has every key of the request's own context. *)
Theorem X3_sequential_outputs (request : DevelopmentRequest) (agents : list string)
    (k : nat) (name : string) :
  nth_error agents k = Some name ->
  length (_execute_sequential_workflow consult request agents) = length agents
  /\ exists c,
       nth_error (sequential_contexts consult request agents) k = Some c
       /\ nth_error (_execute_sequential_workflow consult request agents) k
          = Some (settle (consult name (with_context request c)))
       /\ key_subset (context request) c.
Proof.
  intros Hn. split; [apply sequential_length |].
  unfold sequential_contexts, _execute_sequential_workflow.
  destruct (nth_error (sequential_trace consult request agents (context request)) k)
    as [[c r] |] eqn:E.
  - destruct (trace_entry consult request agents _ _ Hn E) as [-> Hk].
    exists c. rewrite !nth_error_map, E. repeat split. exact Hk.
  - apply nth_error_None in E. rewrite trace_length in E.
    assert (k < length agents) by (apply nth_error_Some; congruence). lia.
Qed.

Lemma filter_out_one (x : string) (l : list string) :
  NoDup l -> In x l ->
  S (length (filter (fun a => negb (String.eqb a x)) l)) = length l.
Proof.
  induction 1 as [| a rest Hnin Hnd IH]; intros Hin; [contradiction |].
  simpl. destruct (String.eqb a x) eqn:E; simpl.
  - apply String.eqb_eq in E. subst a. f_equal.
    clear IH Hin Hnd. induction rest as [| b more IH]; [reflexivity |].
    simpl. destruct (String.eqb b x) eqn:F.
    + apply String.eqb_eq in F. subst b. exfalso. apply Hnin. left. reflexivity.
    + simpl. f_equal. apply IH. intros H. apply Hnin. right. exact H.
  - f_equal. apply IH. destruct Hin as [-> | Hin]; [| exact Hin].
    rewrite String.eqb_refl in E. discriminate.
Qed.

Lemma mem_In (x : string) (l : list string) : mem x l = true <-> In x l.
Proof.
  unfold mem. rewrite existsb_exists. split.
  - intros [y [Hin Hy]]. apply String.eqb_eq in Hy. subst. exact Hin.
  - intros Hin. exists x. split; [exact Hin | apply String.eqb_refl].
Qed.

(** X4.  Whatever the pattern, a run over contributors without
    repetition that returns has exactly one output per contributor. *)
Theorem X4_one_output_per_contributor (plan : OrchestrationPlan)
    (request : DevelopmentRequest) (agents : list string)
    (results : list AgentResponse) :
  NoDup agents ->
  execute_pattern consult plan request agents = Returned results ->
  length results = length agents.
Proof.
  intros Hnd. unfold execute_pattern.
  destruct (pattern plan).
  - intros [= <-]. apply sequential_length.
  - intros [= <-]. apply parallel_length.
  - intros [= <-]. apply consensus_length.
  - unfold _execute_hierarchical_delegation.
    destruct (mem "senior-architect" agents) eqn:M; simpl.
    + destruct (consult "senior-architect" request) as [a | e]; [| discriminate].
      destruct (is_success a); simpl.
      * intros [= <-]. simpl. rewrite parallel_length.
        apply filter_out_one; [exact Hnd | apply mem_In; exact M].
      * intros [= <-]. apply parallel_length.
    + intros [= <-]. apply sequential_length.
Qed.

End Outputs.

Lemma is_active_In (self : Orchestrator) (name : string) :
  is_active self name = true -> exists cfg, find_agent name (active_agents self) = Some cfg.
Proof.
  unfold is_active. destruct (find_agent name (active_agents self)) as [cfg |];
    [eauto | discriminate].
Qed.

Lemma selection_facts (self : Orchestrator) (plan : OrchestrationPlan) :
  Forall (fun name => is_active self name = true) (_select_agents_for_task self plan)
  /\ (_select_agents_for_task self plan = []
      <-> Forall (fun name => is_active self name = false)
                 ("senior-architect" :: required_expertise plan)).
Proof.
  unfold _select_agents_for_task.
  destruct (filter (is_active self) (required_expertise plan)) as [| a rest] eqn:E.
  - destruct (is_active self "senior-architect") eqn:A.
    + split; [repeat constructor; exact A |].
      split; [discriminate |]. intros H. inversion H. congruence.
    + split; [constructor |]. split; [| reflexivity]. intros _.
      constructor; [exact A |]. apply Forall_forall. intros x Hx.
      destruct (is_active self x) eqn:X; [| reflexivity].
      assert (In x (filter (is_active self) (required_expertise plan))) as Hin
        by (apply filter_In; split; assumption).
      rewrite E in Hin. contradiction.
  - split.
    + rewrite <- E. apply Forall_forall. intros x Hx. apply filter_In in Hx. tauto.
    + split; [discriminate |]. intros H. inversion H as [| ? ? _ Hall]. subst.
      rewrite Forall_forall in Hall.
      assert (In a (filter (is_active self) (required_expertise plan))) as Hin
        by (rewrite E; left; reflexivity).
      apply filter_In in Hin. destruct Hin as [Hin Ha].
      rewrite (Hall a Hin) in Ha. discriminate.
Qed.

(** X5.  [_select_agents_for_task] only returns contributors whose profile
    is loaded, and it returns nobody exactly when neither a required
    contributor nor the senior architect is loaded. *)
Theorem X5_only_loaded_agents_selected (self : Orchestrator) (plan : OrchestrationPlan) :
  Forall (fun name => is_active self name = true) (_select_agents_for_task self plan)
  /\ (_select_agents_for_task self plan = []
      <-> Forall (fun name => is_active self name = false)
                 ("senior-architect" :: required_expertise plan)).
Proof. exact (selection_facts self plan). Qed.

(** ** Synthesis and validation *)

Lemma join_nonempty (sep p : string) (rest : list string) :
  p <> "" -> join sep (p :: rest) <> "".
Proof.
  intros Hp. destruct rest as [| q more]; simpl; [exact Hp |].
  destruct p; [contradiction | discriminate].
Qed.

Lemma approach_nonempty (results : list AgentResponse) :
  truthy_str (_synthesize_implementation_approach results) = true.
Proof.
  unfold _synthesize_implementation_approach.
  match goal with |- context [flat_map ?f results] => set (l := flat_map f results) end.
  assert (forall a, In a l -> a <> "") as Hl.
  { intros a Ha. unfold l in Ha. apply in_flat_map in Ha.
    destruct Ha as [r [_ Ha]].
    repeat match type of Ha with
           | In _ (if ?b then _ else _) => destruct b
           end;
      simpl in Ha; try contradiction; destruct Ha as [<- | []]; discriminate. }
  destruct l as [| a rest]; [reflexivity |].
  assert (join " | " (a :: rest) <> "") as Hj
    by (apply join_nonempty; apply Hl; left; reflexivity).
  destruct (join " | " (a :: rest)); [contradiction | reflexivity].
Qed.

Section Answer.

Variable consult : string -> DevelopmentRequest -> Outcome AgentResponse.
Variable list_of_set : list string -> list string.
Variable str_of_response : Response -> string.
Variables validation_time history_time error_time : string.

Local Abbreviation synthesize := (_synthesize_development_results list_of_set).
Local Abbreviation validate :=
  (_validate_development_quality str_of_response validation_time).
Local Abbreviation outputs := (contributor_outputs consult list_of_set).
Local Abbreviation coordinate :=
  (process_development_request consult list_of_set str_of_response
     validation_time history_time error_time).

Lemma validation_verdict (results : list AgentResponse) (request : DevelopmentRequest) :
  exists v,
    quality_validation (validate (synthesize results request) request) = Some v
    /\ validation_passed v = existsb is_success results
    /\ has_technical_guidance (quality_checks v) = existsb is_success results
    /\ has_implementation_approach (quality_checks v) = existsb is_success results
    /\ has_risk_assessment (quality_checks v) = existsb is_success results
    /\ has_next_steps (quality_checks v) = existsb is_success results
    /\ (quality_score v
        == Qnat ((if existsb is_success results then 4 else 0)
                 + (if meets_success_criteria (quality_checks v) then 1 else 0)) / 5)%Q.
Proof.
  unfold _validate_development_quality, with_validation. cbn [quality_validation].
  eexists. split; [reflexivity |].
  cbn [validation_passed quality_checks quality_score has_technical_guidance
       has_implementation_approach has_risk_assessment has_next_steps
       meets_success_criteria].
  generalize (_check_success_criteria str_of_response (synthesize results request)
                (success_criteria request)).
  intros b.
  unfold _synthesize_development_results.
  destruct (filter is_success results) as [| r rest] eqn:E.
  - apply filter_nil_existsb in E. rewrite E.
    cbn [technical_guidance risk_assessment next_steps failed_synthesis present].
    destruct b; vm_compute; repeat split; reflexivity.
  - assert (existsb is_success results = true) as X.
    { destruct (existsb is_success results) eqn:X; [reflexivity |].
      apply filter_nil_existsb in X. congruence. }
    rewrite X.
    cbn [technical_guidance risk_assessment next_steps present implementation_approach].
    rewrite approach_nonempty.
    destruct b; vm_compute; repeat split; reflexivity.
Qed.

(** X8.  The quality validation of a synthesized answer passes exactly
    when some output succeeded: the four structural checks all follow the
    synthesis, so the success criteria of the request never change the
    verdict, only the score (4/5 or 1 on success, 0 or 1/5 on failure). *)
Theorem X8_validation_follows_synthesis (results : list AgentResponse)
    (request : DevelopmentRequest) :
  exists v,
    quality_validation (validate (synthesize results request) request) = Some v
    /\ validation_passed v = existsb is_success results
    /\ (quality_score v
        == Qnat ((if existsb is_success results then 4 else 0)
                 + (if meets_success_criteria (quality_checks v) then 1 else 0)) / 5)%Q.
Proof.
  destruct (validation_verdict results request) as [v [Hv [Hp [_ [_ [_ [_ Hs]]]]]]].
  exists v. repeat split; assumption.
Qed.

End Answer.

(** ** Sums of scores *)

Lemma Qnat_S (n : nat) : (Qnat (S n) == Qnat n + 1)%Q.
Proof.
  unfold Qnat. rewrite Nat2Z.inj_succ. unfold Z.succ.
  rewrite inject_Z_plus. reflexivity.
Qed.

Lemma fold_sum_bounds (lo hi : Q) (l : list Q) :
  (forall x, In x l -> lo <= x <= hi)%Q ->
  forall a : Q,
    (a + Qnat (length l) * lo <= fold_left Qplus l a
     /\ fold_left Qplus l a <= a + Qnat (length l) * hi)%Q.
Proof.
  induction l as [| x rest IH]; intros Hall a.
  - cbn [fold_left length]. change (Qnat 0) with 0%Q. split; lra.
  - cbn [fold_left length].
    destruct (IH (fun y Hy => Hall y (or_intror Hy)) (a + x)%Q) as [L U].
    destruct (Hall x (or_introl eq_refl)) as [Lx Ux].
    rewrite Qnat_S. split; lra.
Qed.

Lemma Qnat_pos (n : nat) : (0 < Qnat (S n))%Q.
Proof. unfold Qnat, Qlt. simpl. lia. Qed.

Lemma mean_bounds (lo hi : Q) (l : list Q) :
  l <> [] ->
  (forall x, In x l -> lo <= x <= hi)%Q ->
  (lo <= Qsum l / Qnat (length l) <= hi)%Q.
Proof.
  intros Hne Hall. destruct l as [| x rest]; [contradiction |].
  destruct (@fold_sum_bounds lo hi (x :: rest) Hall 0%Q) as [L U].
  fold (Qsum (x :: rest)) in L, U.
  pose proof (Qnat_pos (length rest)) as Hpos.
  change (length (x :: rest)) with (S (length rest)) in *.
  split.
  - apply Qle_shift_div_l; [exact Hpos | lra].
  - apply Qle_shift_div_r; [exact Hpos | lra].
Qed.

Definition confidence_or_half (r : AgentResponse) : Q :=
  match confidence (metadata r) with Some c => c | None => (1 # 2)%Q end.

Lemma confidence_level_bounds (results : list AgentResponse) (lo hi : Q) :
  results <> [] ->
  (forall r, In r results -> lo <= confidence_or_half r <= hi)%Q ->
  (lo <= _calculate_confidence_level results <= hi)%Q.
Proof.
  intros Hne Hall. unfold _calculate_confidence_level.
  fold confidence_or_half.
  destruct results as [| r rest]; [contradiction |].
  cbn [map]. rewrite <- (map_cons confidence_or_half).
  apply mean_bounds; [discriminate |].
  intros x Hx. apply in_map_iff in Hx. destruct Hx as [r' [<- Hr']].
  apply Hall. exact Hr'.
Qed.

(** X9.  [_calculate_confidence_level] is 0.5 for no results, the
    confidence itself for a single result, and stays between 0 and 1 when
    every confidence does, a missing confidence counting as 0.5.  (The
    bounds 0 and 1 are kept by the rounded mean of the interpreter as
    well; tighter bounds of the confidences need not be.) *)
Theorem X9_confidence_level_between_0_and_1 (results : list AgentResponse) :
  (forall r, In r results ->
     (0 <= match confidence (metadata r) with Some c => c | None => 1 # 2 end <= 1)%Q) ->
  (0 <= _calculate_confidence_level results <= 1)%Q
  /\ (results = [] -> (_calculate_confidence_level results == 1 # 2)%Q)
  /\ (forall r,
        results = [r] ->
        (_calculate_confidence_level results
         == match confidence (metadata r) with Some c => c | None => 1 # 2 end)%Q).
Proof.
  intros Hall. split; [| split].
  - destruct results as [| r rest]; [split; discriminate |].
    apply (@confidence_level_bounds (r :: rest) 0%Q 1%Q); [discriminate | exact Hall].
  - intros ->. reflexivity.
  - intros r ->. unfold _calculate_confidence_level, Qsum. cbn [map fold_left length].
    change (Qnat 1) with 1%Q. field.
Qed.

(** ** The shipped consultation *)

Definition usable (agents : ActiveAgents) : Prop :=
  forall name cfg, In (name, cfg) agents -> cfg_methodology cfg <> None.

(** A successful output with the confidence the placeholder reports. *)
Definition confident (r : AgentResponse) : Prop :=
  status r = "success" /\ confidence (metadata r) = Some (17 # 20)%Q.

Lemma find_agent_In (name : string) (agents : ActiveAgents) (cfg : AgentConfig) :
  find_agent name agents = Some cfg -> In (name, cfg) agents.
Proof.
  induction agents as [| [n c] rest IH]; simpl; [discriminate |].
  destruct (String.eqb name n) eqn:E.
  - apply String.eqb_eq in E. subst n. intros [= ->]. left. reflexivity.
  - intros H. right. apply IH. exact H.
Qed.

Lemma shipped_consult (agents : ActiveAgents) (name : string)
    (request : DevelopmentRequest) :
  usable agents ->
  find_agent name agents <> None ->
  exists r, _consult_agent agents name request = Returned r /\ confident r.
Proof.
  intros Hu Hf. unfold _consult_agent.
  destruct (find_agent name agents) as [cfg |] eqn:E; [| contradiction].
  apply find_agent_In in E. apply Hu in E.
  destruct (cfg_methodology cfg) as [m |]; [| contradiction].
  destruct (String.eqb name "senior-architect");
    [| destruct (String.eqb name "security-consultant")];
    eexists; (split; [reflexivity | split; reflexivity]).
Qed.

Lemma shipped_never_raises (agents : ActiveAgents) (name : string)
    (request : DevelopmentRequest) :
  exists r, _consult_agent agents name request = Returned r
            /\ (status r = "success" \/ status r = "failed").
Proof.
  unfold _consult_agent.
  destruct (find_agent name agents) as [cfg |]; [| eexists; split; [reflexivity | right; reflexivity]].
  destruct (cfg_methodology cfg) as [m |]; [| eexists; split; [reflexivity | right; reflexivity]].
  destruct (String.eqb name "senior-architect");
    [| destruct (String.eqb name "security-consultant")];
    eexists; (split; [reflexivity | left; reflexivity]).
Qed.

Section Shipped.

Variable agents : ActiveAgents.
Hypothesis Husable : usable agents.

Local Abbreviation loaded := (fun name => find_agent name agents <> None).

Lemma shipped_parallel (request : DevelopmentRequest) (names : list string) :
  Forall loaded names ->
  Forall confident (_execute_parallel_analysis (_consult_agent agents) request names).
Proof.
  intros Hall. unfold _execute_parallel_analysis, gather. rewrite map_map.
  apply Forall_map. eapply Forall_impl; [| exact Hall].
  intros name Hl. cbv beta in Hl.
  destruct (shipped_consult name request Husable Hl) as [r [-> Hr]]. exact Hr.
Qed.

Lemma shipped_trace (request : DevelopmentRequest) (names : list string) :
  Forall loaded names ->
  forall ctx,
    Forall confident (map snd (sequential_trace (_consult_agent agents) request names ctx)).
Proof.
  induction 1 as [| name rest Hl Hrest IH]; intros ctx; simpl.
  - constructor.
  - destruct (shipped_consult name (with_context request ctx) Husable Hl)
      as [r [-> Hr]].
    simpl. constructor; [exact Hr | apply IH].
Qed.

Lemma annotate_confident (r : AgentResponse) : confident r -> confident (annotate r).
Proof. intros H. exact H. Qed.

Lemma shipped_pattern (plan : OrchestrationPlan) (request : DevelopmentRequest)
    (names : list string) :
  Forall loaded names ->
  names <> [] ->
  exists results,
    execute_pattern (_consult_agent agents) plan request names = Returned results
    /\ Forall confident results /\ results <> [].
Proof.
  intros Hall Hne.
  assert (forall (l : list AgentResponse), length l = length names -> l <> []) as Hlen.
  { intros l Hl ->. destruct names; [contradiction | discriminate]. }
  unfold execute_pattern. destruct (pattern plan).
  - eexists. split; [reflexivity |]. split.
    + apply shipped_trace. exact Hall.
    + apply Hlen. apply sequential_length.
  - eexists. split; [reflexivity |]. split.
    + apply shipped_parallel. exact Hall.
    + apply Hlen. apply parallel_length.
  - eexists. split; [reflexivity |]. split.
    + destruct (consensus_cases (_consult_agent agents) request names)
        as [[_ ->] | [_ ->]].
      * apply shipped_parallel. exact Hall.
      * apply Forall_map. eapply Forall_impl; [| apply shipped_parallel; exact Hall].
        intros r Hr. apply annotate_confident. exact Hr.
    + apply Hlen. apply consensus_length.
  - unfold _execute_hierarchical_delegation.
    destruct (mem "senior-architect" names) eqn:M; simpl.
    + assert (loaded "senior-architect") as Ha.
      { apply mem_In in M. rewrite Forall_forall in Hall. apply Hall. exact M. }
      destruct (shipped_consult "senior-architect" request Husable Ha)
        as [a [-> Hconf]].
      assert (is_success a = true) as ->
        by (unfold is_success; rewrite (proj1 Hconf); reflexivity).
      simpl. eexists. split; [reflexivity |]. split; [| discriminate].
      constructor; [exact Hconf |].
      apply shipped_parallel.
      rewrite Forall_forall in *. intros x Hx. apply filter_In in Hx.
      apply Hall. tauto.
    + eexists. split; [reflexivity |]. split.
      * apply shipped_trace. exact Hall.
      * apply Hlen. apply sequential_length.
Qed.

End Shipped.

Lemma confident_filters (results : list AgentResponse) :
  Forall confident results ->
  filter is_success results = results /\ filter is_failed results = [].
Proof.
  induction 1 as [| r rest [Hs Hc] Hrest [IH1 IH2]]; [split; reflexivity |].
  simpl. unfold is_success, is_failed. rewrite Hs. simpl.
  fold (is_success). fold is_failed. rewrite IH1, IH2. split; reflexivity.
Qed.

Section Answers.

Variable list_of_set : list string -> list string.
Variable str_of_response : Response -> string.
Variables validation_time history_time error_time : string.

(** X7.  With the shipped [_consult_agent], when every loaded profile has
    a methodology and somebody is selected, the answer has status
    "success", counts no failed consultation, reports consensus level
    "high" and confidence 0.85, and passes quality validation. *)
Theorem X7_usable_profiles_answer_success (self : Orchestrator)
    (request : DevelopmentRequest) :
  (forall name cfg, In (name, cfg) (active_agents self) -> cfg_methodology cfg <> None) ->
  _select_agents_for_task self (_analyze_development_task list_of_set request) <> [] ->
  let answer :=
    fst (process_development_request (_consult_agent (active_agents self)) list_of_set
           str_of_response validation_time history_time error_time self request) in
  resp_status answer = "success"
  /\ (exists s, synthesis_summary answer = Some s
                /\ successful_consultations s = total_agents_consulted s
                /\ failed_consultations s = 0
                /\ consensus_level s = "high")
  /\ (exists k, risk_assessment answer = Some k
                /\ (confidence_level k == 17 # 20)%Q)
  /\ (exists v, quality_validation answer = Some v /\ validation_passed v = true).
Proof.
  intros Hu Hsel. cbv zeta.
  set (plan := _analyze_development_task list_of_set request) in *.
  assert (Forall (fun name => find_agent name (active_agents self) <> None)
                 (_select_agents_for_task self plan)) as Hloaded.
  { eapply Forall_impl; [| apply (proj1 (selection_facts self plan))].
    intros name H. apply is_active_In in H. destruct H as [cfg ->]. discriminate. }
  destruct (@shipped_pattern (active_agents self) Hu plan request _ Hloaded Hsel)
    as [results [Hout [Hconf Hne]]].
  unfold process_development_request, contributor_outputs.
  fold plan. rewrite Hout. cbn [fst].
  destruct (validation_verdict list_of_set str_of_response validation_time results request)
    as [v [Hv [Hpass _]]].
  destruct (confident_filters Hconf) as [Hs Hf].
  assert (existsb is_success results = true) as X.
  { destruct (existsb is_success results) eqn:X; [reflexivity |].
    apply filter_nil_existsb in X. congruence. }
  split; [| split; [| split]].
  - destruct (validation_keeps_status str_of_response validation_time
                (_synthesize_development_results list_of_set results request) request)
      as [-> _].
    rewrite synthesis_status, X. reflexivity.
  - unfold _validate_development_quality, with_validation. cbn [synthesis_summary].
    unfold _synthesize_development_results. rewrite Hs, Hf.
    destruct results as [| r rest]; [contradiction |].
    cbn [synthesis_summary]. eexists. split; [reflexivity |].
    repeat split; reflexivity.
  - unfold _validate_development_quality, with_validation. cbn [risk_assessment].
    unfold _synthesize_development_results. rewrite Hs.
    destruct results as [| r rest]; [contradiction |].
    cbn [risk_assessment]. eexists. split; [reflexivity |].
    cbn [confidence_level].
    apply Qle_antisym;
      apply (@confidence_level_bounds (r :: rest) (17 # 20)%Q (17 # 20)%Q);
      try discriminate;
      intros r' Hr'; rewrite Forall_forall in Hconf;
      destruct (Hconf r' Hr') as [_ Hc]; unfold confidence_or_half; rewrite Hc;
      split; apply Qle_refl.
  - exists v. split; [exact Hv |]. rewrite Hpass. exact X.
Qed.

End Answers.

Section Answers2.

Variable consult : string -> DevelopmentRequest -> Outcome AgentResponse.
Variable list_of_set : list string -> list string.
Variable str_of_response : Response -> string.
Variables validation_time history_time error_time : string.

Lemma nobody_to_consult (plan : OrchestrationPlan) (request : DevelopmentRequest) :
  execute_pattern consult plan request [] = Returned [].
Proof. unfold execute_pattern. destruct (pattern plan); reflexivity. Qed.

(** X6.  With no agent profile loaded, nobody is consulted and the
    answer is the failed synthesis: status "failed", zero failed agents,
    no technical guidance, and a quality validation that does not pass. *)
Theorem X6_no_loaded_agents (self : Orchestrator) (request : DevelopmentRequest) :
  active_agents self = [] ->
  let answer :=
    fst (process_development_request consult list_of_set str_of_response
           validation_time history_time error_time self request) in
  contributor_outputs consult list_of_set self request = Returned []
  /\ resp_status answer = "failed"
  /\ resp_error answer = Some "No agents provided successful consultations"
  /\ failed_agents answer = Some 0
  /\ technical_guidance answer = None
  /\ exists v, quality_validation answer = Some v /\ validation_passed v = false.
Proof.
  intros Hnone. cbv zeta.
  assert (contributor_outputs consult list_of_set self request = Returned []) as Hout.
  { unfold contributor_outputs.
    assert (_select_agents_for_task self (_analyze_development_task list_of_set request)
            = []) as ->.
    { unfold _select_agents_for_task, is_active. rewrite Hnone. cbn [find_agent].
      rewrite filter_none by (intros; reflexivity). reflexivity. }
    apply nobody_to_consult. }
  split; [exact Hout |].
  unfold process_development_request. rewrite Hout. cbn [fst].
  destruct (validation_verdict list_of_set str_of_response validation_time [] request)
    as [v [Hv [Hpass _]]].
  repeat split; try reflexivity.
  exists v. split; [exact Hv | exact Hpass].
Qed.

(** X11.  An exception leaves the pattern executor only from the first
    consultation of the senior architect under the Hierarchical pattern;
    the answer is then the error response carrying the message, and the
    orchestrator keeps its state. *)
Theorem X11_only_the_architect_call_raises (self : Orchestrator)
    (request : DevelopmentRequest) (e : string) :
  let plan := _analyze_development_task list_of_set request in
  let selected := _select_agents_for_task self plan in
  let outcome :=
    process_development_request consult list_of_set str_of_response
      validation_time history_time error_time self request in
  (contributor_outputs consult list_of_set self request = Raised e
   <-> pattern plan = HIERARCHICAL
       /\ In "senior-architect" selected
       /\ consult "senior-architect" request = Raised e)
  /\ (contributor_outputs consult list_of_set self request = Raised e ->
      snd outcome = self
      /\ resp_status (fst outcome) = "failed"
      /\ resp_error (fst outcome) = Some e
      /\ quality_validation (fst outcome) = None).
Proof.
  cbv zeta. split.
  - unfold contributor_outputs, execute_pattern.
    destruct (pattern (_analyze_development_task list_of_set request)) eqn:P;
      try (split; [discriminate | intros [H _]; discriminate H]).
    unfold _execute_hierarchical_delegation.
    rewrite <- mem_In.
    destruct (mem "senior-architect" _) eqn:M; simpl.
    + destruct (consult "senior-architect" request) as [a | e'].
      * destruct (is_success a); simpl;
          (split; [discriminate | intros [_ [_ H]]; discriminate H]).
      * split.
        -- intros [= ->]. repeat split.
        -- intros [_ [_ [= ->]]]. reflexivity.
    + split; [discriminate | intros [_ [H _]]; discriminate H].
  - intros Hout. unfold process_development_request. rewrite Hout.
    repeat split.
Qed.

End Answers2.

(** ** Required expertise *)

Definition known_roles : list string :=
  ["senior-architect"; "security-consultant"; "ux-strategist";
   "backend-builder"; "frontend-builder"].

Lemma dedup_nonempty (l : list string) : l <> [] -> dedup l <> [].
Proof.
  destruct l as [| a rest]; [contradiction |]. intros _ H.
  assert (In a (dedup (a :: rest))) as Hin
    by (apply nodup_In; left; reflexivity).
  rewrite H in Hin. contradiction.
Qed.

Lemma dedup_length (l : list string) : length (dedup l) <= length l.
Proof.
  apply NoDup_incl_length; [apply NoDup_nodup |].
  intros x Hx. apply nodup_In in Hx. exact Hx.
Qed.

Section Expertise.

Variable list_of_set : list string -> list string.
Hypothesis set_semantics : forall l, Permutation (list_of_set l) (dedup l).

Lemma required_expertise_facts (request : DevelopmentRequest) :
  let required := _determine_required_expertise list_of_set request in
  NoDup required
  /\ 1 <= length required <= 5
  /\ Forall (fun name => In name known_roles) required.
Proof.
  cbv zeta. unfold _determine_required_expertise.
  generalize (lower (objective request)). intros o.
  match goal with
  | |- context [list_of_set ?l] => set (wanted := l)
  end.
  pose proof (set_semantics wanted) as Hperm.
  assert (wanted <> [] /\ length wanted <= 5
          /\ forall x, In x wanted -> In x known_roles) as [Hne [Hlen Hin]].
  { unfold wanted.
    destruct (any_in ["architecture"; "design"; "system"; "integration"] o);
    destruct (any_in ["security"; "auth"; "permission"; "encryption"; "vulnerability"] o);
    destruct (any_in ["ui"; "ux"; "user"; "interface"; "frontend"] o);
    destruct (any_in ["api"; "backend"; "server"; "database"; "microservice"] o);
    destruct (any_in ["frontend"; "ui"; "react"; "vue"; "angular"; "component"] o);
    (split; [discriminate |]); (split; [simpl; lia |]);
    intros x Hx; simpl in Hx; unfold known_roles; simpl; tauto. }
  split; [| split].
  - apply (Permutation_NoDup (Permutation_sym Hperm)). apply NoDup_nodup.
  - rewrite (Permutation_length Hperm). split.
    + pose proof (dedup_nonempty Hne). destruct (dedup wanted); [contradiction | simpl; lia].
    + pose proof (dedup_length wanted). lia.
  - apply Forall_forall. intros x Hx. apply Hin.
    apply (Permutation_in _ Hperm) in Hx. apply nodup_In in Hx. exact Hx.
Qed.

End Expertise.

(** X12.  When [list(set(l))] lists the distinct elements of [l], a plan
    requires between one and five distinct contributors, all of the five
    known roles; the selection has no repetition; Hierarchical is planned
    only with the senior architect among at least three required
    contributors, and a single required contributor is run
    sequentially. *)
Theorem X12_required_expertise (list_of_set : list string -> list string)
    (self : Orchestrator) (request : DevelopmentRequest) :
  (forall l, Permutation (list_of_set l) (dedup l)) ->
  let plan := _analyze_development_task list_of_set request in
  NoDup (required_expertise plan)
  /\ 1 <= length (required_expertise plan) <= 5
  /\ Forall (fun name => In name known_roles) (required_expertise plan)
  /\ NoDup (_select_agents_for_task self plan)
  /\ length (_select_agents_for_task self plan) <= 5
  /\ (pattern plan = HIERARCHICAL
      -> In "senior-architect" (required_expertise plan)
         /\ 3 <= length (required_expertise plan))
  /\ (length (required_expertise plan) = 1 -> pattern plan = SEQUENTIAL).
Proof.
  intros Hset. cbv zeta.
  destruct (@required_expertise_facts list_of_set Hset request) as [Hnd [Hlen Hknown]].
  unfold _analyze_development_task. cbn [required_expertise pattern].
  set (required := _determine_required_expertise list_of_set request) in *.
  split; [exact Hnd |]. split; [exact Hlen |]. split; [exact Hknown |].
  assert (NoDup (filter (is_active self) required)) as Hf by (apply NoDup_filter; exact Hnd).
  assert (length (filter (is_active self) required) <= 5) as Hfl
    by (pose proof (filter_length_le (is_active self) required); lia).
  split; [| split; [| split]].
  - unfold _select_agents_for_task. cbn [required_expertise].
    destruct (filter (is_active self) required) eqn:E; [| exact Hf].
    destruct (is_active self "senior-architect"); repeat constructor. intros [].
  - unfold _select_agents_for_task. cbn [required_expertise].
    destruct (filter (is_active self) required) eqn:E; [| exact Hfl].
    destruct (is_active self "senior-architect"); simpl; lia.
  - destruct (length required =? 1); [discriminate |].
    destruct (conflicts_likely _ || _); [discriminate |].
    destruct (parallel_work_possible _); [discriminate |].
    destruct (mem "senior-architect" required) eqn:M; simpl; [| discriminate].
    destruct (2 <? length required) eqn:L; [| discriminate].
    intros _. split; [apply mem_In; exact M | apply Nat.ltb_lt in L; lia].
  - intros ->. reflexivity.
Qed.

(** ** The orchestrator over a run of requests *)

(** [serves agents n self]: [self] is the orchestrator built over the
    profiles [agents] after [n] requests were answered; a request whose
    processing ended in the [except] clause is not counted. *)
Inductive serves (agents : ActiveAgents) : nat -> Orchestrator -> Prop :=
| serves_new : serves agents 0 (mkOrchestrator agents [] [] [])
| serves_request
    (consult : string -> DevelopmentRequest -> Outcome AgentResponse)
    (list_of_set : list string -> list string)
    (str_of_response : Response -> string)
    (validation_time history_time error_time : string)
    (n : nat) (self : Orchestrator) (request : DevelopmentRequest) :
    serves agents n self ->
    serves agents
      (match contributor_outputs consult list_of_set self request with
       | Returned _ => S n
       | Raised _ => n
       end)
      (snd (process_development_request consult list_of_set str_of_response
              validation_time history_time error_time self request)).

Definition score_in_range (kv : string * QualityValidation) : Prop :=
  (0 <= quality_score (snd kv) <= 1)%Q.

Lemma validation_score_range (str_of_response : Response -> string)
    (validation_time : string) (response : Response) (request : DevelopmentRequest) :
  exists v,
    quality_validation
      (_validate_development_quality str_of_response validation_time response request)
    = Some v
    /\ (0 <= quality_score v <= 1)%Q.
Proof.
  unfold _validate_development_quality, with_validation. cbn [quality_validation].
  eexists. split; [reflexivity |]. cbn [quality_score].
  unfold checks_items.
  cbn [has_technical_guidance has_implementation_approach has_risk_assessment
       has_next_steps meets_success_criteria].
  destruct (present (technical_guidance response));
    destruct (match technical_guidance response with
              | Some g => truthy_str (implementation_approach g)
              | None => false
              end);
    destruct (present (risk_assessment response));
    destruct (present (next_steps response));
    destruct (_check_success_criteria str_of_response response (success_criteria request));
    vm_compute; split; discriminate.
Qed.

Lemma assoc_set_length {A : Type} (k : string) (v : A) (d : list (string * A)) :
  length d <= length (assoc_set k v d) <= S (length d).
Proof.
  induction d as [| [k' v'] rest IH]; simpl; [lia |].
  destruct (String.eqb k k'); simpl; lia.
Qed.

Lemma assoc_set_Forall {A : Type} (P : string * A -> Prop) (k : string) (v : A)
    (d : list (string * A)) :
  P (k, v) -> Forall P d -> Forall P (assoc_set k v d).
Proof.
  intros Hv. induction 1 as [| [k' v'] rest Hx Hrest IH]; simpl.
  - repeat constructor. exact Hv.
  - destruct (String.eqb k k'); constructor; assumption.
Qed.

Lemma serves_invariant (agents : ActiveAgents) (n : nat) (self : Orchestrator) :
  serves agents n self ->
  active_agents self = agents
  /\ length (conversation_history self) = n
  /\ length (quality_metrics self) <= n
  /\ Forall score_in_range (quality_metrics self).
Proof.
  induction 1 as [| consult los sor vt ht et n self request Hs [Ha [Hh [Hq Hr]]]].
  - simpl. repeat split; try reflexivity. constructor.
  - unfold process_development_request.
    destruct (contributor_outputs consult los self request) as [results | e].
    + cbn [snd]. unfold _update_development_context.
      cbn [active_agents conversation_history quality_metrics].
      destruct (validation_score_range sor vt
                  (_synthesize_development_results los results request) request)
        as [v [-> Hv]].
      split; [exact Ha |]. split; [rewrite length_app; simpl; lia |].
      split.
      * pose proof (assoc_set_length (objective request) v (quality_metrics self)). lia.
      * apply assoc_set_Forall; [exact Hv | exact Hr].
    + cbn [snd]. repeat split; assumption.
Qed.

(** X10.  For an orchestrator that answered [n] requests since it was
    built, [get_orchestrator_status] lists the loaded profiles, counts
    [n] conversations, reports an average quality score between 0 and 1,
    and is "degraded" exactly when no profile is loaded. *)
Theorem X10_status_of_a_serving_orchestrator (agents : ActiveAgents) (n : nat)
    (self : Orchestrator) :
  serves agents n self ->
  let st := get_orchestrator_status self in
  status_active_agents st = map fst agents
  /\ total_conversations st = n
  /\ (0 <= average_quality_score st <= 1)%Q
  /\ (system_health st = "degraded" <-> agents = []).
Proof.
  intros Hs. destruct (serves_invariant Hs) as [Ha [Hh [_ Hr]]].
  cbv zeta. unfold get_orchestrator_status.
  cbn [status_active_agents total_conversations average_quality_score system_health].
  rewrite Ha. split; [reflexivity |]. split; [exact Hh |]. split.
  - unfold _calculate_average_quality_score.
    destruct (quality_metrics self) as [| kv rest] eqn:E; [split; discriminate |].
    apply mean_bounds; [discriminate |].
    intros x Hx. apply in_map_iff in Hx. destruct Hx as [kv' [<- Hkv]].
    rewrite Forall_forall in Hr. apply (Hr kv' Hkv).
  - destruct agents; split; try reflexivity; discriminate.
Qed.

(** ** Witnesses *)

Definition hierarchical_plan : OrchestrationPlan :=
  let p := _analyze_development_task dedup sample_request in
  mkPlan HIERARCHICAL (complexity p) (required_expertise p)
         (coordination_strategy p) (estimated_steps p).

Lemma X3_sequential_outputs_witness :
  length (_execute_sequential_workflow (_consult_agent two_agents) sample_request
            ["senior-architect"; "security-consultant"]) = 2
  /\ exists c,
       nth_error (sequential_contexts (_consult_agent two_agents) sample_request
                    ["senior-architect"; "security-consultant"]) 1 = Some c
       /\ nth_error (_execute_sequential_workflow (_consult_agent two_agents)
                       sample_request ["senior-architect"; "security-consultant"]) 1
          = Some (settle (_consult_agent two_agents "security-consultant"
                            (with_context sample_request c)))
       /\ key_subset (context sample_request) c.
Proof.
  exact (@X3_sequential_outputs (_consult_agent two_agents) sample_request
           ["senior-architect"; "security-consultant"] 1 "security-consultant" eq_refl).
Defined.

Lemma X4_one_output_per_contributor_witness :
  exists results,
    execute_pattern (_consult_agent two_agents) hierarchical_plan sample_request
      ["senior-architect"; "security-consultant"] = Returned results
    /\ length results = 2.
Proof.
  eexists. split; [vm_compute; reflexivity |].
  apply (@X4_one_output_per_contributor (_consult_agent two_agents) hierarchical_plan
           sample_request ["senior-architect"; "security-consultant"]).
  - repeat constructor; simpl; intuition discriminate.
  - vm_compute. reflexivity.
Defined.

Lemma X6_no_loaded_agents_witness :
  failed_agents
    (fst (process_development_request (_consult_agent []) dedup (fun _ => "")
            "t1" "t2" "t3" (sample_orchestrator []) sample_request))
  = Some 0.
Proof.
  destruct (@X6_no_loaded_agents (_consult_agent []) dedup (fun _ => "")
              "t1" "t2" "t3" (sample_orchestrator []) sample_request eq_refl)
    as [_ [_ [_ [H _]]]].
  exact H.
Defined.

Lemma X7_usable_profiles_answer_success_witness :
  resp_status
    (fst (process_development_request (_consult_agent two_agents) dedup
            (fun _ => "") "t1" "t2" "t3" (sample_orchestrator two_agents)
            sample_request))
  = "success".
Proof.
  refine (proj1 (@X7_usable_profiles_answer_success dedup (fun _ => "") "t1" "t2" "t3"
                   (sample_orchestrator two_agents) sample_request _ _)).
  - intros name cfg [H | [H | []]]; injection H as <- <-; discriminate.
  - vm_compute. discriminate.
Defined.

Definition unsure_output : AgentResponse :=
  mkResponse "success" [] no_metadata [] [] [] "" [] [] [].

Definition sure_output : AgentResponse :=
  mkResponse "success" []
    (mkMetadata (Some "senior-architect") None (Some (17 # 20)%Q) None)
    [] [] [] "" [] [] [].

Lemma X9_confidence_level_between_0_and_1_witness :
  (0 <= _calculate_confidence_level [unsure_output; sure_output] <= 1)%Q.
Proof.
  apply (@X9_confidence_level_between_0_and_1 [unsure_output; sure_output]).
  intros r [<- | [<- | []]]; vm_compute; split; discriminate.
Defined.

Lemma X10_status_of_a_serving_orchestrator_witness :
  total_conversations
    (get_orchestrator_status
       (snd (process_development_request (_consult_agent two_agents) dedup
               (fun _ => "") "t1" "t2" "t3" (sample_orchestrator two_agents)
               sample_request)))
  = 1.
Proof.
  assert (serves two_agents 1
            (snd (process_development_request (_consult_agent two_agents) dedup
                    (fun _ => "") "t1" "t2" "t3" (sample_orchestrator two_agents)
                    sample_request))) as Hs.
  { exact (@serves_request two_agents (_consult_agent two_agents) dedup (fun _ => "")
             "t1" "t2" "t3" 0 (sample_orchestrator two_agents) sample_request
             (serves_new two_agents)). }
  destruct (@X10_status_of_a_serving_orchestrator two_agents 1 _ Hs) as [_ [H _]].
  exact H.
Defined.

Lemma X12_required_expertise_witness :
  NoDup (required_expertise (_analyze_development_task dedup sample_request))
  /\ length (_select_agents_for_task (sample_orchestrator two_agents)
               (_analyze_development_task dedup sample_request)) <= 5.
Proof.
  destruct (@X12_required_expertise dedup (sample_orchestrator two_agents)
              sample_request (fun l => Permutation_refl (dedup l)))
    as [H1 [_ [_ [_ [H2 _]]]]].
  split; [exact H1 | exact H2].
Defined.

End OrchestratorExtras.

(* ------------------------------------------------------------------ *)
(** ** More on the intelligence engine                                 *)
(* ------------------------------------------------------------------ *)

Module EngineExtras.
Import Py PyFacts IntelligenceEngine EngineTheorems.

(** ** Overlaps *)

Lemma common_words_count (words1 words2 : list string) :
  NoDup words1 -> NoDup words2 ->
  length (filter (fun w => mem w words2) words1)
  = length (filter (fun w => mem w words1) words2).
Proof.
  intros H1 H2. apply Permutation_length. apply NoDup_Permutation.
  - apply NoDup_filter. exact H1.
  - apply NoDup_filter. exact H2.
  - intros x. rewrite !filter_In, !OrchestratorExtras.mem_In. tauto.
Qed.

(** X13.  [_decisions_overlap] does not depend on the order of the two
    decisions. *)
Theorem X13_decisions_overlap_symmetric (decision1 decision2 : StrDict) :
  _decisions_overlap decision1 decision2 = _decisions_overlap decision2 decision1.
Proof.
  unfold _decisions_overlap. cbv zeta.
  rewrite (common_words_count (NoDup_nodup string_dec _) (NoDup_nodup string_dec _)).
  rewrite (Nat.max_comm (length (dedup (split (decision_text decision1))))).
  reflexivity.
Qed.

Lemma prefix_app (p s : string) : prefix p (p ++ s) = true.
Proof.
  induction p as [| a p IH]; simpl; [destruct s; reflexivity |].
  destruct (ascii_dec a a); [exact IH | contradiction].
Qed.

Lemma contains_prefix (p s : string) : contains p (p ++ s) = true.
Proof.
  destruct (p ++ s) as [| c rest] eqn:E.
  - destruct p; [reflexivity | discriminate].
  - cbn [contains]. rewrite <- E, prefix_app. reflexivity.
Qed.

Definition labelled (area : string) : Prop :=
  (exists x, area = "technical_decision" ++ x)
  \/ (exists x, area = "domain_expertise" ++ x)
  \/ (exists x, area = "recommendation_area" ++ x).

Section Overlaps.

Variable list_of_set : list string -> list string.

Lemma overlap_areas_labelled (response1 response2 : ResponseDict) :
  Forall labelled (_find_overlap_areas list_of_set response1 response2).
Proof.
  unfold _find_overlap_areas. cbv zeta.
  apply Forall_app. split; [| apply Forall_app; split].
  - apply Forall_flat_map. apply Forall_forall. intros d1 _.
    apply Forall_flat_map. apply Forall_forall. intros d2 _.
    destruct (_decisions_overlap d1 d2); constructor; [| constructor].
    left. eexists. reflexivity.
  - apply Forall_map. apply Forall_forall. intros t _.
    right. left. eexists. reflexivity.
  - destruct (recommendations response1); try constructor.
    destruct (recommendations response2); try constructor.
    apply Forall_map. apply Forall_forall. intros t _.
    right. right. eexists. reflexivity.
Qed.

Lemma classified (areas : list string) :
  areas <> [] -> Forall labelled areas ->
  In (_classify_overlap_type areas)
     ["decision_overlap"; "expertise_overlap"; "recommendation_overlap"].
Proof.
  intros Hne Hall. destruct areas as [| a rest]; [contradiction |].
  inversion Hall as [| ? ? Ha _]. subst.
  unfold _classify_overlap_type, any_area. cbn [existsb].
  destruct Ha as [[x ->] | [[x ->] | [x ->]]].
  - rewrite contains_prefix. simpl. tauto.
  - destruct (contains "technical_decision" _ || _); [simpl; tauto |].
    rewrite contains_prefix. simpl. tauto.
  - destruct (contains "technical_decision" _ || _); [simpl; tauto |].
    destruct (contains "domain_expertise" _ || _); [simpl; tauto |].
    rewrite contains_prefix. simpl. tauto.
Qed.

Lemma overlap_confidence_bounds (response1 response2 : ResponseDict)
    (areas : list string) :
  areas <> [] ->
  (0 <= confidence_or (1 # 2) response1)%Q ->
  (0 <= confidence_or (1 # 2) response2)%Q ->
  (1 # 5 <= _calculate_overlap_confidence response1 response2 areas <= 1)%Q.
Proof.
  intros Hne H1 H2. unfold _calculate_overlap_confidence. cbv zeta.
  split; [| apply py_min_le_l].
  apply py_min_ge; [lra |].
  assert (1 # 5 <= py_min (9 # 10) (Qnat (length areas) * (2 # 10)))%Q as Hb.
  { apply py_min_ge; [lra |].
    destruct areas as [| a rest]; [contradiction |].
    change (length (a :: rest)) with (S (length rest)).
    rewrite OrchestratorExtras.Qnat_S. pose proof (Qnat_nonneg (length rest)). lra. }
  assert (0 <= (confidence_or (1 # 2) response1 + confidence_or (1 # 2) response2)
               / 2 * (2 # 10))%Q as Hq.
  { unfold Qdiv. change (/ 2)%Q with (1 # 2)%Q. lra. }
  lra.
Qed.

(** X14.  Every overlap [_detect_agent_overlaps] reports, for responses
    with non-negative confidences, has at least one overlap area, names
    two agents, is classified as a decision, expertise or recommendation
    overlap (never "general_overlap"), and has a confidence between 0.2
    and 1. *)
Theorem X14_reported_overlaps (agent_responses : list ResponseDict) (o : AgentOverlap) :
  (forall r, In r agent_responses -> (0 <= confidence_or (1 # 2) r)%Q) ->
  In o (_detect_agent_overlaps list_of_set agent_responses) ->
  overlap_areas o <> []
  /\ length (agents o) = 2
  /\ In (overlap_type o)
        ["decision_overlap"; "expertise_overlap"; "recommendation_overlap"]
  /\ (1 # 5 <= overlap_confidence o <= 1)%Q.
Proof.
  intros Hconf Hin. unfold _detect_agent_overlaps in Hin.
  apply in_pairs_from in Hin.
  destruct Hin as [i [j [r1 [r2 [_ [Hi [Hj Ho]]]]]]].
  apply nth_error_In in Hi, Hj.
  unfold overlap_of_pair in Ho. cbv zeta in Ho.
  destruct (_find_overlap_areas list_of_set r1 r2) as [| a rest] eqn:E;
    [contradiction |].
  destruct Ho as [<- | []]. cbn [overlap_areas agents overlap_type overlap_confidence].
  split; [discriminate |]. split; [reflexivity |]. split.
  - apply classified; [discriminate |]. rewrite <- E. apply overlap_areas_labelled.
  - apply overlap_confidence_bounds; [discriminate | apply Hconf; exact Hi
                                      | apply Hconf; exact Hj].
Qed.

End Overlaps.

(** ** Conflicts *)

(** X15.  Every conflict [_analyze_conflicts] reports is above LOW
    severity, names two agents and offers exactly three resolution
    options; a CRITICAL conflict always asks for stakeholder input, a
    MODERATE one never does. *)
Theorem X15_reported_conflicts (self : Engine) (agent_responses : list ResponseDict)
    (request_context : PyDict) (c : ConflictAnalysis) :
  In c (_analyze_conflicts self agent_responses request_context) ->
  severity c <> LOW
  /\ length (agents_involved c) = 2
  /\ length (resolution_options c) = 3
  /\ (severity c = CRITICAL -> stakeholder_input_required c = true)
  /\ (severity c = MODERATE -> stakeholder_input_required c = false).
Proof.
  intros Hin. apply in_analyze_conflicts in Hin.
  destruct Hin as [i [j [r1 [r2 [_ [_ [_ Hd]]]]]]].
  unfold _detect_response_conflict in Hd. cbv zeta in Hd.
  destruct (truthy_dict (potential_conflicts r1) || truthy_dict (potential_conflicts r2));
    [| discriminate].
  destruct (_classify_conflict (potential_conflicts r1) (potential_conflicts r2) r1 r2)
    as [ct sev].
  destruct sev; simpl in Hd; try discriminate; injection Hd as <-;
    cbn [severity agents_involved resolution_options stakeholder_input_required];
    (split; [discriminate |]); (split; [reflexivity |]);
    (split; [destruct ct; reflexivity |]);
    split; try discriminate; try reflexivity; intros _; reflexivity.
Qed.

(** ** Quality metrics *)

Lemma find_first (rs : list ResponseDict) :
  find is_security_consultant
       (list_of_option (find is_security_consultant rs))
  = find is_security_consultant rs.
Proof.
  destruct (find is_security_consultant rs) as [r |] eqn:E; [| reflexivity].
  apply find_some in E. destruct E as [_ E]. simpl. rewrite E. reflexivity.
Qed.

(** X16.  [_assess_security_score] reads only the first response of the
    security consultant: every other response, and the request context,
    leave the metric unchanged.  With no such response the score is 0.3,
    the status "fail", and the suggestions ask to include the security
    consultant. *)
Theorem X16_security_score_reads_one_response (agent_responses : list ResponseDict)
    (request_context request_context' : PyDict) :
  _assess_security_score agent_responses request_context
  = _assess_security_score
      (list_of_option (find is_security_consultant agent_responses)) request_context'
  /\ (find is_security_consultant agent_responses = None
      -> (score (_assess_security_score agent_responses request_context) == 3 # 10)%Q
         /\ metric_status (_assess_security_score agent_responses request_context)
            = "fail"
         /\ In "Include security consultant in development process"
               (improvement_suggestions
                  (_assess_security_score agent_responses request_context))).
Proof.
  split.
  - unfold _assess_security_score. rewrite find_first. reflexivity.
  - intros Hnone. unfold _assess_security_score. rewrite Hnone.
    vm_compute. repeat split; try reflexivity. left. reflexivity.
Qed.

Lemma coverage_step_grows (acc : Q * PyDict) (r : ResponseDict) :
  (fst acc <= fst (coverage_step acc r))%Q.
Proof.
  destruct acc as [sc d]. unfold coverage_step. cbn [fst].
  generalize (result_text r). intros text.
  eapply Qle_trans; [| apply credit_fold_ge; lra].
  destruct (contains "test" text), (contains "unit test" text),
           (contains "integration test" text), (contains "coverage" text); lra.
Qed.

Lemma maintainability_step_grows (acc : Q * PyDict) (r : ResponseDict) :
  (fst acc <= fst (maintainability_step acc r))%Q.
Proof.
  destruct acc as [sc d]. unfold maintainability_step. cbn [fst].
  generalize (result_text r). intros text.
  eapply Qle_trans; [| apply credit_fold_ge; lra].
  destruct (contains "documentation" text),
           (contains "modular" text || contains "component" text),
           (contains "clean" text && contains "code" text),
           (contains "pattern" text),
           (contains "standard" text || contains "convention" text);
    lra.
Qed.

Lemma complexity_step_grows (acc : nat * PyDict) (r : ResponseDict) :
  fst acc <= fst (complexity_step acc r).
Proof.
  destruct acc as [n d]. unfold complexity_step. cbn [fst].
  generalize (result_text r). intros text.
  destruct (contains "complex" text || contains "complicated" text),
           (contains "microservices" text), (contains "monolith" text);
    cbn [fst]; lia.
Qed.

Lemma fold_grows {A S : Type} (le : S -> S -> Prop) (step : S -> A -> S) :
  (forall x, le x x) -> (forall x y z, le x y -> le y z -> le x z) ->
  (forall acc a, le acc (step acc a)) ->
  forall (l : list A) (init : S), le init (fold_left step l init).
Proof.
  intros Hrefl Htrans Hstep. induction l as [| a rest IH]; simpl; intros init.
  - apply Hrefl.
  - eapply Htrans; [apply Hstep | apply IH].
Qed.

Lemma py_min_mono (a b c : Q) : (b <= c)%Q -> (py_min a b <= py_min a c)%Q.
Proof.
  intros H. apply py_min_ge; [apply py_min_le_l |].
  unfold py_min, Qlt_bool.
  destruct (Qle_bool a b) eqn:E; simpl; [| lra].
  apply Qle_bool_iff in E. lra.
Qed.

Lemma py_max_mono (a b c : Q) : (b <= c)%Q -> (py_max a b <= py_max a c)%Q.
Proof.
  intros H. apply py_max_le; [apply py_max_ge_l |].
  unfold py_max, Qlt_bool.
  destruct (Qle_bool c a) eqn:E; simpl.
  - apply Qle_bool_iff in E. lra.
  - lra.
Qed.

Lemma Qnat_le (n m : nat) : n <= m -> (Qnat n <= Qnat m)%Q.
Proof. intros H. unfold Qnat, Qle. simpl. lia. Qed.

(** X17.  Appending responses never lowers the test coverage score or
    the maintainability score, and never raises the code complexity
    score. *)
Theorem X17_more_outputs_move_scores_one_way (agent_responses more : list ResponseDict)
    (request_context : PyDict) :
  (score (_assess_test_coverage agent_responses request_context)
   <= score (_assess_test_coverage (agent_responses +++ more) request_context))%Q
  /\ (score (_assess_maintainability agent_responses request_context)
      <= score (_assess_maintainability (agent_responses +++ more) request_context))%Q
  /\ (score (_assess_code_complexity (agent_responses +++ more) request_context)
      <= score (_assess_code_complexity agent_responses request_context))%Q.
Proof.
  split; [| split].
  - unfold _assess_test_coverage. rewrite fold_left_app.
    pose proof (@fold_grows ResponseDict (Q * PyDict)
                  (fun x y => (fst x <= fst y)%Q) coverage_step
                  (fun x => Qle_refl (fst x))
                  (fun x y z => @Qle_trans (fst x) (fst y) (fst z))
                  coverage_step_grows more
                  (fold_left coverage_step agent_responses (0%Q, []))) as H.
    destruct (fold_left coverage_step agent_responses (0%Q, [])) as [s1 d1].
    destruct (fold_left coverage_step more (s1, d1)) as [s2 d2].
    cbn [score fst] in *. apply py_min_mono. exact H.
  - unfold _assess_maintainability. rewrite fold_left_app.
    pose proof (@fold_grows ResponseDict (Q * PyDict)
                  (fun x y => (fst x <= fst y)%Q) maintainability_step
                  (fun x => Qle_refl (fst x))
                  (fun x y z => @Qle_trans (fst x) (fst y) (fst z))
                  maintainability_step_grows more
                  (fold_left maintainability_step agent_responses ((1 # 2)%Q, []))) as H.
    destruct (fold_left maintainability_step agent_responses ((1 # 2)%Q, []))
      as [s1 d1].
    destruct (fold_left maintainability_step more (s1, d1)) as [s2 d2].
    cbn [score fst] in *. apply py_min_mono. exact H.
  - unfold _assess_code_complexity. rewrite fold_left_app.
    pose proof (@fold_grows ResponseDict (nat * PyDict)
                  (fun x y => fst x <= fst y) complexity_step
                  (fun x => le_n (fst x))
                  (fun x y z => @Nat.le_trans (fst x) (fst y) (fst z))
                  complexity_step_grows more
                  (fold_left complexity_step agent_responses (0, []))) as H.
    destruct (fold_left complexity_step agent_responses (0, [])) as [n1 d1].
    destruct (fold_left complexity_step more (n1, d1)) as [n2 d2].
    cbn [score fst] in *. apply py_max_mono.
    pose proof (Qnat_le H). lra.
Qed.

Lemma flat_map_short {A B : Type} (f : A -> list B) (l : list A) :
  (forall x, length (f x) <= 1) -> length (flat_map f l) <= length l.
Proof.
  intros H. induction l as [| a rest IH]; simpl; [lia |].
  rewrite length_app. pose proof (H a). lia.
Qed.

Lemma pairs_from_count {A B : Type} (body : nat -> A -> nat -> A -> list B) :
  (forall i x j y, length (body i x j y) <= 1) ->
  forall (l : list A) (s : nat),
    2 * length (pairs_from body s l) <= length l * (length l - 1).
Proof.
  intros Hbody. induction l as [| a rest IH]; intros s; simpl; [lia |].
  rewrite length_app.
  pose proof (@flat_map_short (nat * A) B
                (fun jy => body s a (fst jy) (snd jy))
                (combine (seq (S s) (length rest)) rest)
                (fun jy => Hbody s a (fst jy) (snd jy))) as H.
  rewrite length_combine, length_seq, Nat.min_id in H.
  specialize (IH (S s)). nia.
Qed.

(** X18.  A run of [analyze_agent_responses] assesses exactly five
    metrics, in the order complexity, coverage, technical debt, security,
    maintainability (never the performance index or the documentation
    coverage), appends them and the reported conflicts to the engine's
    histories, and reports at most one conflict and one overlap per pair
    of responses. *)
Theorem X18_five_metrics_per_run (self : Engine) (list_of_set : list string -> list string)
    (agent_responses : list ResponseDict) (request_context : PyDict) :
  let run := analyze_agent_responses list_of_set self agent_responses request_context in
  map metric_type (quality_assessment (fst run))
  = [CODE_COMPLEXITY; TEST_COVERAGE; TECHNICAL_DEBT; SECURITY_SCORE; MAINTAINABILITY]
  /\ quality_metrics_history (snd run)
     = quality_metrics_history self +++ quality_assessment (fst run)
  /\ conflict_history (snd run)
     = conflict_history self +++ conflict_analysis (fst run)
  /\ 2 * length (conflict_analysis (fst run))
     <= length agent_responses * (length agent_responses - 1)
  /\ 2 * length (overlap_analysis (fst run))
     <= length agent_responses * (length agent_responses - 1).
Proof.
  cbv zeta. unfold analyze_agent_responses.
  cbn [fst snd quality_assessment conflict_analysis overlap_analysis].
  split; [| split; [reflexivity | split; [reflexivity | split]]].
  - unfold _assess_code_quality, all_metric_types.
    cbn [flat_map _calculate_quality_metric list_of_option app].
    unfold _assess_code_complexity, _assess_test_coverage, _assess_technical_debt,
      _assess_security_score, _assess_maintainability.
    destruct (fold_left complexity_step agent_responses (0, [])).
    destruct (fold_left coverage_step agent_responses (0%Q, [])).
    destruct (fold_left debt_step agent_responses (0%Q, [])).
    destruct (fold_left maintainability_step agent_responses ((1 # 2)%Q, [])).
    destruct (find is_security_consultant agent_responses); reflexivity.
  - unfold _analyze_conflicts. apply pairs_from_count.
    intros i x j y.
    destruct (_detect_response_conflict self x y request_context); simpl; lia.
  - unfold _detect_agent_overlaps. apply pairs_from_count.
    intros i x j y. unfold overlap_of_pair. cbv zeta.
    destruct (_find_overlap_areas list_of_set x y); simpl; lia.
Qed.

(** ** Agent performance *)

(** The engine after some runs of [analyze_agent_responses] on responses
    whose confidences, where given, are between 0 and 1. *)
Inductive analysed : Engine -> Prop :=
| analysed_new : analysed new_engine
| analysed_run (list_of_set : list string -> list string) (self : Engine)
    (agent_responses : list ResponseDict) (request_context : PyDict) :
    analysed self ->
    Forall (fun r => 0 <= confidence_or (1 # 2) r <= 1)%Q agent_responses ->
    analysed (snd (analyze_agent_responses list_of_set self agent_responses
                     request_context)).

Definition sound_performance (kv : string * AgentPerformance) : Prop :=
  1 <= total_consultations (snd kv)
  /\ successful_consultations (snd kv) <= total_consultations (snd kv)
  /\ (0 <= average_confidence (snd kv) <= 1)%Q.

Lemma set_perf_Forall (P : string * AgentPerformance -> Prop) (name : string)
    (p : AgentPerformance) (t : list (string * AgentPerformance)) :
  P (name, p) -> Forall P t -> Forall P (set_perf name p t).
Proof.
  intros Hp. induction 1 as [| [n q] rest Hq Hrest IH]; simpl.
  - repeat constructor. exact Hp.
  - destruct (String.eqb name n); constructor; assumption.
Qed.

Lemma find_perf_Forall (P : string * AgentPerformance -> Prop) (name : string)
    (p : AgentPerformance) (t : list (string * AgentPerformance)) :
  Forall P t -> find_perf name t = Some p -> exists n, P (n, p).
Proof.
  induction 1 as [| [n q] rest Hq Hrest IH]; simpl; [discriminate |].
  destruct (String.eqb name n).
  - intros [= <-]. exists n. exact Hq.
  - exact IH.
Qed.

Lemma running_mean (avg conf : Q) (n : nat) :
  (0 <= avg <= 1)%Q -> (0 <= conf <= 1)%Q ->
  (0 <= (avg * Qnat (S n - 1) + conf) / Qnat (S n) <= 1)%Q.
Proof.
  intros [A0 A1] [C0 C1].
  replace (S n - 1) with n by lia.
  pose proof (OrchestratorExtras.Qnat_pos n) as Hpos.
  pose proof (Qnat_nonneg n) as Hn.
  pose proof (OrchestratorExtras.Qnat_S n) as HS.
  split.
  - apply Qle_shift_div_l; [exact Hpos |]. nra.
  - apply Qle_shift_div_r; [exact Hpos |]. nra.
Qed.

Lemma track_sound (conflicts : list ConflictAnalysis)
    (tracking : list (string * AgentPerformance)) (response : ResponseDict) :
  (0 <= confidence_or (1 # 2) response <= 1)%Q ->
  Forall sound_performance tracking ->
  Forall sound_performance (track conflicts tracking response).
Proof.
  intros Hc Ht. unfold track. cbv zeta. apply set_perf_Forall; [| exact Ht].
  unfold sound_performance.
  cbn [snd total_consultations successful_consultations average_confidence].
  destruct (find_perf (name_or "unknown" response) tracking) as [p |] eqn:E.
  - destruct (find_perf_Forall _ Ht E) as [n [H1 [H2 H3]]]. cbn [snd] in *.
    split; [lia |]. split.
    + destruct (option_eqb (status response) (Some "success")); lia.
    + apply running_mean; assumption.
  - cbn [total_consultations successful_consultations average_confidence].
    split; [lia |]. split.
    + destruct (option_eqb (status response) (Some "success")); lia.
    + apply running_mean; [split; lra | assumption].
Qed.

Lemma analysed_sound (self : Engine) :
  analysed self -> Forall sound_performance (agent_performance_tracking self).
Proof.
  induction 1 as [| los self rs ctx Hs IH Hconf].
  - constructor.
  - unfold analyze_agent_responses, _update_intelligence_state.
    cbn [snd agent_performance_tracking conflict_analysis].
    generalize (_analyze_conflicts self rs ctx). intros conflicts.
    revert IH. generalize (agent_performance_tracking self).
    induction Hconf as [| r rest Hr Hrest IHl]; intros t Ht; simpl; [exact Ht |].
    apply IHl. apply track_sound; assumption.
Qed.

Lemma success_rate_range (kv : string * AgentPerformance) :
  sound_performance kv -> (0 <= success_rate (snd kv) <= 1)%Q.
Proof.
  intros [H1 [H2 _]]. unfold success_rate.
  destruct (total_consultations (snd kv)) as [| t] eqn:E; [lia |].
  replace (Nat.max 1 (S t)) with (S t) by lia.
  pose proof (OrchestratorExtras.Qnat_pos t) as Hpos.
  pose proof (Qnat_nonneg (successful_consultations (snd kv))) as Hs.
  pose proof (Qnat_le H2) as Hle.
  split.
  - apply Qle_shift_div_l; [exact Hpos | lra].
  - apply Qle_shift_div_r; [exact Hpos | lra].
Qed.

Lemma fold_add_map {A : Type} (f : A -> Q) (l : list A) :
  forall a : Q,
    fold_left (fun acc x => (acc + f x)%Q) l a = fold_left Qplus (map f l) a.
Proof. induction l as [| x rest IH]; intros a; simpl; [reflexivity | apply IH]. Qed.

(** X19.  In an engine that only analysed responses with confidences
    between 0 and 1, every tracked agent has at least one consultation,
    no more successes than consultations and an average confidence
    between 0 and 1; [_calculate_system_health_score] is then between 0
    and 1. *)
Theorem X19_health_of_an_analysed_engine (self : Engine) :
  analysed self ->
  Forall (fun kv : string * AgentPerformance =>
            1 <= total_consultations (snd kv)
            /\ successful_consultations (snd kv) <= total_consultations (snd kv)
            /\ (0 <= average_confidence (snd kv) <= 1)%Q)
         (agent_performance_tracking self)
  /\ (0 <= _calculate_system_health_score self <= 1)%Q.
Proof.
  intros Hs. pose proof (analysed_sound Hs) as Hall. split; [exact Hall |].
  unfold _calculate_system_health_score.
  destruct (agent_performance_tracking self) as [| kv rest] eqn:E; [split; lra |].
  rewrite <- E in *. cbv zeta.
  rewrite (fold_add_map (fun kv : string * AgentPerformance => success_rate (snd kv))).
  rewrite (fold_add_map
             (fun kv : string * AgentPerformance => average_confidence (snd kv))).
  assert (agent_performance_tracking self <> []) as Hne by (rewrite E; discriminate).
  pose proof (@OrchestratorExtras.mean_bounds 0 1
                (map (fun kv => success_rate (snd kv)) (agent_performance_tracking self)))
    as Hsr.
  pose proof (@OrchestratorExtras.mean_bounds 0 1
                (map (fun kv => average_confidence (snd kv))
                     (agent_performance_tracking self))) as Hac.
  rewrite length_map in Hsr, Hac. unfold Qsum in Hsr, Hac.
  destruct Hsr as [S0 S1].
  { intros H. apply map_eq_nil in H. contradiction. }
  { intros x Hx. apply in_map_iff in Hx. destruct Hx as [kv' [<- Hin]].
    apply success_rate_range. rewrite Forall_forall in Hall. apply Hall. exact Hin. }
  destruct Hac as [A0 A1].
  { intros H. apply map_eq_nil in H. contradiction. }
  { intros x Hx. apply in_map_iff in Hx. destruct Hx as [kv' [<- Hin]].
    rewrite Forall_forall in Hall. apply (Hall kv' Hin). }
  split; lra.
Qed.

(** ** Conflict types *)

Lemma count_one_total (k : string) (distribution : list (string * nat)) :
  list_sum (map snd (count_one k distribution))
  = S (list_sum (map snd distribution)).
Proof.
  induction distribution as [| [k' n] rest IH]; simpl; [reflexivity |].
  destruct (String.eqb k k'); simpl; [lia | rewrite IH; lia].
Qed.

Lemma count_one_keys (k : string) (distribution : list (string * nat)) :
  NoDup (map fst distribution) -> NoDup (map fst (count_one k distribution)).
Proof.
  induction distribution as [| [k' n] rest IH]; simpl; intros H.
  - repeat constructor. intros [].
  - destruct (String.eqb k k') eqn:E; simpl; [exact H |].
    inversion H as [| ? ? Hnin Hrest]. subst. constructor; [| apply IH; exact Hrest].
    intros Hin. apply Hnin.
    clear -Hin E. induction rest as [| [k2 n2] rest IH]; simpl in *.
    + destruct Hin as [<- | []]. rewrite String.eqb_refl in E. discriminate.
    + destruct (String.eqb k k2); simpl in Hin; [exact Hin |].
      destruct Hin as [<- | Hin]; [left; reflexivity | right; apply IH; exact Hin].
Qed.

(** X20.  The counts of [_get_conflict_type_distribution] add up to the
    length of the conflict history; each conflict type appears once, with
    a count of at least one. *)
Theorem X20_conflict_types_add_up (self : Engine) :
  list_sum (map snd (_get_conflict_type_distribution self))
  = length (conflict_history self)
  /\ NoDup (map fst (_get_conflict_type_distribution self))
  /\ Forall (fun kn : string * nat => 1 <= snd kn) (_get_conflict_type_distribution self).
Proof.
  unfold _get_conflict_type_distribution.
  assert (forall (l : list ConflictAnalysis) (d : list (string * nat)),
            NoDup (map fst d) -> Forall (fun kn : string * nat => 1 <= snd kn) d ->
            list_sum (map snd
                        (fold_left (fun distribution conflict =>
                                      count_one (conflict_type_value (conflict_type conflict))
                                                distribution) l d))
            = list_sum (map snd d) + length l
            /\ NoDup (map fst
                        (fold_left (fun distribution conflict =>
                                      count_one (conflict_type_value (conflict_type conflict))
                                                distribution) l d))
            /\ Forall (fun kn : string * nat => 1 <= snd kn)
                      (fold_left (fun distribution conflict =>
                                    count_one (conflict_type_value (conflict_type conflict))
                                              distribution) l d)) as H.
  { induction l as [| c rest IH]; intros d Hd Hpos; simpl.
    - split; [lia | split; assumption].
    - destruct (IH (count_one (conflict_type_value (conflict_type c)) d))
        as [H1 [H2 H3]].
      + apply count_one_keys. exact Hd.
      + clear -Hpos. induction Hpos as [| [k n] rest Hk Hrest IH]; simpl.
        * repeat constructor.
        * destruct (String.eqb _ k); constructor; simpl in *; try assumption; lia.
      + rewrite count_one_total in H1. split; [lia | split; assumption]. }
  destruct (H (conflict_history self) []) as [H1 [H2 H3]];
    [constructor | constructor |].
  split; [exact H1 | split; assumption].
Qed.

(** ** Decision points *)

Section DecisionPoints.

Variable list_of_set : list string -> list string.
Variable str_of_decision_data : list DecisionEntry -> string.

Local Abbreviation impact := (_analyze_decision_impact str_of_decision_data).
Local Abbreviation approval := (_requires_stakeholder_approval str_of_decision_data).
Local Abbreviation points := (_identify_decision_points list_of_set str_of_decision_data).

(** What the loop of [_identify_decision_points] builds for one key. *)
Definition built_for (dp : TechnicalDecisionPoint) : Prop :=
  exists decision_key decision_data,
    2 <= length decision_data
    /\ 2 <= length (options dp)
    /\ point_agents_involved dp = map entry_agent decision_data
    /\ Forall (fun o => rationale o = option_text o) (options dp)
    /\ impact_analysis dp = impact decision_key decision_data
    /\ stakeholder_approval_required dp = approval decision_key decision_data.

Definition numbered (dps : list TechnicalDecisionPoint) : Prop :=
  map decision_id dps
  = map (fun i => "decision_" ++ str_of_nat i) (seq 0 (length dps)).

Lemma decision_point_step_sound (dps : list TechnicalDecisionPoint)
    (item : string * list DecisionEntry) :
  numbered dps /\ Forall built_for dps ->
  numbered (decision_point_step list_of_set str_of_decision_data dps item)
  /\ Forall built_for (decision_point_step list_of_set str_of_decision_data dps item).
Proof.
  intros [Hn Hb]. unfold decision_point_step. cbv zeta.
  destruct (1 <? length (snd item)) eqn:L1; [| split; assumption].
  destruct (1 <? length (list_of_set (map entry_recommendation (snd item)))) eqn:L2;
    [| split; assumption].
  apply Nat.ltb_lt in L1, L2. split.
  - unfold numbered in *. rewrite map_app, length_app, Hn. cbn [length map].
    replace (length dps + 1) with (S (length dps)) by lia.
    rewrite seq_S, map_app. reflexivity.
  - apply Forall_app. split; [exact Hb |]. constructor; [| constructor].
    exists (fst item), (snd item).
    cbn [options point_agents_involved impact_analysis stakeholder_approval_required].
    rewrite length_map.
    repeat split; try lia.
    apply Forall_map. apply Forall_forall. intros rec _. reflexivity.
Qed.

Lemma decision_points_sound (agent_responses : list ResponseDict) :
  numbered (points agent_responses) /\ Forall built_for (points agent_responses).
Proof.
  unfold _identify_decision_points.
  apply (@fold_left_invariant (string * list DecisionEntry)
           (list TechnicalDecisionPoint)
           (fun dps => numbered dps /\ Forall built_for dps)
           (decision_point_step list_of_set str_of_decision_data)
           decision_point_step_sound).
  split; [reflexivity | constructor].
Qed.

Lemma high_impact_needs_approval (decision_key : string)
    (decision_data : list DecisionEntry) :
  impact_level (impact decision_key decision_data) = "high" ->
  approval decision_key decision_data = true.
Proof.
  unfold _analyze_decision_impact, _requires_stakeholder_approval. cbv zeta.
  cbn [impact_level].
  generalize (decision_impact_text str_of_decision_data decision_key decision_data).
  intros text. unfold any_in. cbn [existsb].
  destruct (contains "architecture" text), (contains "database" text),
           (contains "security" text), (contains "framework" text);
    cbn [orb]; try reflexivity;
    try (rewrite !orb_true_r; reflexivity).
  destruct (contains "api" text || _); discriminate.
Qed.

Lemma easy_to_reverse (decision_key : string) (decision_data : list DecisionEntry) :
  reversibility (impact decision_key decision_data) = "easy" ->
  impact_level (impact decision_key decision_data) <> "high"
  /\ risk_level (impact decision_key decision_data) <> "high"
  /\ approval decision_key decision_data
     = any_in ["budget"; "timeline"]
              (decision_impact_text str_of_decision_data decision_key decision_data).
Proof.
  unfold _analyze_decision_impact, _requires_stakeholder_approval. cbv zeta.
  cbn [impact_level risk_level reversibility].
  generalize (decision_impact_text str_of_decision_data decision_key decision_data).
  intros text.
  unfold _assess_decision_reversibility, _assess_decision_risk, any_in.
  cbn [existsb].
  destruct (contains "database" text); [discriminate |].
  destruct (contains "architecture" text); [discriminate |].
  destruct (contains "migration" text); [discriminate |].
  destruct (contains "framework" text); [discriminate |].
  cbn [orb].
  destruct (contains "integration" text); [discriminate |].
  destruct (contains "api" text); [discriminate |].
  destruct (contains "security" text); [discriminate |].
  intros _. cbn [orb].
  split; [| split].
  - destruct (contains "performance" text || _); discriminate.
  - destruct (contains "performance" text); discriminate.
  - reflexivity.
Qed.

(** X21.  The decision points of [_identify_decision_points] are
    numbered "decision_0", "decision_1", ... in order; each involves at
    least two recorded recommendations and offers at least two options,
    whose rationale is the recommendation itself. *)
Theorem X21_decision_points_numbered (agent_responses : list ResponseDict) :
  map decision_id (points agent_responses)
  = map (fun i => "decision_" ++ str_of_nat i)
        (seq 0 (length (points agent_responses)))
  /\ Forall (fun dp => 2 <= length (point_agents_involved dp)
                       /\ 2 <= length (options dp)
                       /\ Forall (fun o => rationale o = option_text o) (options dp))
            (points agent_responses).
Proof.
  destruct (decision_points_sound agent_responses) as [Hn Hb].
  split; [exact Hn |].
  eapply Forall_impl; [| exact Hb].
  intros dp [k [data [H1 [H2 [H3 [H4 _]]]]]].
  rewrite H3, length_map. repeat split; assumption.
Qed.

(** X22.  A reported decision point whose impact level is "high" always
    requires stakeholder approval. *)
Theorem X22_high_impact_needs_approval (agent_responses : list ResponseDict)
    (dp : TechnicalDecisionPoint) :
  In dp (points agent_responses) ->
  impact_level (impact_analysis dp) = "high" ->
  stakeholder_approval_required dp = true.
Proof.
  intros Hin Hhigh.
  destruct (decision_points_sound agent_responses) as [_ Hb].
  rewrite Forall_forall in Hb.
  destruct (Hb dp Hin) as [k [data [_ [_ [_ [_ [Hi Ha]]]]]]].
  rewrite Ha. apply high_impact_needs_approval. rewrite <- Hi. exact Hhigh.
Qed.

(** X23.  A decision whose reversibility is assessed "easy" is never of
    high impact nor of high risk, and it requires stakeholder approval
    only when its text mentions the budget or the timeline. *)
Theorem X23_easy_to_reverse_is_never_high (decision_key : string)
    (decision_data : list DecisionEntry) :
  reversibility (impact decision_key decision_data) = "easy" ->
  impact_level (impact decision_key decision_data) <> "high"
  /\ risk_level (impact decision_key decision_data) <> "high"
  /\ approval decision_key decision_data
     = any_in ["budget"; "timeline"]
              (decision_impact_text str_of_decision_data decision_key decision_data).
Proof. apply easy_to_reverse. Qed.

End DecisionPoints.

(** ** Consensus and optimizations *)

(** X24.  With no responses all four themes are reported unanimous and
    no majority is reported; further responses can only remove unanimous
    themes; at most four majority themes are reported. *)
Theorem X24_unanimity_shrinks (agent_responses more : list ResponseDict) :
  _find_unanimous_decisions []
  = ["All agents emphasize security"; "All agents emphasize testing";
     "All agents emphasize documentation"; "All agents emphasize best practices"]
  /\ incl (_find_unanimous_decisions (agent_responses +++ more))
          (_find_unanimous_decisions agent_responses)
  /\ _find_majority_decisions [] = []
  /\ length (_find_majority_decisions agent_responses) <= 4.
Proof.
  split; [reflexivity |]. split; [| split; [reflexivity |]].
  - unfold _find_unanimous_decisions. intros x Hx.
    apply in_map_iff in Hx. destruct Hx as [kw [<- Hkw]].
    apply filter_In in Hkw. destruct Hkw as [Hin Hall].
    rewrite forallb_app in Hall. apply andb_true_iff in Hall.
    apply in_map. apply filter_In. split; [exact Hin | apply Hall].
  - unfold _find_majority_decisions.
    match goal with
    | |- length (flat_map ?f ?l) <= 4 =>
        apply (Nat.le_trans _ (length l)); [apply flat_map_short | simpl; lia]
    end.
    intros kw. cbv zeta. destruct (Qlt_bool _ _); simpl; lia.
Qed.

Lemma filter_split {A : Type} (p q : A -> bool) (l : list A) :
  length (filter p l) + length (filter (fun x => negb (p x) && q x) l)
  = length (filter (fun x => p x || q x) l).
Proof.
  induction l as [| a rest IH]; simpl; [reflexivity |].
  destruct (p a), (q a); simpl; lia.
Qed.

(** X25.  [_generate_consensus_recommendations] puts each response of
    confidence at least 0.6 in exactly one of the two lists: 0.8 and above
    is high confidence, below is moderate; responses under 0.6 are in
    neither.  [conflicting_areas] is always empty, and the overall
    confidence of responses with confidences in [0, 1] stays in
    [0, 1]. *)
Theorem X25_consensus_buckets (agent_responses : list ResponseDict) :
  let consensus := _generate_consensus_recommendations agent_responses in
  length (high_confidence_recommendations consensus)
  + length (moderate_confidence_recommendations consensus)
  = length (filter (fun r => Qle_bool (6 # 10) (confidence_or (1 # 2) r))
                   agent_responses)
  /\ Forall (fun i => (8 # 10 <= item_confidence i)%Q)
            (high_confidence_recommendations consensus)
  /\ Forall (fun i => (6 # 10 <= item_confidence i)%Q
                      /\ ~ (8 # 10 <= item_confidence i)%Q)
            (moderate_confidence_recommendations consensus)
  /\ conflicting_areas consensus = []
  /\ ((forall r, In r agent_responses -> (0 <= confidence_or (1 # 2) r <= 1)%Q)
      -> (0 <= overall_confidence consensus <= 1)%Q).
Proof.
  cbv zeta. unfold _generate_consensus_recommendations.
  cbn [high_confidence_recommendations moderate_confidence_recommendations
       conflicting_areas overall_confidence].
  split; [| split; [| split; [| split]]].
  - rewrite !length_map, filter_split. f_equal. apply filter_ext. intros r.
    destruct (Qle_bool (8 # 10) (confidence_or (1 # 2) r)) eqn:E; [| reflexivity].
    simpl. symmetry. apply Qle_bool_iff. apply Qle_bool_iff in E. lra.
  - apply Forall_map. apply Forall_forall. intros r Hr.
    apply filter_In in Hr. destruct Hr as [_ Hr]. apply Qle_bool_iff in Hr. exact Hr.
  - apply Forall_map. apply Forall_forall. intros r Hr.
    apply filter_In in Hr. destruct Hr as [_ Hr].
    apply andb_true_iff in Hr. destruct Hr as [H8 H6].
    split; [apply Qle_bool_iff; exact H6 |].
    intros H. apply Qle_bool_iff in H. cbn [item_confidence recommendation_item] in H.
    rewrite H in H8. discriminate.
  - reflexivity.
  - intros Hall. destruct agent_responses as [| r rest]; [split; discriminate |].
    cbn [map]. rewrite <- (map_cons (confidence_or (1 # 2))).
    pose proof (@OrchestratorExtras.mean_bounds 0 1
                  (map (confidence_or (1 # 2)) (r :: rest))) as Hm.
    apply Hm; [discriminate |].
    intros x Hx. apply in_map_iff in Hx. destruct Hx as [r' [<- Hr']].
    apply Hall. exact Hr'.
Qed.

Definition from_the_consultant (o : Opportunity) : Prop :=
  opportunity_agent o = "security-consultant" /\ opportunity_impact o = "high".

Definition within (n : nat) (optimizations : Optimizations) : Prop :=
  length (performance_optimizations optimizations) <= n
  /\ length (security_enhancements optimizations) <= n
  /\ length (code_quality_improvements optimizations) <= n
  /\ length (architecture_optimizations optimizations) <= n
  /\ development_process_improvements optimizations = []
  /\ Forall from_the_consultant (security_enhancements optimizations).

Lemma optimization_step_within (n : nat) (optimizations : Optimizations)
    (response : ResponseDict) :
  within n optimizations -> within (S n) (optimization_step optimizations response).
Proof.
  intros [H1 [H2 [H3 [H4 [H5 H6]]]]]. unfold within, optimization_step. cbv zeta.
  cbn [performance_optimizations security_enhancements code_quality_improvements
       architecture_optimizations development_process_improvements].
  generalize (result_text response). intros text.
  repeat split.
  - destruct (contains "performance" text || _); [rewrite length_app; simpl |]; lia.
  - destruct (contains "security" text && _); [rewrite length_app; simpl |]; lia.
  - destruct (any_in _ text); [rewrite length_app; simpl |]; lia.
  - destruct (contains "architecture" text || _); [rewrite length_app; simpl |]; lia.
  - exact H5.
  - destruct (contains "security" text
              && String.eqb (name_or "unknown" response) "security-consultant") eqn:E;
      [| exact H6].
    apply Forall_app. split; [exact H6 |]. constructor; [| constructor].
    apply andb_true_iff in E. destruct E as [_ E]. apply String.eqb_eq in E.
    split; [exact E | reflexivity].
Qed.

Lemma optimizations_within (agent_responses : list ResponseDict) :
  forall (n : nat) (optimizations : Optimizations),
    within n optimizations ->
    within (n + length agent_responses)
           (fold_left optimization_step agent_responses optimizations).
Proof.
  induction agent_responses as [| r rest IH]; intros n o Ho; simpl.
  - rewrite Nat.add_0_r. exact Ho.
  - replace (n + S (length rest)) with (S n + length rest) by lia.
    apply IH. apply optimization_step_within. exact Ho.
Qed.

(** X26.  [_identify_optimizations] lists at most one opportunity per
    response in each category, never fills
    [development_process_improvements], and lists security enhancements
    only from the security consultant, with impact "high". *)
Theorem X26_optimizations_by_category (agent_responses : list ResponseDict) :
  let found := _identify_optimizations agent_responses in
  length (performance_optimizations found) <= length agent_responses
  /\ length (security_enhancements found) <= length agent_responses
  /\ length (code_quality_improvements found) <= length agent_responses
  /\ length (architecture_optimizations found) <= length agent_responses
  /\ development_process_improvements found = []
  /\ Forall (fun o => opportunity_agent o = "security-consultant"
                      /\ opportunity_impact o = "high")
            (security_enhancements found).
Proof.
  cbv zeta. unfold _identify_optimizations.
  apply (@optimizations_within agent_responses 0 (mkOptimizations [] [] [] [] [])).
  unfold within. simpl. repeat split; try lia. constructor.
Qed.

(** ** Witnesses *)

Lemma X14_reported_overlaps_witness :
  exists o,
    In o (_detect_agent_overlaps dedup [architect_output; security_output])
    /\ (1 # 5 <= overlap_confidence o <= 1)%Q.
Proof.
  eexists. split; [vm_compute; left; reflexivity |].
  refine (proj2 (proj2 (proj2
            (@X14_reported_overlaps dedup [architect_output; security_output] _ _ _)))).
  - intros r [<- | [<- | []]]; vm_compute; discriminate.
  - vm_compute. left. reflexivity.
Defined.

Lemma X15_reported_conflicts_witness :
  exists c,
    In c (_analyze_conflicts new_engine [architect_output; security_output] [])
    /\ length (resolution_options c) = 3.
Proof.
  eexists. split; [vm_compute; left; reflexivity |].
  refine (proj1 (proj2 (proj2
            (@X15_reported_conflicts new_engine [architect_output; security_output]
               [] _ _)))).
  vm_compute. left. reflexivity.
Defined.

Lemma X19_health_of_an_analysed_engine_witness :
  (0 <= _calculate_system_health_score
          (snd (analyze_agent_responses dedup new_engine
                  [architect_output; security_output] []))
   <= 1)%Q.
Proof.
  refine (proj2 (@X19_health_of_an_analysed_engine _ _)).
  apply analysed_run; [apply analysed_new |].
  repeat constructor; vm_compute; discriminate.
Defined.

Definition two_views : list ResponseDict :=
  [mkResponseDict (Some "success") (Some "backend-builder") (Some (8 # 10)%Q) []
     [[("decision", "Database engine"); ("recommendation", "PostgreSQL")]]
     (PDict []) [];
   mkResponseDict (Some "success") (Some "senior-architect") (Some (9 # 10)%Q) []
     [[("decision", "Database engine"); ("recommendation", "MongoDB")]]
     (PDict []) []].

Lemma X22_high_impact_needs_approval_witness :
  exists dp,
    In dp (_identify_decision_points dedup (fun _ => "") two_views)
    /\ stakeholder_approval_required dp = true.
Proof.
  eexists. split; [vm_compute; left; reflexivity |].
  refine (@X22_high_impact_needs_approval dedup (fun _ => "") two_views _ _ _).
  - vm_compute. left. reflexivity.
  - vm_compute. reflexivity.
Defined.

Lemma X23_easy_to_reverse_is_never_high_witness :
  risk_level (_analyze_decision_impact (fun _ => "") "Naming convention" []) <> "high".
Proof.
  refine (proj1 (proj2 (@X23_easy_to_reverse_is_never_high (fun _ => "")
                          "Naming convention" [] _))).
  vm_compute. reflexivity.
Defined.

End EngineExtras.

(* ------------------------------------------------------------------ *)
(** ** More on the methodology validator                               *)
(* ------------------------------------------------------------------ *)

Module ValidatorExtras.
Import Py PyFacts MethodologyValidator ValidatorTheorems.

Lemma score_range (result : MethodologyValidationResult) :
  (0 <= _calculate_validation_score result <= 1)%Q.
Proof.
  unfold _calculate_validation_score. cbv zeta. split.
  - apply py_max_ge_l.
  - apply py_max_le; [lra | apply py_min_le_l].
Qed.

Lemma adherence_range (result : MethodologyValidationResult) :
  (0 <= validation_score result <= 1)%Q ->
  (0 <= _calculate_framework_adherence result <= 1)%Q.
Proof.
  intros [H0 H1]. unfold _calculate_framework_adherence. cbv zeta.
  destruct (0 <? count_where is_critical (issues result)).
  - split; [eapply Qle_trans; [| apply py_max_ge_l]; lra | apply py_max_le; lra].
  - destruct (1 <? count_where is_error (issues result)).
    + split; [eapply Qle_trans; [| apply py_max_ge_l]; lra | apply py_max_le; lra].
    + split; assumption.
Qed.

Lemma compliance_labels (sc : Q) :
  In (_determine_compliance_level sc) ["excellent"; "good"; "fair"; "poor"].
Proof.
  unfold _determine_compliance_level.
  destruct (Qle_bool (9 # 10) sc); [simpl; tauto |].
  destruct (Qle_bool (75 # 100) sc); [simpl; tauto |].
  destruct (Qle_bool (6 # 10) sc); simpl; tauto.
Qed.

Lemma dispatch_keeps_claim (mt : MethodologyType) (agent_response : ResponseDict)
    (result : MethodologyValidationResult) :
  methodology_claimed (scored (dispatch mt agent_response result))
  = methodology_claimed result.
Proof. destruct mt; reflexivity. Qed.

Lemma scored_facts (result : MethodologyValidationResult) :
  (0 <= validation_score (scored result) <= 1)%Q
  /\ (0 <= expert_framework_adherence (scored result) <= 1)%Q
  /\ overall_compliance (scored result)
     = _determine_compliance_level (validation_score (scored result)).
Proof.
  unfold scored. cbv zeta.
  cbn [validation_score expert_framework_adherence overall_compliance].
  pose proof (score_range result) as Hs.
  split; [exact Hs |]. split; [| reflexivity].
  apply adherence_range. cbn [validation_score]. exact Hs.
Qed.

(** X27.  Every result of [validate_agent_methodology] carries the agent
    name and the claimed methodology it was given, a score and a
    framework adherence between 0 and 1, and one of the four compliance
    labels.  For a recognized methodology the label is the one
    [_determine_compliance_level] gives the score; for an unrecognized
    one the result is 0.5 with the label "fair" (which that function
    would call "poor") and a single issue. *)
Theorem X27_validation_result_ranges (self : Validator) (agent_response : ResponseDict)
    (claimed name : string) :
  let r := fst (validate_agent_methodology self agent_response claimed name) in
  agent_name r = name
  /\ methodology_claimed r = claimed
  /\ (0 <= validation_score r <= 1)%Q
  /\ (0 <= expert_framework_adherence r <= 1)%Q
  /\ In (overall_compliance r) ["excellent"; "good"; "fair"; "poor"]
  /\ ((_map_methodology_string_to_type claimed = None
       /\ (validation_score r == 1 # 2)%Q
       /\ overall_compliance r = "fair"
       /\ _determine_compliance_level (validation_score r) = "poor"
       /\ length (issues r) = 1)
      \/ (_map_methodology_string_to_type claimed <> None
          /\ overall_compliance r = _determine_compliance_level (validation_score r))).
Proof.
  cbv zeta. unfold validate_agent_methodology.
  destruct (_map_methodology_string_to_type claimed) as [mt |]; cbn [fst].
  - rewrite dispatch_keeps_name, dispatch_keeps_claim.
    destruct (scored_facts
                (dispatch mt agent_response
                   (mkResult name claimed 0%Q "unknown" [] [] [] true 0%Q)))
      as [Hs [Ha Hc]].
    repeat split; try apply Hs; try apply Ha.
    + rewrite Hc. apply compliance_labels.
    + right. split; [discriminate | exact Hc].
  - cbn [agent_name methodology_claimed validation_score expert_framework_adherence
         overall_compliance issues].
    repeat split; try (vm_compute; discriminate).
    + simpl. tauto.
    + left. repeat split.
Qed.

Definition earlier_total (self : Validator) (name : string) : nat :=
  match lookup name (agent_methodology_tracking self) with
  | Some t => total_validations t
  | None => 0
  end.

Lemma set_add_In (x : string) (l : list string) : In x (set_add x l).
Proof.
  unfold set_add. destruct (mem x l) eqn:E.
  - apply existsb_exists in E. destruct E as [y [Hy E]].
    apply String.eqb_eq in E. subst. exact Hy.
  - apply in_or_app. right. left. reflexivity.
Qed.

(** X28.  A validation with an unrecognized methodology leaves the
    validator as it was.  With a recognized one the result is appended to
    the history, the agent's tracking counts one more validation and
    holds the claimed methodology, and no other agent's tracking
    changes. *)
Theorem X28_validation_bookkeeping (self : Validator) (agent_response : ResponseDict)
    (claimed name : string) :
  let run := validate_agent_methodology self agent_response claimed name in
  match _map_methodology_string_to_type claimed with
  | None => snd run = self
  | Some _ =>
      validation_history (snd run) = validation_history self +++ [fst run]
      /\ (exists t,
            lookup name (agent_methodology_tracking (snd run)) = Some t
            /\ total_validations t = earlier_total self name + 1
            /\ In claimed (claimed_methodologies t))
      /\ (forall other,
            other <> name ->
            lookup other (agent_methodology_tracking (snd run))
            = lookup other (agent_methodology_tracking self))
  end.
Proof.
  cbv zeta. unfold validate_agent_methodology.
  destruct (_map_methodology_string_to_type claimed) as [mt |]; [| reflexivity].
  cbn [fst snd]. unfold _update_agent_tracking. cbv zeta.
  cbn [validation_history agent_methodology_tracking].
  split; [reflexivity |]. split.
  - eexists. rewrite lookup_store, String.eqb_refl. split; [reflexivity |].
    cbn [total_validations claimed_methodologies]. split.
    + unfold earlier_total.
      destruct (lookup name (agent_methodology_tracking self)); reflexivity.
    + rewrite dispatch_keeps_claim. apply set_add_In.
  - intros other Hother. rewrite lookup_store.
    destruct (String.eqb other name) eqn:E; [| reflexivity].
    apply String.eqb_eq in E. contradiction.
Qed.

(** ** Tracking over a run of validations *)

(** The validations of one agent that the history holds. *)
Definition recorded (self : Validator) (name : string)
    : list MethodologyValidationResult :=
  filter (fun r => String.eqb (agent_name r) name) (validation_history self).

Definition faithful (self : Validator) (name : string) (t : Tracking) : Prop :=
  total_validations t = length (recorded self name)
  /\ 1 <= total_validations t
  /\ (0 <= average_score t <= 1)%Q
  /\ NoDup (claimed_methodologies t)
  /\ (forall c, In c (claimed_methodologies t)
                <-> In c (map methodology_claimed (recorded self name)))
  /\ tracked_consistency t = (length (claimed_methodologies t) <=? 1).

Definition well_tracked (self : Validator) : Prop :=
  Forall (fun r => 0 <= validation_score r <= 1)%Q (validation_history self)
  /\ forall name,
       match lookup name (agent_methodology_tracking self) with
       | Some t => faithful self name t
       | None => recorded self name = []
       end.

Lemma set_add_NoDup (x : string) (l : list string) : NoDup l -> NoDup (set_add x l).
Proof.
  intros H. unfold set_add. destruct (mem x l) eqn:E; [exact H |].
  apply NoDup_app; [exact H | repeat constructor; intros [] |].
  intros y Hy [Heq | []]. subst y.
  assert (mem x l = true) as M
    by (apply existsb_exists; exists x; split; [exact Hy | apply String.eqb_refl]).
  congruence.
Qed.

Lemma set_add_iff (x y : string) (l : list string) :
  In y (set_add x l) <-> y = x \/ In y l.
Proof.
  unfold set_add. destruct (mem x l) eqn:E.
  - split; [tauto |]. intros [-> | H]; [| exact H].
    apply existsb_exists in E. destruct E as [z [Hz E]].
    apply String.eqb_eq in E. subst. exact Hz.
  - rewrite in_app_iff. simpl. intuition congruence.
Qed.

Lemma set_add_length (x : string) (l : list string) :
  length l <= length (set_add x l) /\ 1 <= length (set_add x l).
Proof.
  unfold set_add. destruct (mem x l) eqn:E.
  - split; [lia |]. destruct l; [discriminate | simpl; lia].
  - rewrite length_app. simpl. lia.
Qed.

Lemma running_average (avg sc : Q) (n : nat) :
  (0 <= avg <= 1)%Q -> (0 <= sc <= 1)%Q ->
  (0 <= (avg * Qnat (n + 1 - 1) + sc) / Qnat (n + 1) <= 1)%Q.
Proof.
  intros Ha Hs. replace (n + 1) with (S n) by lia.
  apply EngineExtras.running_mean; assumption.
Qed.

Lemma validation_step (self : Validator) (agent_response : ResponseDict)
    (claimed who : string) :
  well_tracked self ->
  well_tracked (snd (validate_agent_methodology self agent_response claimed who)).
Proof.
  intros [Hhist Htrack]. unfold validate_agent_methodology.
  destruct (_map_methodology_string_to_type claimed) as [mt |];
    [| split; assumption].
  cbn [snd]. unfold _update_agent_tracking. cbv zeta.
  pose proof (proj1 (scored_facts
                       (dispatch mt agent_response
                          (mkResult who claimed 0%Q "unknown" [] [] [] true 0%Q))))
    as Hscore.
  pose proof (dispatch_keeps_name mt agent_response
                (mkResult who claimed 0%Q "unknown" [] [] [] true 0%Q)) as Hname.
  pose proof (dispatch_keeps_claim mt agent_response
                (mkResult who claimed 0%Q "unknown" [] [] [] true 0%Q)) as Hclaim.
  cbn [agent_name methodology_claimed] in Hname, Hclaim.
  set (final := scored (dispatch mt agent_response
                          (mkResult who claimed 0%Q "unknown" [] [] [] true 0%Q))) in *.
  split.
  - cbn [validation_history]. apply Forall_app. split; [exact Hhist |].
    constructor; [exact Hscore | constructor].
  - intros name. cbn [agent_methodology_tracking]. rewrite lookup_store.
    specialize (Htrack name).
    unfold faithful, recorded in *. cbn [validation_history] in *.
    rewrite filter_app. cbn [filter]. rewrite Hname.
    destruct (String.eqb name who) eqn:E.
    + apply String.eqb_eq in E. subst name. rewrite String.eqb_refl.
      cbn [total_validations average_score claimed_methodologies tracked_consistency].
      rewrite length_app, map_app. cbn [length map]. rewrite Hclaim.
      destruct (lookup who (agent_methodology_tracking self)) as [t |].
      * destruct Htrack as [H1 [H2 [H3 [H4 [H5 H6]]]]].
        split; [lia |]. split; [lia |].
        split; [apply running_average; assumption |].
        split; [apply set_add_NoDup; exact H4 |].
        split.
        -- intros c. rewrite set_add_iff, in_app_iff, H5.
           simpl. intuition congruence.
        -- pose proof (set_add_length claimed (claimed_methodologies t)) as [L1 L2].
           rewrite H6.
           destruct (1 <? length (set_add claimed (claimed_methodologies t))) eqn:L.
           ++ apply Nat.ltb_lt in L. symmetry. apply Nat.leb_gt. exact L.
           ++ apply Nat.ltb_ge in L.
              transitivity true; [apply Nat.leb_le; lia | symmetry; apply Nat.leb_le; lia].
      * rewrite Htrack. cbn [total_validations average_score claimed_methodologies
                             tracked_consistency length app map].
        split; [reflexivity |]. split; [lia |].
        split; [apply running_average; [split; lra | assumption] |].
        split; [apply set_add_NoDup; constructor |].
        split.
        -- intros c. rewrite set_add_iff. simpl. intuition congruence.
        -- reflexivity.
    + rewrite String.eqb_sym, E. rewrite app_nil_r. exact Htrack.
Qed.

Lemma reachable_well_tracked (self : Validator) : reachable self -> well_tracked self.
Proof.
  induction 1 as [| self agent_response claimed who Hreach IH].
  - split; [constructor | intros name; reflexivity].
  - apply validation_step. exact IH.
Qed.

Section TrackedReports.

Variable list_of_set : list string -> list string.

(** X29.  In a validator reached by validations, the tracking of an
    agent counts exactly the agent's results in the history, averages to
    a score between 0 and 1, holds each claimed methodology of those
    results once, and is flagged consistent exactly when at most one
    methodology was claimed; the agent's report shows these figures, with
    at most five recent scores, issues and strengths. *)
Theorem X29_tracking_matches_history (self : Validator) (name : string) (t : Tracking) :
  reachable self ->
  lookup name (agent_methodology_tracking self) = Some t ->
  total_validations t = length (recorded self name)
  /\ 1 <= total_validations t
  /\ (0 <= average_score t <= 1)%Q
  /\ NoDup (claimed_methodologies t)
  /\ (forall c, In c (claimed_methodologies t)
                <-> In c (map methodology_claimed (recorded self name)))
  /\ tracked_consistency t = (length (claimed_methodologies t) <=? 1)
  /\ exists trends top_issues top_strengths advice,
       fst (get_agent_methodology_report list_of_set self name)
       = AgentReport name
           (mkSummary (length (recorded self name)) (average_score t)
              (length (claimed_methodologies t) <=? 1)
              (list_of_set (claimed_methodologies t)))
           trends top_issues top_strengths advice
       /\ length (recent_scores trends) <= 5
       /\ length top_issues <= 5
       /\ length top_strengths <= 5.
Proof.
  intros Hreach Hlook.
  destruct (reachable_well_tracked Hreach) as [_ Htrack].
  specialize (Htrack name). rewrite Hlook in Htrack.
  destruct Htrack as [H1 [H2 [H3 [H4 [H5 H6]]]]].
  repeat (split; [assumption |]).
  unfold get_agent_methodology_report. rewrite Hlook. cbn [fst].
  rewrite H1, H6. do 4 eexists. split; [reflexivity |].
  cbn [recent_scores]. rewrite length_map.
  split; [| split; apply firstn_le_length].
  unfold last_n. rewrite length_skipn. lia.
Qed.

End TrackedReports.

(** ** System health *)

Lemma bump_total (d : list (string * nat)) (k : string) :
  list_sum (map snd (bump d k)) = S (list_sum (map snd d)).
Proof.
  unfold bump. induction d as [| [k' n] rest IH]; simpl; [reflexivity |].
  destruct (String.eqb k k'); simpl; [lia |]. rewrite IH. lia.
Qed.

Lemma bump_fold_total {A : Type} (key : A -> string) (l : list A) :
  forall d,
    list_sum (map snd (fold_left (fun acc x => bump acc (key x)) l d))
    = list_sum (map snd d) + length l.
Proof.
  induction l as [| x rest IH]; intros d; simpl; [lia |].
  rewrite IH, bump_total. lia.
Qed.

Lemma last_n_length {A : Type} (n : nat) (l : list A) :
  length (last_n n l) = Nat.min n (length l).
Proof. unfold last_n. rewrite length_skipn. lia. Qed.

Lemma last_n_incl {A : Type} (n : nat) (l : list A) (x : A) :
  In x (last_n n l) -> In x l.
Proof.
  unfold last_n. intros H. rewrite <- (firstn_skipn (length l - n) l).
  apply in_or_app. right. exact H.
Qed.

(** X30.  [get_system_methodology_health] of a validator reached by
    validations answers "no_data" exactly on an empty history; otherwise
    the health score is between 0 and 1, at most the 20 latest results
    are analysed, the compliance distribution adds up to their number,
    the severity breakdown to the number of their issues, at most five
    common issues are listed, and every methodology of the enumeration
    has a coverage entry. *)
Theorem X30_system_health (self : Validator) :
  reachable self ->
  match get_system_methodology_health self with
  | NoData status message =>
      validation_history self = [] /\ status = "no_data"
  | HealthReport health =>
      validation_history self <> []
      /\ (0 <= system_health_score health <= 1)%Q
      /\ health_total_validations health = length (validation_history self)
      /\ recent_validations_analyzed health
         = Nat.min 20 (length (validation_history self))
      /\ list_sum (map snd (compliance_distribution health))
         = recent_validations_analyzed health
      /\ list_sum (map snd (issue_severity_breakdown health))
         = length (flat_map issues (last_n 20 (validation_history self)))
      /\ length (most_common_issues health) <= 5
      /\ map fst (methodology_coverage health) = map methodology_value all_methodologies
  end.
Proof.
  intros Hreach. destruct (reachable_well_tracked Hreach) as [Hhist _].
  unfold get_system_methodology_health.
  destruct (validation_history self) as [| r rest] eqn:E; [split; reflexivity |].
  rewrite <- E in *. cbv zeta.
  cbn [system_health_score health_total_validations recent_validations_analyzed
       compliance_distribution issue_severity_breakdown most_common_issues
       methodology_coverage].
  assert (validation_history self <> []) as Hne by (rewrite E; discriminate).
  assert (last_n 20 (validation_history self) <> []) as Hrecent.
  { intros H. apply (f_equal (@length _)) in H. rewrite last_n_length, E in H.
    simpl in H. lia. }
  split; [exact Hne |]. split.
  - pose proof (@OrchestratorExtras.mean_bounds 0 1
                  (map validation_score (last_n 20 (validation_history self))))
      as Hm.
    rewrite length_map in Hm. apply Hm.
    + intros H. apply map_eq_nil in H. contradiction.
    + intros x Hx. apply in_map_iff in Hx. destruct Hx as [v [<- Hv]].
      apply last_n_incl in Hv. rewrite Forall_forall in Hhist. apply Hhist. exact Hv.
  - split; [reflexivity |]. split; [apply last_n_length |].
    split; [rewrite bump_fold_total; reflexivity |].
    split; [rewrite bump_fold_total; reflexivity |].
    split; [apply firstn_le_length |].
    rewrite map_map. reflexivity.
Qed.

(** ** Witnesses *)

Lemma X29_tracking_matches_history_witness :
  exists t,
    lookup "senior-architect"
      (agent_methodology_tracking
         (snd (validate_agent_methodology new_validator plain_response
                 "SOLID principles" "senior-architect")))
    = Some t
    /\ total_validations t = 1.
Proof.
  eexists. split; [vm_compute; reflexivity |].
  refine (proj1 (@X29_tracking_matches_history dedup
                   (snd (validate_agent_methodology new_validator plain_response
                           "SOLID principles" "senior-architect"))
                   "senior-architect" _
                   (reach_validate plain_response "SOLID principles" "senior-architect"
                      reach_new) _)).
  vm_compute. reflexivity.
Defined.

(** A validator after one validation. *)
Definition validated_once : Validator :=
  snd (validate_agent_methodology new_validator plain_response
         "SOLID principles" "senior-architect").

Lemma X30_system_health_witness :
  get_system_methodology_health new_validator
  = NoData "no_data" "No validation history available"
  /\ exists health,
       get_system_methodology_health validated_once = HealthReport health
       /\ (0 <= system_health_score health <= 1)%Q
       /\ health_total_validations health = 1
       /\ recent_validations_analyzed health = 1
       /\ list_sum (map snd (compliance_distribution health)) = 1
       /\ list_sum (map snd (issue_severity_breakdown health)) = 1
       /\ length (most_common_issues health) <= 5
       /\ map fst (methodology_coverage health) = map methodology_value all_methodologies.
Proof.
  split; [reflexivity |].
  pose proof (@X30_system_health validated_once
                (reach_validate plain_response "SOLID principles" "senior-architect"
                   reach_new)) as H.
  destruct (get_system_methodology_health validated_once) as [st msg | health].
  - destruct H as [Hempty _]. vm_compute in Hempty. discriminate Hempty.
  - exists health. split; [reflexivity |].
    destruct H as [_ [Hscore [Htotal [Hrecent [Hdist [Hsev [Hcommon Hcov]]]]]]].
    split; [exact Hscore |].
    split; [rewrite Htotal; reflexivity |].
    split; [rewrite Hrecent; reflexivity |].
    split; [rewrite Hdist, Hrecent; reflexivity |].
    split; [rewrite Hsev; reflexivity |].
    split; [exact Hcommon | exact Hcov].
Defined.

End ValidatorExtras.
